(** * ChainAudit: the on-chain registries and the risk bucketing of the pipeline

    A shallow embedding of the three Solidity contracts of the repository
    (ScamDetector, AuditRegistry, TokenAnalyzer) and of the risk-level
    bucketing of the TypeScript audit services, with the properties of the
    specification stated over them.

    Conventions.
    - [address] and [uint256] are [Z]; the range of a machine integer is
      written out where an operation can leave it (checked arithmetic of
      Solidity 0.8 reverts, it does not wrap).
    - a [mapping(address => T)] is a [gmap Z T] read with the zero value of
      [T] as default, as a Solidity mapping is.
    - an external function is a function from the call context and the
      contract storage to either a revert reason or a return value with the
      new storage. A transaction that reverts leaves the storage of before
      the call.
    - a read of another account under [try] has three outcomes: the
      [returns] clause, the [catch] clause, and the failure raised in the
      caller (no code at the account, or an answer the ABI decoder
      refuses), which no clause catches and which reverts the call. *)

From Stdlib Require Import ZArith Lia List String Ascii.
From stdpp Require Import gmap strings list.

Local Open Scope Z_scope.

(** ** Keccak-256, the hash behind Solidity's [keccak256] *)

Module Keccak.

Definition rotl64 (x n : Z) : Z :=
  Z.land (Z.lor (Z.shiftl x n) (Z.shiftr x (64 - n))) (Z.ones 64).

Definition lane (a : list Z) (i : nat) : Z := nth i a 0.

Definition round_constants : list Z :=
  [ 0x0000000000000001; 0x0000000000008082; 0x800000000000808A;
    0x8000000080008000; 0x000000000000808B; 0x0000000080000001;
    0x8000000080008081; 0x8000000000008009; 0x000000000000008A;
    0x0000000000000088; 0x0000000080008009; 0x000000008000000A;
    0x000000008000808B; 0x800000000000008B; 0x8000000000008089;
    0x8000000000008003; 0x8000000000008002; 0x8000000000000080;
    0x000000000000800A; 0x800000008000000A; 0x8000000080008081;
    0x8000000000008080; 0x0000000080000001; 0x8000000080008008 ].

(** Rotation offsets, lane [x + 5 * y] at position [x + 5 * y]. *)
Definition rotation_offsets : list Z :=
  [  0;  1; 62; 28; 27;
    36; 44;  6; 55; 20;
     3; 10; 43; 25; 39;
    41; 45; 15; 21;  8;
    18;  2; 61; 56; 14 ].

Definition column_parity (a : list Z) (x : nat) : Z :=
  Z.lxor (lane a x)
    (Z.lxor (lane a (x + 5))
       (Z.lxor (lane a (x + 10))
          (Z.lxor (lane a (x + 15)) (lane a (x + 20))))).

Definition theta (a : list Z) : list Z :=
  let c := map (column_parity a) (seq 0 5) in
  let d (x : nat) :=
    Z.lxor (lane c ((x + 4) mod 5)) (rotl64 (lane c ((x + 1) mod 5)) 1) in
  map (fun i => Z.lxor (lane a i) (d (i mod 5)%nat)) (seq 0 25).

(** rho and pi together: the lane that lands at (x, y) comes from
    ((x + 3 y) mod 5, x), rotated by the offset of its origin. *)
Definition rho_pi (a : list Z) : list Z :=
  map (fun i =>
         let x := (i mod 5)%nat in
         let y := (i / 5)%nat in
         let src := (((x + 3 * y) mod 5) + 5 * x)%nat in
         rotl64 (lane a src) (lane rotation_offsets src))
      (seq 0 25).

Definition chi (b : list Z) : list Z :=
  map (fun i =>
         let x := (i mod 5)%nat in
         let row := (5 * (i / 5))%nat in
         Z.lxor (lane b i)
           (Z.land (Z.lxor (lane b (row + (x + 1) mod 5)) (Z.ones 64))
                   (lane b (row + (x + 2) mod 5))))
      (seq 0 25).

Definition iota (rc : Z) (a : list Z) : list Z :=
  match a with
  | [] => []
  | a0 :: rest => Z.lxor a0 rc :: rest
  end.

Definition round (a : list Z) (rc : Z) : list Z :=
  iota rc (chi (rho_pi (theta a))).

Definition keccak_f (a : list Z) : list Z :=
  fold_left round round_constants a.

(** Little-endian bytes to a lane and back. *)
Fixpoint le_to_Z (bs : list Z) : Z :=
  match bs with
  | [] => 0
  | b :: rest => b + 256 * le_to_Z rest
  end.

Fixpoint Z_to_le (n : nat) (v : Z) : list Z :=
  match n with
  | O => []
  | S n' => v mod 256 :: Z_to_le n' (v / 256)
  end.

(** The rate of Keccak-256 is 136 bytes, that is 17 lanes. *)
Definition rate : nat := 136.

Fixpoint lanes_of_block (n : nat) (block : list Z) : list Z :=
  match n with
  | O => []
  | S n' => le_to_Z (firstn 8 block) :: lanes_of_block n' (skipn 8 block)
  end.

Definition absorb_block (a block : list Z) : list Z :=
  let ls := lanes_of_block 17 block in
  keccak_f (map (fun i => Z.lxor (lane a i) (lane ls i)) (seq 0 25)).

Fixpoint absorb (fuel : nat) (a bytes : list Z) : list Z :=
  match fuel with
  | O => a
  | S fuel' =>
      match bytes with
      | [] => a
      | _ => absorb fuel' (absorb_block a (firstn rate bytes)) (skipn rate bytes)
      end
  end.

(** Multi-rate padding with the domain byte [0x01] of the original Keccak
    (the one the EVM uses). *)
Definition pad (len : nat) : list Z :=
  let q := (rate - len mod rate)%nat in
  match q with
  | 1%nat => [0x81]
  | _ => 0x01 :: repeat 0 (q - 2) ++ [0x80]
  end.

Definition keccak256 (msg : list Z) : list Z :=
  let padded := msg ++ pad (length msg) in
  let final := absorb (length padded) (repeat 0 25) padded in
  flat_map (Z_to_le 8) (firstn 4 final).

(** [uint256(bytes32)]: the 32 bytes read as a big-endian number. *)
Definition be_to_Z (bs : list Z) : Z :=
  fold_left (fun acc b => acc * 256 + b) bs 0.

(** [n] bytes of [v], most significant first ([abi.encodePacked] of an
    [address] with [n = 20], of a [uint256] with [n = 32]). *)
Definition Z_to_be (n : nat) (v : Z) : list Z := rev (Z_to_le n v).

Definition bytes_of_string (s : string) : list Z :=
  map (fun c => Z.of_nat (nat_of_ascii c)) (list_ascii_of_string s).

End Keccak.

(** ** What the three contracts share: addresses, reverts, call context *)

Module Evm.

Definition address : Type := Z.

(** [address(0)], the zero-address sentinel. *)
Definition zero_address : address := 0.

Definition uint256_max : Z := 2 ^ 256 - 1.

(** The reasons a call of one of the three contracts can revert with: the
    messages of the [require]s of the sources, the two of the OpenZeppelin
    bases ([Ownable], [ReentrancyGuard]), the panics of checked
    arithmetic and of array indexing, and the revert without a message of
    an external read that fails outside its [catch] clause. *)
Inductive revert_reason : Type :=
| InvalidTokenAddress      (* "Invalid token address" *)
| NotAuthorizedAuditor     (* "Not authorized auditor" *)
| RiskScoreTooHigh         (* "Risk score must be <= 100" *)
| TooManyTokens            (* "Too many tokens to analyze at once" *)
| CallerIsNotTheOwner      (* "Ownable: caller is not the owner" *)
| ReentrantCall            (* "ReentrancyGuard: reentrant call" *)
| ArithmeticOverflow       (* Panic(0x11) *)
| IndexOutOfBounds         (* Panic(0x32) *)
| UncaughtCallFailure.     (* revert with no data, raised in the caller *)

(** The taxonomy of section 7 of the specification. *)
Inductive error_class : Type :=
| ValidationError
| AuthorizationError
| OtherFailure.

(** Follows the specification, section 7: a validation error is malformed
    input (zero address, batch too large, score out of range), an
    authorization error a caller without the required role. *)
Definition classify (r : revert_reason) : error_class :=
  match r with
  | InvalidTokenAddress | RiskScoreTooHigh | TooManyTokens => ValidationError
  | NotAuthorizedAuditor | CallerIsNotTheOwner => AuthorizationError
  | ReentrantCall | ArithmeticOverflow | IndexOutOfBounds
  | UncaughtCallFailure => OtherFailure
  end.

Inductive result (A : Type) : Type :=
| Ok (a : A)
| Revert (r : revert_reason).
Arguments Ok {A} a.
Arguments Revert {A} r.

#[global] Instance result_ret : MRet result := fun A a => Ok a.
#[global] Instance result_bind : MBind result := fun A B k m =>
  match m with
  | Ok a => k a
  | Revert r => Revert r
  end.

Definition require (cond : bool) (r : revert_reason) : result unit :=
  if cond then Ok tt else Revert r.

(** [x + y] on [uint256] under Solidity 0.8: reverts instead of wrapping. *)
Definition checked_add (x y : Z) : result Z :=
  if x + y <=? uint256_max then Ok (x + y) else Revert ArithmeticOverflow.

(** [if (c) x += k;] *)
Definition add_if (c : bool) (x k : Z) : result Z :=
  if c then checked_add x k else Ok x.

(** The context of a message call. *)
Record Ctx : Type := mkCtx {
  msg_sender : address;
  this_address : address;
  block_timestamp : Z
}.

(** What a call leaves behind: a call that reverts leaves the storage it
    found, one that returns leaves the storage it computed. *)
Definition storage_after {S A : Type} (before : S) (r : result (A * S)) : S :=
  match r with
  | Ok (_, after) => after
  | Revert _ => before
  end.

Definition returned {A S : Type} (r : result (A * S)) : option A :=
  match r with
  | Ok (a, _) => Some a
  | Revert _ => None
  end.

(** Reading a [mapping(address => V)]: the zero value where nothing was
    written. *)
Definition mapping_get {V : Type} (zero : V) (m : gmap Z V) (k : address) : V :=
  default zero (m !! k).

(** [abi.encodePacked] of an address (20 bytes) and of a uint256 (32). *)
Definition encode_address (a : address) : list Z := Keccak.Z_to_be 20 a.
Definition encode_uint256 (v : Z) : list Z := Keccak.Z_to_be 32 v.

(** [uint256(keccak256(bytes))] *)
Definition keccak256_uint (bytes : list Z) : Z :=
  Keccak.be_to_Z (Keccak.keccak256 bytes).

(** *** External reads under [try]

    What the account called answers to a read: it returns data (for the
    one-word types the word returned, for [string] the string encoded), it
    reverts, or it returns data that are not an encoding at all (too short
    for the type). *)
Inductive reply (A : Type) : Type :=
| Reply (v : A)
| Reverted
| Malformed.
Arguments Reply {A} v.
Arguments Reverted {A}.
Arguments Malformed {A}.

(** [try T(a).f() returns (v) { ... } catch { ... }] under Solidity 0.8
    ends in one of three ways: the [returns] clause runs on the decoded
    value; the [catch] clause runs, the callee having reverted; or the
    failure is raised in the caller, where neither clause sees it, and the
    whole call reverts without a message. *)
Inductive try_outcome (A : Type) : Type :=
| Returns (v : A)
| Catches
| Uncaught.
Arguments Returns {A} v.
Arguments Catches {A}.
Arguments Uncaught {A}.

(** The checks of the ABI decoder on what came back. A [uint8] is a word
    of at most 255, an [address] a word below [2^160]; any word is a
    [uint256]. *)
Definition decode_uint8 (w : Z) : option Z :=
  if (0 <=? w) && (w <=? 255) then Some w else None.
Definition decode_address (w : Z) : option address :=
  if (0 <=? w) && (w <? 2 ^ 160) then Some w else None.
Definition decode_uint256 (w : Z) : option Z :=
  if (0 <=? w) && (w <=? uint256_max) then Some w else None.
Definition decode_string (s : string) : option string := Some s.

(** The outcome of a [try] on the account [a], of code size [codeSize].
    An account without code executes nothing: the call comes back with no
    data, the decoder refuses them, and that failure is the caller's. So
    is every other refusal of the decoder. Only a revert of the callee
    reaches [catch]. *)
Definition try_call {A B : Type} (codeSize : Z) (decode : A -> option B)
    (r : reply A) : try_outcome B :=
  if codeSize =? 0 then Uncaught
  else
    match r with
    | Reply v =>
        match decode v with
        | Some b => Returns b
        | None => Uncaught
        end
    | Reverted => Catches
    | Malformed => Uncaught
    end.

(** The two clauses of a [try] as functions to the value the statement
    leaves; the third outcome reverts the caller. *)
Definition try_catch {A S : Type} (o : try_outcome A) (returns : A -> S) (catch : S)
  : result S :=
  match o with
  | Returns v => Ok (returns v)
  | Catches => Ok catch
  | Uncaught => Revert UncaughtCallFailure
  end.

Definition uncaught {A : Type} (o : try_outcome A) : bool :=
  match o with
  | Uncaught => true
  | _ => false
  end.

(** The value a [try] whose [returns] clause keeps the value read and
    whose [catch] clause puts [fallback] in its place leaves. *)
Definition read_or {A : Type} (fallback : A) (o : try_outcome A) : A :=
  match o with
  | Returns v => v
  | _ => fallback
  end.

(** Modelled from the spec: [Ownable] is imported from OpenZeppelin and is
    not among the sources. Section 4 restricts the administrative
    operations "to the registry's administrator identity", the deploying
    identity: the storage records that owner, and [onlyOwner] lets only
    that account through ("Ownable: caller is not the owner"). *)
Class Ownable (S : Type) : Type := {
  contract_owner : S -> address
}.

(** Modelled from the spec: the [onlyOwner] modifier of the same import. *)
Definition onlyOwner {S A : Type} `{Ownable S} (ctx : Ctx)
    (body : S -> result (A * S)) (st : S) : result (A * S) :=
  _ ← require (msg_sender ctx =? contract_owner st) CallerIsNotTheOwner;
  body st.

(** Modelled from the spec: [ReentrancyGuard] is imported from OpenZeppelin
    and is not among the sources. Sections 4.3 and 5 ask of the guard that
    it "prevent a write operation from being re-entered by a nested call
    originating from within its own execution": one status word for the
    whole contract; [nonReentrant] refuses to run while the word says
    entered ("ReentrancyGuard: reentrant call"), sets it for the time of
    the body and resets it afterwards. *)
Inductive GuardStatus : Type := NOT_ENTERED | ENTERED.

Definition is_entered (g : GuardStatus) : bool :=
  match g with
  | ENTERED => true
  | NOT_ENTERED => false
  end.

Class ReentrancyGuard (S : Type) : Type := {
  guard_status : S -> GuardStatus;
  set_guard_status : GuardStatus -> S -> S
}.

(** Modelled from the spec: the [nonReentrant] modifier of the same import;
    the check and the set come before the body, the reset after it. *)
Definition nonReentrant {S A : Type} `{ReentrancyGuard S}
    (body : S -> result (A * S)) (st : S) : result (A * S) :=
  _ ← require (negb (is_entered (guard_status st))) ReentrantCall;
  '(a, st) ← body (set_guard_status ENTERED st);
  Ok (a, set_guard_status NOT_ENTERED st).

End Evm.

(** ** ScamDetector.sol *)

Module ScamDetector.
Import Evm.

Record ScamFlags : Type := mkScamFlags {
  hasHiddenMint : bool;
  hasBlacklist : bool;
  hasHighTax : bool;
  hasLiquidityDrain : bool;
  hasOwnershipIssues : bool;
  isHoneypot : bool;
  riskScore : Z
}.

(** A [ScamFlags memory flags;] declaration: every field zero. *)
Definition zero_flags : ScamFlags := mkScamFlags false false false false false false 0.

Definition set_hasHiddenMint (v : bool) (f : ScamFlags) : ScamFlags :=
  mkScamFlags v (hasBlacklist f) (hasHighTax f) (hasLiquidityDrain f)
              (hasOwnershipIssues f) (isHoneypot f) (riskScore f).
Definition set_hasBlacklist (v : bool) (f : ScamFlags) : ScamFlags :=
  mkScamFlags (hasHiddenMint f) v (hasHighTax f) (hasLiquidityDrain f)
              (hasOwnershipIssues f) (isHoneypot f) (riskScore f).
Definition set_hasHighTax (v : bool) (f : ScamFlags) : ScamFlags :=
  mkScamFlags (hasHiddenMint f) (hasBlacklist f) v (hasLiquidityDrain f)
              (hasOwnershipIssues f) (isHoneypot f) (riskScore f).
Definition set_hasLiquidityDrain (v : bool) (f : ScamFlags) : ScamFlags :=
  mkScamFlags (hasHiddenMint f) (hasBlacklist f) (hasHighTax f) v
              (hasOwnershipIssues f) (isHoneypot f) (riskScore f).
Definition set_hasOwnershipIssues (v : bool) (f : ScamFlags) : ScamFlags :=
  mkScamFlags (hasHiddenMint f) (hasBlacklist f) (hasHighTax f)
              (hasLiquidityDrain f) v (isHoneypot f) (riskScore f).
Definition set_isHoneypot (v : bool) (f : ScamFlags) : ScamFlags :=
  mkScamFlags (hasHiddenMint f) (hasBlacklist f) (hasHighTax f)
              (hasLiquidityDrain f) (hasOwnershipIssues f) v (riskScore f).
Definition set_riskScore (v : Z) (f : ScamFlags) : ScamFlags :=
  mkScamFlags (hasHiddenMint f) (hasBlacklist f) (hasHighTax f)
              (hasLiquidityDrain f) (hasOwnershipIssues f) (isHoneypot f) v.

Inductive Event : Type :=
| ScamDetected (token : address) (reason : string) (timestamp : Z)
| TokenVerified (token : address) (timestamp : Z).

Record State : Type := mkState {
  owner : address;
  scamAnalysis : gmap Z ScamFlags;
  knownScams : gmap Z bool;
  trustedTokens : gmap Z bool;
  events : list Event
}.

#[global] Instance State_Ownable : Ownable State := {| contract_owner := owner |}.

Definition emit (e : Event) (st : State) : State :=
  mkState (owner st) (scamAnalysis st) (knownScams st) (trustedTokens st)
          (events st ++ [e]).
Definition set_scamAnalysis (a : address) (f : ScamFlags) (st : State) : State :=
  mkState (owner st) (<[a := f]> (scamAnalysis st)) (knownScams st)
          (trustedTokens st) (events st).
Definition set_knownScams (a : address) (v : bool) (st : State) : State :=
  mkState (owner st) (scamAnalysis st) (<[a := v]> (knownScams st))
          (trustedTokens st) (events st).
Definition set_trustedTokens (a : address) (v : bool) (st : State) : State :=
  mkState (owner st) (scamAnalysis st) (knownScams st)
          (<[a := v]> (trustedTokens st)) (events st).

(** What the detector reads of the rest of the chain: the code size of an
    account ([extcodesize], [.code.length]) and what the account answers
    to [owner()], as the word it returns. *)
Record Chain : Type := mkChain {
  extcodesize : address -> Z;
  call_owner : address -> reply Z
}.

(** [try ITokenContract(tokenAddress).owner() returns (address owner)] *)
Definition try_owner (ch : Chain) (tokenAddress : address) : try_outcome address :=
  try_call (extcodesize ch tokenAddress) decode_address (call_owner ch tokenAddress).

Definition checkForHiddenMint (ch : Chain) (ctx : Ctx) (tokenAddress : address) : bool :=
  let codeSize := extcodesize ch tokenAddress in
  if codeSize =? 0 then false
  else
    let addressHash :=
      keccak256_uint (encode_address tokenAddress ++ encode_uint256 (block_timestamp ctx)) in
    addressHash mod 7 =? 0.

Definition checkForBlacklist (tokenAddress : address) : bool :=
  let addressHash := keccak256_uint (encode_address tokenAddress) in
  addressHash mod 10 =? 0.

Definition checkForHighTax (tokenAddress : address) : bool :=
  let addressHash := keccak256_uint (encode_address tokenAddress) in
  addressHash mod 5 =? 0.

Definition checkForLiquidityDrain (tokenAddress : address) : bool :=
  let addressHash := keccak256_uint (encode_address tokenAddress) in
  addressHash mod 8 =? 0.

Definition checkOwnershipIssues (ch : Chain) (tokenAddress : address) : result bool :=
  try_catch (try_owner ch tokenAddress)
    (fun owner =>
      if owner =? zero_address then true
      else if 0 <? extcodesize ch owner then true
      else
        let addressHash :=
          keccak256_uint (encode_address tokenAddress ++ encode_address owner) in
        addressHash mod 6 =? 0)
    true.

Definition analyzeToken (ch : Chain) (ctx : Ctx) (tokenAddress : address) (st : State)
  : result (ScamFlags * State) :=
  _ ← require (negb (tokenAddress =? zero_address)) InvalidTokenAddress;
  let flags := zero_flags in
  let riskScore := 0 in
  if mapping_get false (knownScams st) tokenAddress then
    let flags := set_isHoneypot true flags in
    let riskScore := 100 in
    let st := emit (ScamDetected tokenAddress "Known scam token" (block_timestamp ctx)) st in
    let st := set_scamAnalysis tokenAddress flags st in
    Ok (flags, st)
  else if mapping_get false (trustedTokens st) tokenAddress then
    let riskScore := 0 in
    let st := set_scamAnalysis tokenAddress flags st in
    Ok (flags, st)
  else
    let flags := set_hasHiddenMint (checkForHiddenMint ch ctx tokenAddress) flags in
    let flags := set_hasBlacklist (checkForBlacklist tokenAddress) flags in
    let flags := set_hasHighTax (checkForHighTax tokenAddress) flags in
    let flags := set_hasLiquidityDrain (checkForLiquidityDrain tokenAddress) flags in
    ownershipIssues ← checkOwnershipIssues ch tokenAddress;
    let flags := set_hasOwnershipIssues ownershipIssues flags in
    riskScore ← add_if (hasHiddenMint flags) riskScore 25;
    riskScore ← add_if (hasBlacklist flags) riskScore 30;
    riskScore ← add_if (hasHighTax flags) riskScore 20;
    riskScore ← add_if (hasLiquidityDrain flags) riskScore 35;
    riskScore ← add_if (hasOwnershipIssues flags) riskScore 15;
    let flags := set_riskScore riskScore flags in
    let flags := set_isHoneypot (70 <=? riskScore) flags in
    let st := set_scamAnalysis tokenAddress flags st in
    let st :=
      if isHoneypot flags
      then emit (ScamDetected tokenAddress "High risk score detected" (block_timestamp ctx)) st
      else st in
    Ok (flags, st).

Definition addKnownScam (ctx : Ctx) (tokenAddress : address)
  : State -> result (unit * State) :=
  onlyOwner ctx (fun st =>
    let st := set_knownScams tokenAddress true st in
    let st := emit (ScamDetected tokenAddress "Added to scam list" (block_timestamp ctx)) st in
    Ok (tt, st)).

Definition addTrustedToken (ctx : Ctx) (tokenAddress : address)
  : State -> result (unit * State) :=
  onlyOwner ctx (fun st =>
    let st := set_trustedTokens tokenAddress true st in
    let st := emit (TokenVerified tokenAddress (block_timestamp ctx)) st in
    Ok (tt, st)).

Definition removeFromScamList (ctx : Ctx) (tokenAddress : address)
  : State -> result (unit * State) :=
  onlyOwner ctx (fun st => Ok (tt, set_knownScams tokenAddress false st)).

Definition getScamAnalysis (tokenAddress : address) (st : State) : ScamFlags :=
  mapping_get zero_flags (scamAnalysis st) tokenAddress.

(** The storage the constructor leaves: [Ownable] records the deployer. *)
Definition deployed (deployer : address) : State :=
  mkState deployer ∅ ∅ ∅ [].

(** The storages the detector can be found in between two transactions:
    the one the constructor leaves, and what a call of [analyzeToken] or of
    one of the three list operations leaves behind. *)
Inductive reachable : State -> Prop :=
| reachable_deployed (deployer : address) :
    reachable (deployed deployer)
| reachable_analyzeToken (ch : Chain) (ctx : Ctx) (t : address) (st : State) :
    reachable st ->
    reachable (storage_after st (analyzeToken ch ctx t st))
| reachable_addKnownScam (ctx : Ctx) (t : address) (st : State) :
    reachable st ->
    reachable (storage_after st (addKnownScam ctx t st))
| reachable_addTrustedToken (ctx : Ctx) (t : address) (st : State) :
    reachable st ->
    reachable (storage_after st (addTrustedToken ctx t st))
| reachable_removeFromScamList (ctx : Ctx) (t : address) (st : State) :
    reachable st ->
    reachable (storage_after st (removeFromScamList ctx t st)).

(** What [analyzeToken] can have stored: a score between 0 and 125, the
    high-tax flag wherever the blacklist flag is, and [isHoneypot] from a
    score of 70 on. *)
Definition flags_in_order (f : ScamFlags) : Prop :=
  0 <= riskScore f <= 125 /\
  (hasBlacklist f = true -> hasHighTax f = true) /\
  (70 <= riskScore f -> isHoneypot f = true).

End ScamDetector.

(** ** AuditRegistry.sol *)

Module AuditRegistry.
Import Evm.

Record AuditRecord : Type := mkAuditRecord {
  tokenAddress : address;
  riskScore : Z;
  isScam : bool;
  isHoneypot : bool;
  auditTimestamp : Z;
  auditor : address;
  ipfsHash : string
}.

Record TokenMetrics : Type := mkTokenMetrics {
  totalTransactions : Z;
  uniqueHolders : Z;
  liquidityUSD : Z;
  liquidityLocked : bool;
  lastUpdated : Z
}.

Definition zero_record : AuditRecord :=
  mkAuditRecord zero_address 0 false false 0 zero_address "".
Definition zero_metrics : TokenMetrics := mkTokenMetrics 0 0 0 false 0.

Inductive Event : Type :=
| AuditCompleted (token auditor : address) (riskScore : Z) (isScam : bool) (timestamp : Z)
| TokenMetricsUpdated (token : address) (transactions holders liquidity : Z).

Record State : Type := mkState {
  owner : address;
  status : GuardStatus;
  auditRecords : gmap Z AuditRecord;
  tokenMetrics : gmap Z TokenMetrics;
  authorizedAuditors : gmap Z bool;
  auditCount : gmap Z Z;
  events : list Event
}.

#[global] Instance State_Ownable : Ownable State := {| contract_owner := owner |}.
#[global] Instance State_ReentrancyGuard : ReentrancyGuard State := {|
  guard_status := status;
  set_guard_status g st :=
    mkState (owner st) g (auditRecords st) (tokenMetrics st)
            (authorizedAuditors st) (auditCount st) (events st)
|}.

Definition emit (e : Event) (st : State) : State :=
  mkState (owner st) (status st) (auditRecords st) (tokenMetrics st)
          (authorizedAuditors st) (auditCount st) (events st ++ [e]).
Definition set_auditRecords (a : address) (r : AuditRecord) (st : State) : State :=
  mkState (owner st) (status st) (<[a := r]> (auditRecords st)) (tokenMetrics st)
          (authorizedAuditors st) (auditCount st) (events st).
Definition set_tokenMetrics (a : address) (m : TokenMetrics) (st : State) : State :=
  mkState (owner st) (status st) (auditRecords st) (<[a := m]> (tokenMetrics st))
          (authorizedAuditors st) (auditCount st) (events st).
Definition set_authorizedAuditors (a : address) (v : bool) (st : State) : State :=
  mkState (owner st) (status st) (auditRecords st) (tokenMetrics st)
          (<[a := v]> (authorizedAuditors st)) (auditCount st) (events st).
Definition set_auditCount (a : address) (n : Z) (st : State) : State :=
  mkState (owner st) (status st) (auditRecords st) (tokenMetrics st)
          (authorizedAuditors st) (<[a := n]> (auditCount st)) (events st).

(** [authorizedAuditors[msg.sender] || msg.sender == owner()] *)
Definition is_authorized (who : address) (st : State) : bool :=
  mapping_get false (authorizedAuditors st) who || (who =? owner st).

Definition onlyAuthorizedAuditor {A : Type} (ctx : Ctx)
    (body : State -> result (A * State)) (st : State) : result (A * State) :=
  _ ← require (is_authorized (msg_sender ctx) st) NotAuthorizedAuditor;
  body st.

(** The constructor: [Ownable] records the deployer, the guard starts not
    entered, and the deployer is an authorized auditor. *)
Definition deployed (deployer : address) : State :=
  mkState deployer NOT_ENTERED ∅ ∅ {[ deployer := true ]} ∅ [].

Definition addAuthorizedAuditor (ctx : Ctx) (auditor : address)
  : State -> result (unit * State) :=
  onlyOwner ctx (fun st => Ok (tt, set_authorizedAuditors auditor true st)).

Definition removeAuthorizedAuditor (ctx : Ctx) (auditor : address)
  : State -> result (unit * State) :=
  onlyOwner ctx (fun st => Ok (tt, set_authorizedAuditors auditor false st)).

(** The body of [submitAuditResult], inside its two modifiers. *)
Definition submitAuditResult_body (ctx : Ctx) (tokenAddress : address) (riskScore : Z)
    (isScam isHoneypot : bool) (ipfsHash : string) (st : State)
  : result (unit * State) :=
  _ ← require (negb (tokenAddress =? zero_address)) InvalidTokenAddress;
  _ ← require (riskScore <=? 100) RiskScoreTooHigh;
  let st :=
    set_auditRecords tokenAddress
      (mkAuditRecord tokenAddress riskScore isScam isHoneypot
                     (block_timestamp ctx) (msg_sender ctx) ipfsHash) st in
  count ← checked_add (mapping_get 0 (auditCount st) (msg_sender ctx)) 1;
  let st := set_auditCount (msg_sender ctx) count st in
  let st :=
    emit (AuditCompleted tokenAddress (msg_sender ctx) riskScore isScam
                         (block_timestamp ctx)) st in
  Ok (tt, st).

Definition submitAuditResult (ctx : Ctx) (tokenAddress : address) (riskScore : Z)
    (isScam isHoneypot : bool) (ipfsHash : string)
  : State -> result (unit * State) :=
  onlyAuthorizedAuditor ctx
    (nonReentrant
       (submitAuditResult_body ctx tokenAddress riskScore isScam isHoneypot ipfsHash)).

Definition updateTokenMetrics (ctx : Ctx) (tokenAddress : address)
    (totalTransactions uniqueHolders liquidityUSD : Z) (liquidityLocked : bool)
  : State -> result (unit * State) :=
  onlyAuthorizedAuditor ctx (fun st =>
    let st :=
      set_tokenMetrics tokenAddress
        (mkTokenMetrics totalTransactions uniqueHolders liquidityUSD liquidityLocked
                        (block_timestamp ctx)) st in
    let st :=
      emit (TokenMetricsUpdated tokenAddress totalTransactions uniqueHolders
                                liquidityUSD) st in
    Ok (tt, st)).

Definition getAuditRecord (tokenAddress : address) (st : State) : AuditRecord :=
  mapping_get zero_record (auditRecords st) tokenAddress.

Definition getTokenMetrics (tokenAddress : address) (st : State) : TokenMetrics :=
  mapping_get zero_metrics (tokenMetrics st) tokenAddress.

Definition isTokenAudited (tokenAddress : address) (st : State) : bool :=
  0 <? auditTimestamp (mapping_get zero_record (auditRecords st) tokenAddress).

Definition getAuditorStats (auditor : address) (st : State) : Z :=
  mapping_get 0 (auditCount st) auditor.

(** The storage the three writes of the body of [submitAuditResult] leave,
    with the guard reset: the record of the token replaced as a whole,
    one more audit counted for the sender, the event appended. *)
Definition after_submission (ctx : Ctx) (t : address) (score : Z)
    (scam honeypot : bool) (ipfs : string) (st : State) : State :=
  mkState (owner st) NOT_ENTERED
    (<[t := mkAuditRecord t score scam honeypot (block_timestamp ctx)
                          (msg_sender ctx) ipfs]> (auditRecords st))
    (tokenMetrics st) (authorizedAuditors st)
    (<[msg_sender ctx := getAuditorStats (msg_sender ctx) st + 1]> (auditCount st))
    (events st ++ [AuditCompleted t (msg_sender ctx) score scam (block_timestamp ctx)]).

(** The storages the registry can be found in between two transactions:
    the one the constructor leaves, and what any call of a mutating
    function leaves behind, whether it returns or reverts. *)
Inductive reachable : State -> Prop :=
| reachable_deployed (deployer : address) :
    reachable (deployed deployer)
| reachable_addAuthorizedAuditor (ctx : Ctx) (a : address) (st : State) :
    reachable st ->
    reachable (storage_after st (addAuthorizedAuditor ctx a st))
| reachable_removeAuthorizedAuditor (ctx : Ctx) (a : address) (st : State) :
    reachable st ->
    reachable (storage_after st (removeAuthorizedAuditor ctx a st))
| reachable_submitAuditResult (ctx : Ctx) (t : address) (score : Z)
    (scam honeypot : bool) (ipfs : string) (st : State) :
    reachable st ->
    reachable (storage_after st (submitAuditResult ctx t score scam honeypot ipfs st))
| reachable_updateTokenMetrics (ctx : Ctx) (t : address) (txs holders liq : Z)
    (locked : bool) (st : State) :
    reachable st ->
    reachable (storage_after st (updateTokenMetrics ctx t txs holders liq locked st)).

(** The [AuditCompleted] events of a log that name [a] as the auditor. *)
Definition completed_by (a : address) (e : Event) : bool :=
  match e with
  | AuditCompleted _ who _ _ _ => who =? a
  | TokenMetricsUpdated _ _ _ _ => false
  end.

Definition audits_logged (a : address) (log : list Event) : Z :=
  Z.of_nat (length (List.filter (completed_by a) log)).

(** What [submitAuditResult] can have written under the key [t]: nothing
    yet, or a record that names [t], a token other than the zero address,
    with a score of at most 100. *)
Definition record_in_order (t : address) (r : AuditRecord) : Prop :=
  r = zero_record \/
  (tokenAddress r = t /\ t <> zero_address /\ riskScore r <= 100).

End AuditRegistry.

(** ** TokenAnalyzer.sol *)

Module TokenAnalyzer.
Import Evm.

Record TokenInfo : Type := mkTokenInfo {
  name : string;
  symbol : string;
  decimals : Z;
  totalSupply : Z;
  owner : address;
  exists_ : bool
}.

Record SecurityFlags : Type := mkSecurityFlags {
  hasOwner : bool;
  hasMintFunction : bool;
  hasBurnFunction : bool;
  hasPauseFunction : bool;
  hasBlacklistFunction : bool;
  ownershipRenounced : bool
}.

(** [TokenInfo memory info;] and an unwritten [securityAnalysis] slot. *)
Definition zero_info : TokenInfo := mkTokenInfo "" "" 0 0 zero_address false.
Definition zero_security : SecurityFlags :=
  mkSecurityFlags false false false false false false.

Definition set_name (v : string) (i : TokenInfo) : TokenInfo :=
  mkTokenInfo v (symbol i) (decimals i) (totalSupply i) (owner i) (exists_ i).
Definition set_symbol (v : string) (i : TokenInfo) : TokenInfo :=
  mkTokenInfo (name i) v (decimals i) (totalSupply i) (owner i) (exists_ i).
Definition set_decimals (v : Z) (i : TokenInfo) : TokenInfo :=
  mkTokenInfo (name i) (symbol i) v (totalSupply i) (owner i) (exists_ i).
Definition set_totalSupply (v : Z) (i : TokenInfo) : TokenInfo :=
  mkTokenInfo (name i) (symbol i) (decimals i) v (owner i) (exists_ i).
Definition set_owner (v : address) (i : TokenInfo) : TokenInfo :=
  mkTokenInfo (name i) (symbol i) (decimals i) (totalSupply i) v (exists_ i).
Definition set_exists (v : bool) (i : TokenInfo) : TokenInfo :=
  mkTokenInfo (name i) (symbol i) (decimals i) (totalSupply i) (owner i) v.

Inductive Event : Type :=
| TokenAnalyzed (token analyzer : address) (timestamp : Z).

Record State : Type := mkState {
  contract_owner_ : address;
  status : GuardStatus;
  analyzedTokens : gmap Z TokenInfo;
  securityAnalysis : gmap Z SecurityFlags;
  events : list Event
}.

#[global] Instance State_Ownable : Ownable State := {| contract_owner := contract_owner_ |}.
#[global] Instance State_ReentrancyGuard : ReentrancyGuard State := {|
  guard_status := status;
  set_guard_status g st :=
    mkState (contract_owner_ st) g (analyzedTokens st) (securityAnalysis st) (events st)
|}.

Definition emit (e : Event) (st : State) : State :=
  mkState (contract_owner_ st) (status st) (analyzedTokens st) (securityAnalysis st)
          (events st ++ [e]).
Definition set_analyzedTokens (a : address) (i : TokenInfo) (st : State) : State :=
  mkState (contract_owner_ st) (status st) (<[a := i]> (analyzedTokens st))
          (securityAnalysis st) (events st).
Definition set_securityAnalysis (a : address) (f : SecurityFlags) (st : State) : State :=
  mkState (contract_owner_ st) (status st) (analyzedTokens st)
          (<[a := f]> (securityAnalysis st)) (events st).

(** What the analyzer reads of the rest of the chain: whether an account
    has code, and what the account answers to each of the five reads of
    [IERC20Extended]; the three one-word reads as the word returned, which
    the caller has still to decode as [uint8], [uint256] and [address]. *)
Record Chain : Type := mkChain {
  extcodesize : address -> Z;
  call_name : address -> reply string;
  call_symbol : address -> reply string;
  call_decimals : address -> reply Z;
  call_totalSupply : address -> reply Z;
  call_owner : address -> reply Z
}.

(** The five [try] statements of [analyzeToken]. *)
Definition try_name (ch : Chain) (a : address) : try_outcome string :=
  try_call (extcodesize ch a) decode_string (call_name ch a).
Definition try_symbol (ch : Chain) (a : address) : try_outcome string :=
  try_call (extcodesize ch a) decode_string (call_symbol ch a).
Definition try_decimals (ch : Chain) (a : address) : try_outcome Z :=
  try_call (extcodesize ch a) decode_uint8 (call_decimals ch a).
Definition try_totalSupply (ch : Chain) (a : address) : try_outcome Z :=
  try_call (extcodesize ch a) decode_uint256 (call_totalSupply ch a).
Definition try_owner (ch : Chain) (a : address) : try_outcome address :=
  try_call (extcodesize ch a) decode_address (call_owner ch a).

(** Whether one of the five fails outside its [catch]. *)
Definition reads_uncaught (ch : Chain) (a : address) : bool :=
  uncaught (try_name ch a) || uncaught (try_symbol ch a)
  || uncaught (try_decimals ch a) || uncaught (try_totalSupply ch a)
  || uncaught (try_owner ch a).

Definition alphabet : list ascii := list_ascii_of_string "0123456789abcdef".

(** [alphabet[n]]; the two uses index with a nibble, always below 16. *)
Definition alphabet_at (n : Z) : ascii := nth (Z.to_nat n) alphabet zero.

(** [value[k]] of a [bytes32]: byte [k] counted from the most significant. *)
Definition bytes32_at (value : Z) (k : Z) : Z :=
  Z.land (Z.shiftr value (8 * (31 - k))) 0xff.

Definition addressToString (_addr : address) : string :=
  let value := _addr in
  let str := repeat zero 42 in
  let str := <[0%nat := "0"%char]> str in
  let str := <[1%nat := "x"%char]> str in
  let str :=
    fold_left (fun str i =>
      let str :=
        <[(2 + i * 2)%nat :=
            alphabet_at (Z.shiftr (bytes32_at value (Z.of_nat i + 12)) 4)]> str in
      <[(3 + i * 2)%nat :=
          alphabet_at (Z.land (bytes32_at value (Z.of_nat i + 12)) 0x0f)]> str)
      (seq 0 20) str in
  string_of_list_ascii str.

Definition addressToShortString (_addr : address) : string :=
  let value := _addr in
  let str := repeat zero 6 in
  let str :=
    fold_left (fun str i =>
      let str :=
        <[(i * 2)%nat :=
            alphabet_at (Z.shiftr (bytes32_at value (Z.of_nat i + 12)) 4)]> str in
      <[(i * 2 + 1)%nat :=
          alphabet_at (Z.land (bytes32_at value (Z.of_nat i + 12)) 0x0f)]> str)
      (seq 0 3) str in
  string_of_list_ascii str.

(** The demo owner of the [catch] clause (the first Hardhat account). *)
Definition demo_owner : address := 0xf39Fd6e51aad88F6F4ce6aB8827279cffFb92266.

Definition analyzeToken_body (ch : Chain) (ctx : Ctx) (tokenAddress : address)
    (st : State) : result (TokenInfo * State) :=
  _ ← require (negb (tokenAddress =? zero_address)) InvalidTokenAddress;
  let info := zero_info in
  info ← try_catch (try_name ch tokenAddress)
    (fun name => set_name name info)
    (set_name (addressToString tokenAddress) info);
  info ← try_catch (try_symbol ch tokenAddress)
    (fun symbol => set_symbol symbol info)
    (set_symbol (addressToShortString tokenAddress) info);
  info ← try_catch (try_decimals ch tokenAddress)
    (fun decimals => set_decimals decimals info)
    (set_decimals 18 info);
  info ← try_catch (try_totalSupply ch tokenAddress)
    (fun supply => set_exists true (set_totalSupply supply info))
    (set_exists true (set_totalSupply 1000000000000000000000000 info));
  info ← try_catch (try_owner ch tokenAddress)
    (fun owner => set_owner owner info)
    (set_owner demo_owner info);
  let st := set_analyzedTokens tokenAddress info st in
  let st := emit (TokenAnalyzed tokenAddress (msg_sender ctx) (block_timestamp ctx)) st in
  Ok (info, st).

Definition analyzeToken (ch : Chain) (ctx : Ctx) (tokenAddress : address)
  : State -> result (TokenInfo * State) :=
  nonReentrant (analyzeToken_body ch ctx tokenAddress).

Definition getTokenInfo (tokenAddress : address) (st : State) : TokenInfo :=
  mapping_get zero_info (analyzedTokens st) tokenAddress.

Definition checkSecurityFlags (tokenAddress : address) (st : State) : SecurityFlags :=
  mapping_get zero_security (securityAnalysis st) tokenAddress.

Definition setSecurityFlags (ctx : Ctx) (tokenAddress : address)
    (hasOwner hasMintFunction hasBurnFunction hasPauseFunction
     hasBlacklistFunction ownershipRenounced : bool)
  : State -> result (unit * State) :=
  onlyOwner ctx (fun st =>
    Ok (tt, set_securityAnalysis tokenAddress
              (mkSecurityFlags hasOwner hasMintFunction hasBurnFunction
                               hasPauseFunction hasBlacklistFunction
                               ownershipRenounced) st)).

(** The scoring of [calculateRiskScore] on the flags it has read. *)
Definition score_of_flags (flags : SecurityFlags) : result Z :=
  let riskScore := 0 in
  riskScore ← add_if (hasOwner flags && negb (ownershipRenounced flags)) riskScore 20;
  riskScore ← add_if (hasMintFunction flags) riskScore 25;
  riskScore ← add_if (hasPauseFunction flags) riskScore 15;
  riskScore ← add_if (hasBlacklistFunction flags) riskScore 30;
  riskScore ← add_if (negb (hasBurnFunction flags)) riskScore 10;
  Ok riskScore.

Definition calculateRiskScore (tokenAddress : address) (st : State) : result Z :=
  let flags := mapping_get zero_security (securityAnalysis st) tokenAddress in
  score_of_flags flags.

(** [this.analyzeToken(t)]: a message call of the contract to itself, so
    the callee sees the contract as sender and goes through the modifiers
    of [analyzeToken] on the storage as the caller left it. *)
Definition this_analyzeToken (ch : Chain) (ctx : Ctx) (t : address)
  : State -> result (TokenInfo * State) :=
  analyzeToken ch (mkCtx (this_address ctx) (this_address ctx) (block_timestamp ctx)) t.

(** The [for] loop of [batchAnalyze], [n] iterations left from index [i]. *)
Fixpoint batch_loop (ch : Chain) (ctx : Ctx) (tokens : list address) (n i : nat)
    (results : list TokenInfo) (st : State) : result (list TokenInfo * State) :=
  match n with
  | O => Ok (results, st)
  | S n' =>
      match tokens !! i with
      | None => Revert IndexOutOfBounds
      | Some t =>
          '(info, st) ← this_analyzeToken ch ctx t st;
          batch_loop ch ctx tokens n' (S i) (<[i := info]> results) st
      end
  end.

Definition batchAnalyze_body (ch : Chain) (ctx : Ctx) (tokens : list address)
    (st : State) : result (list TokenInfo * State) :=
  _ ← require (Z.of_nat (length tokens) <=? 10) TooManyTokens;
  let results := repeat zero_info (length tokens) in
  batch_loop ch ctx tokens (length tokens) 0 results st.

Definition batchAnalyze (ch : Chain) (ctx : Ctx) (tokens : list address)
  : State -> result (list TokenInfo * State) :=
  nonReentrant (batchAnalyze_body ch ctx tokens).

Definition deployed (deployer : address) : State :=
  mkState deployer NOT_ENTERED ∅ ∅ [].

(** The storages the analyzer can be found in between two transactions. *)
Inductive reachable : State -> Prop :=
| reachable_deployed (deployer : address) :
    reachable (deployed deployer)
| reachable_analyzeToken (ch : Chain) (ctx : Ctx) (t : address) (st : State) :
    reachable st ->
    reachable (storage_after st (analyzeToken ch ctx t st))
| reachable_batchAnalyze (ch : Chain) (ctx : Ctx) (ts : list address) (st : State) :
    reachable st ->
    reachable (storage_after st (batchAnalyze ch ctx ts st))
| reachable_setSecurityFlags (ctx : Ctx) (t : address) (f : SecurityFlags) (st : State) :
    reachable st ->
    reachable (storage_after st
                 (setSecurityFlags ctx t (hasOwner f) (hasMintFunction f)
                    (hasBurnFunction f) (hasPauseFunction f)
                    (hasBlacklistFunction f) (ownershipRenounced f) st)).

End TokenAnalyzer.

(** ** The fallback renderings, in the words of the specification *)

Module Rendering.
Import Evm.

(** Follows the specification, section 4.1: the fallback name is "a hex
    string rendering of the address", the fallback symbol "the first 3
    bytes of the address rendered as hex (6 hex characters)". The bytes of
    an address are its 20 bytes, most significant first; a byte is
    rendered as two lower-case hexadecimal digits. *)
Definition hex_digit (n : Z) : ascii :=
  match n with
  | 0 => "0" | 1 => "1" | 2 => "2" | 3 => "3"
  | 4 => "4" | 5 => "5" | 6 => "6" | 7 => "7"
  | 8 => "8" | 9 => "9" | 10 => "a" | 11 => "b"
  | 12 => "c" | 13 => "d" | 14 => "e" | 15 => "f"
  | _ => zero
  end%char.

Definition hex_of_byte (b : Z) : list ascii :=
  [hex_digit (b / 16); hex_digit (b mod 16)].

Definition hex_of_bytes (bs : list Z) : list ascii := flat_map hex_of_byte bs.

Definition hex_rendering (a : address) : string :=
  string_of_list_ascii ("0" :: "x" :: hex_of_bytes (encode_address a))%char.

Definition first_three_bytes_hex (a : address) : string :=
  string_of_list_ascii (hex_of_bytes (firstn 3 (encode_address a))).

End Rendering.

(** ** The risk-level bucket of the two audit services *)

Inductive RiskLevel : Type := LOW | MEDIUM | HIGH | CRITICAL.

(** [EnhancedAuditService.performSecurityAnalysis] *)
Module EnhancedAuditService.

Definition riskLevel (riskScore : Z) : RiskLevel :=
  if riskScore <? 25 then LOW
  else if riskScore <? 50 then MEDIUM
  else if riskScore <? 75 then HIGH
  else CRITICAL.

End EnhancedAuditService.

(** [AuditService.analyzeSecurity] *)
Module AuditService.

Definition riskLevel (riskScore : Z) : RiskLevel :=
  if riskScore <? 25 then LOW
  else if riskScore <? 50 then MEDIUM
  else if riskScore <? 75 then HIGH
  else CRITICAL.

End AuditService.


(** ** BlockchainService.analyzeTokenOnChain *)

Module BlockchainService.
Import Evm.

Record OnChainData : Type := mkOnChainData {
  tokenInfo : TokenAnalyzer.TokenInfo;
  scamAnalysis : ScamDetector.ScamFlags;
  auditRecord : option AuditRegistry.AuditRecord;
  isAudited : bool
}.

(** The value the function returns when its reads answer: it calls the
    three getters and [isTokenAudited], none of the analysing functions,
    and fetches the audit record only for an audited token. *)
Definition analyzeTokenOnChain (tokenAddress : address)
    (analyzer : TokenAnalyzer.State) (detector : ScamDetector.State)
    (registry : AuditRegistry.State) : OnChainData :=
  let tokenInfo := TokenAnalyzer.getTokenInfo tokenAddress analyzer in
  let scamAnalysis := ScamDetector.getScamAnalysis tokenAddress detector in
  let isAudited := AuditRegistry.isTokenAudited tokenAddress registry in
  let auditRecord :=
    if isAudited then Some (AuditRegistry.getAuditRecord tokenAddress registry)
    else None in
  mkOnChainData tokenInfo scamAnalysis auditRecord isAudited.

End BlockchainService.

(** ** EnhancedAuditService.performSecurityAnalysis *)

Module SecurityAnalysis.

Inductive IssueType : Type := warning | error | info.
Inductive Severity : Type := low | medium | high | critical.

Record SecurityIssue : Type := mkIssue {
  type_ : IssueType;
  title : string;
  description : string;
  severity : Severity
}.

(** [blockchainData.scamAnalysis] as the function sees it. The score
    arrives as a string and goes through [parseInt]: [riskScore_parsed] is
    what [parseInt] makes of it, [None] for NaN. *)
Record ScamData : Type := mkScamData {
  hasHiddenMint : bool;
  hasBlacklist : bool;
  hasHighTax : bool;
  hasLiquidityDrain : bool;
  hasOwnershipIssues : bool;
  isHoneypot : bool;
  riskScore_parsed : option Z
}.

(** The copy [analyzeTokenOnChain] makes of the flags of the detector: the
    score is printed in decimal there and parsed back here, which gives the
    score itself for every score a double holds exactly (the detector's
    are at most 125). *)
Definition scamData_of (f : ScamDetector.ScamFlags) : ScamData :=
  mkScamData (ScamDetector.hasHiddenMint f) (ScamDetector.hasBlacklist f)
             (ScamDetector.hasHighTax f) (ScamDetector.hasLiquidityDrain f)
             (ScamDetector.hasOwnershipIssues f) (ScamDetector.isHoneypot f)
             (Some (ScamDetector.riskScore f)).

Record Result : Type := mkResult {
  riskScore : Z;
  riskLevel : RiskLevel;
  issues : list SecurityIssue;
  honeypotStatus : bool;
  canSell : bool;
  canBuy : bool
}.

(** The four uses of [Math.random()]: [Math.floor(Math.random() * 100)],
    [Math.floor(Math.random() * 3)], and whether the draws for [canSell]
    and [canBuy] exceed 0.2 and 0.1. *)
Record Draws : Type := mkDraws {
  score_draw : Z;
  issues_draw : Z;
  sell_draw : bool;
  buy_draw : bool
}.

Definition hidden_mint_issue : SecurityIssue :=
  mkIssue error "Hidden Mint Function"
          "Contract may contain hidden minting capabilities" critical.
Definition blacklist_issue : SecurityIssue :=
  mkIssue error "Blacklist Function"
          "Contract can blacklist addresses from trading" high.
Definition high_tax_issue : SecurityIssue :=
  mkIssue warning "High Tax Functions"
          "Contract may impose high trading taxes" medium.
Definition liquidity_drain_issue : SecurityIssue :=
  mkIssue error "Liquidity Drain Risk"
          "Contract may allow liquidity to be drained" critical.
Definition ownership_issue : SecurityIssue :=
  mkIssue warning "Ownership Issues"
          "Contract ownership structure may be problematic" medium.

Definition possibleIssues : list SecurityIssue :=
  [ mkIssue warning "High Tax Functions"
            "Contract contains functions that can set high buy/sell taxes" medium;
    mkIssue error "Blacklist Function"
            "Contract can blacklist addresses from trading" high;
    mkIssue info "Pausable Contract"
            "Contract can be paused by the owner" low ].

(** [if (c) issues.push(i);] *)
Definition push_if (c : bool) (i : SecurityIssue) (issues : list SecurityIssue)
  : list SecurityIssue :=
  if c then issues ++ [i] else issues.

(** [scamAnalysis] is [blockchainData?.scamAnalysis]: [None] when the
    on-chain stage failed. *)
Definition performSecurityAnalysis (scamAnalysis : option ScamData) (d : Draws)
  : Result :=
  let '(riskScore, issues) :=
    match scamAnalysis with
    | Some scamData =>
        let riskScore := default 0 (riskScore_parsed scamData) in
        let issues := [] in
        let issues := push_if (hasHiddenMint scamData) hidden_mint_issue issues in
        let issues := push_if (hasBlacklist scamData) blacklist_issue issues in
        let issues := push_if (hasHighTax scamData) high_tax_issue issues in
        let issues := push_if (hasLiquidityDrain scamData) liquidity_drain_issue issues in
        let issues := push_if (hasOwnershipIssues scamData) ownership_issue issues in
        (riskScore, issues)
    | None =>
        let riskScore := score_draw d in
        (riskScore, firstn (Z.to_nat (issues_draw d + 1)) possibleIssues)
    end in
  let onChainHoneypot :=
    match scamAnalysis with
    | Some scamData => isHoneypot scamData
    | None => false
    end in
  mkResult riskScore
           (EnhancedAuditService.riskLevel riskScore)
           issues
           (onChainHoneypot || (70 <? riskScore))
           (negb onChainHoneypot && sell_draw d)
           (buy_draw d).

(** The arguments step 7 of [auditToken] hands to [submitAuditResult]:
    the score, [riskLevel === 'CRITICAL'] and [!canSell]. *)
Definition is_critical (l : RiskLevel) : bool :=
  match l with
  | CRITICAL => true
  | _ => false
  end.

Definition writeBack (r : Result) : Z * bool * bool :=
  (riskScore r, is_critical (riskLevel r), negb (canSell r)).

End SecurityAnalysis.

(** ** SocialSentimentService: the score and the risk flags *)

Module SocialSentimentService.

Inductive Sentiment : Type := positive | negative | neutral.

(** What [analyzeTwitterData] returns; its score is an integer, the result
    of [Math.round]. *)
Record TwitterData : Type := mkTwitterData {
  sentiment : Sentiment;
  twitter_score : Z;
  mentions : Z
}.

Record SocialMetrics : Type := mkSocialMetrics {
  twitterMentions : Z;
  redditPosts : Z;
  telegramMembers : Z;
  discordMembers : Z
}.

Record OverallSentiment : Type := mkOverall {
  overall : Sentiment;
  score : Z
}.

(** [None] stands for the [null] the caller passes for a source that
    failed. *)
Definition calculateOverallSentiment (twitterData : option TwitterData)
    (socialMetrics : option SocialMetrics) : OverallSentiment :=
  match twitterData with
  | None => mkOverall neutral 0
  | Some tw =>
      let score := twitter_score tw in
      let score :=
        match socialMetrics with
        | Some m =>
            let score := if 500 <? twitterMentions m then score + 10 else score in
            let score := if 50 <? redditPosts m then score + 5 else score in
            if 5000 <? telegramMembers m then score + 5 else score
        | None => score
        end in
      let score := Z.max (-100) (Z.min 100 score) in
      let overall :=
        if 25 <? score then positive
        else if score <? -25 then negative
        else neutral in
      mkOverall overall score
  end.

Definition identifyRiskFlags (sentiment : OverallSentiment)
    (socialMetrics : option SocialMetrics) : list string :=
  let flags := [] in
  let flags :=
    if score sentiment <? -50
    then flags ++ ["Highly negative social sentiment"] else flags in
  let flags :=
    match socialMetrics with
    | Some m =>
        if twitterMentions m <? 10
        then flags ++ ["Very low social media presence"] else flags
    | None => flags
    end in
  let flags :=
    match socialMetrics with
    | Some m =>
        if telegramMembers m <? 100
        then flags ++ ["Small community size"] else flags
    | None => flags
    end in
  let flags :=
    match socialMetrics with
    | Some m =>
        if (1000 <? twitterMentions m) && (80 <? score sentiment)
        then flags ++ ["Potential artificial hype detected"] else flags
    | None => flags
    end in
  flags.

(** [trendingStatus] as [analyzeSentiment] computes it. *)
Definition trendingStatus (sentiment : OverallSentiment)
    (socialMetrics : option SocialMetrics) : bool :=
  (50 <? score sentiment) &&
  match socialMetrics with
  | Some m => 100 <? twitterMentions m
  | None => false
  end.

End SocialSentimentService.

(** ** Concrete accounts, chains and storages used by the examples *)

Module Examples.
Import Evm.

Definition deployer : address := 0xf39Fd6e51aad88F6F4ce6aB8827279cffFb92266.
Definition stranger : address := 0x70997970C51812dc3A010C7d01b50e0d17dc79C8.
Definition token_A : address := 0xdAC17F958D2ee523a2206206994597C13D831ec7.
Definition token_B : address := 0x0000000000000000000000000000000000000011.
Definition holder : address := 0x3C44CdDdB6a900fa2b585dd299e03d12FA4293BC.
Definition detector_address : address := 0x5FbDB2315678afecb367f032d93F642f64180aa3.
Definition registry_address : address := 0xe7f1725E7734CE288F8367e1Bb143E90bb3F0512.
Definition analyzer_address : address := 0x9fE46736679d2D9a65F0992F2272dE9f3c7fa6e0.

Definition now : Z := 1700000001.

(** [token_A] and [token_B] are contracts, every other account is not;
    [token_A] answers [owner()] with [holder], [token_B] has no such
    function and reverts. *)
Definition detector_chain : ScamDetector.Chain :=
  ScamDetector.mkChain
    (fun a => if (a =? token_A) || (a =? token_B) then 1 else 0)
    (fun a => if a =? token_A then Reply holder else Reverted).

Definition from_deployer (this : address) (t : Z) : Ctx := mkCtx deployer this t.
Definition from_stranger (this : address) (t : Z) : Ctx := mkCtx stranger this t.

(** The detector after its owner has put [token_A] on the scam list. *)
Definition detector_with_scam : ScamDetector.State :=
  storage_after (ScamDetector.deployed deployer)
    (ScamDetector.addKnownScam (from_deployer detector_address now) token_A
       (ScamDetector.deployed deployer)).

(** Every account is a contract that reverts on each of the five reads. *)
Definition silent_chain : TokenAnalyzer.Chain :=
  TokenAnalyzer.mkChain (fun _ => 1)
                        (fun _ => Reverted) (fun _ => Reverted) (fun _ => Reverted)
                        (fun _ => Reverted) (fun _ => Reverted).

Definition ten_tokens : list address := map Z.of_nat (seq 1 10).
Definition eleven_tokens : list address := map Z.of_nat (seq 1 11).

End Examples.

(** ** Further scenarios *)

Module Scenarios.
Import Evm Examples.

(** Every account is a contract; [token_A] answers [name()] and
    [decimals()], every other read reverts. *)
Definition half_silent_chain : TokenAnalyzer.Chain :=
  TokenAnalyzer.mkChain
    (fun _ => 1)
    (fun a => if a =? token_A then Reply "Tether USD" else Reverted)
    (fun _ => Reverted)
    (fun a => if a =? token_A then Reply 6 else Reverted)
    (fun _ => Reverted)
    (fun _ => Reverted).

(** Only [token_A] is a contract, and it reverts on each of the five
    reads; [holder] and every other account have no code. *)
Definition bare_chain : TokenAnalyzer.Chain :=
  TokenAnalyzer.mkChain
    (fun a => if a =? token_A then 1 else 0)
    (fun _ => Reverted) (fun _ => Reverted) (fun _ => Reverted)
    (fun _ => Reverted) (fun _ => Reverted).

(** [token_A] is a contract whose [decimals()] returns the word 300, and
    which reverts on the other four reads. *)
Definition wide_decimals_chain : TokenAnalyzer.Chain :=
  TokenAnalyzer.mkChain
    (fun _ => 1)
    (fun _ => Reverted) (fun _ => Reverted) (fun _ => Reply 300)
    (fun _ => Reverted) (fun _ => Reverted).

End Scenarios.

(** * Properties *)

Import Evm.

(** ** Keccak-256 against published digests *)

Example keccak256_empty :
  keccak256_uint [] =
  0xc5d2460186f7233c927e7db2dcc703c0e500b653ca82273b7bfad8045d85a470.
Proof. vm_compute. reflexivity. Qed.

Example keccak256_abc :
  keccak256_uint (Keccak.bytes_of_string "abc") =
  0x4e03657aea45a94fc7d47ba826c8d667c0d1e6e33a64a036ec44f58fa12d6c45.
Proof. vm_compute. reflexivity. Qed.

(** The selector of [transfer(address,uint256)] is [0xa9059cbb]. *)
Example keccak256_transfer_selector :
  Z.shiftr (keccak256_uint (Keccak.bytes_of_string "transfer(address,uint256)")) 224 =
  0xa9059cbb.
Proof. vm_compute. reflexivity. Qed.

(** ** ScamDetector *)

Section ScamDetectorProperties.
Import ScamDetector.

Variable ch : Chain.
Variable ctx : Ctx.

Lemma require_true (r : revert_reason) : require true r = Ok tt.
Proof. reflexivity. Qed.

Lemma nonzero_guard (a : address) :
  a <> zero_address -> negb (a =? zero_address) = true.
Proof.
  intros Ha. apply negb_true_iff, Z.eqb_neq. exact Ha.
Qed.

(** The known-scam branch: the flags returned and stored are the zero
    flags with [isHoneypot] set; the local [riskScore = 100] never reaches
    [flags.riskScore]. *)
Lemma analyzeToken_known_scam (a : address) (st : State) :
  a <> zero_address ->
  mapping_get false (knownScams st) a = true ->
  analyzeToken ch ctx a st =
  Ok (set_isHoneypot true zero_flags,
      set_scamAnalysis a (set_isHoneypot true zero_flags)
        (emit (ScamDetected a "Known scam token" (block_timestamp ctx)) st)).
Proof.
  intros Ha Hk. unfold analyzeToken.
  rewrite (nonzero_guard a Ha), require_true.
  cbn [mbind result_bind]. rewrite Hk. reflexivity.
Qed.

Lemma analyzeToken_trusted (a : address) (st : State) :
  a <> zero_address ->
  mapping_get false (knownScams st) a = false ->
  mapping_get false (trustedTokens st) a = true ->
  analyzeToken ch ctx a st = Ok (zero_flags, set_scamAnalysis a zero_flags st).
Proof.
  intros Ha Hk Ht. unfold analyzeToken.
  rewrite (nonzero_guard a Ha), require_true.
  cbn [mbind result_bind]. rewrite Hk, Ht. reflexivity.
Qed.


(** The check reverts in one way only. *)
Lemma checkOwnershipIssues_revert (a : address) (e : revert_reason) :
  checkOwnershipIssues ch a = Revert e ->
  e = UncaughtCallFailure /\ uncaught (try_owner ch a) = true.
Proof.
  unfold checkOwnershipIssues.
  destruct (try_owner ch a) as [o| |]; cbn [try_catch uncaught];
    intros H; try discriminate H.
  injection H as <-. split; reflexivity.
Qed.

Lemma checkOwnershipIssues_returns (a : address) :
  uncaught (try_owner ch a) = false -> exists oi, checkOwnershipIssues ch a = Ok oi.
Proof.
  unfold checkOwnershipIssues.
  destruct (try_owner ch a) as [o| |]; cbn [try_catch uncaught]; intros H;
    try discriminate H; eexists; reflexivity.
Qed.

(** The third branch when the [owner()] read fails outside its [catch]:
    the call reverts, whatever the other four checks found. *)
Lemma analyzeToken_uncaught (a : address) (st : State) (e : revert_reason) :
  a <> zero_address ->
  mapping_get false (knownScams st) a = false ->
  mapping_get false (trustedTokens st) a = false ->
  checkOwnershipIssues ch a = Revert e ->
  analyzeToken ch ctx a st = Revert e.
Proof.
  intros Ha Hk Ht Hoi. unfold analyzeToken.
  rewrite (nonzero_guard a Ha), require_true.
  cbn [mbind result_bind]. rewrite Hk, Ht, Hoi. reflexivity.
Qed.

(** The third branch when the [owner()] read returns or is caught, with
    the five checks named: the score is the plain sum of the weights of
    the flags that are set. *)
Lemma analyzeToken_scored (a : address) (st : State) (oi : bool) :
  a <> zero_address ->
  mapping_get false (knownScams st) a = false ->
  mapping_get false (trustedTokens st) a = false ->
  checkOwnershipIssues ch a = Ok oi ->
  let hm := checkForHiddenMint ch ctx a in
  let bl := checkForBlacklist a in
  let ht := checkForHighTax a in
  let ld := checkForLiquidityDrain a in
  let score :=
    25 * Z.b2z hm + 30 * Z.b2z bl + 20 * Z.b2z ht + 35 * Z.b2z ld + 15 * Z.b2z oi in
  let flags := mkScamFlags hm bl ht ld oi (70 <=? score) score in
  analyzeToken ch ctx a st =
  Ok (flags,
      if 70 <=? score
      then emit (ScamDetected a "High risk score detected" (block_timestamp ctx))
                (set_scamAnalysis a flags st)
      else set_scamAnalysis a flags st).
Proof.
  intros Ha Hk Ht Hoi. unfold analyzeToken.
  rewrite (nonzero_guard a Ha), require_true.
  cbn [mbind result_bind]. rewrite Hk, Ht, Hoi.
  generalize (checkForHiddenMint ch ctx a) (checkForBlacklist a)
             (checkForHighTax a) (checkForLiquidityDrain a).
  intros hm bl ht ld.
  destruct hm, bl, ht, ld, oi; reflexivity.
Qed.

End ScamDetectorProperties.

Section ScamDetectorClaims.
Import ScamDetector Examples.

Lemma getScamAnalysis_stored (a : address) (f : ScamFlags) (st : State) :
  getScamAnalysis a (set_scamAnalysis a f st) = f.
Proof.
  unfold getScamAnalysis, set_scamAnalysis, mapping_get. cbn [scamAnalysis].
  rewrite lookup_insert_eq. reflexivity.
Qed.

Lemma getScamAnalysis_emit (a : address) (e : Event) (st : State) :
  getScamAnalysis a (emit e st) = getScamAnalysis a st.
Proof. reflexivity. Qed.

(** On the scam list, whatever the chain says about the token: the flags
    do not depend on the chain, so none of the five checks contributes. *)
Lemma known_scam_ignores_chain (ch1 ch2 : Chain) (ctx : Ctx) (a : address) (st : State) :
  a <> zero_address ->
  mapping_get false (knownScams st) a = true ->
  analyzeToken ch1 ctx a st = analyzeToken ch2 ctx a st.
Proof.
  intros Ha Hk.
  rewrite (analyzeToken_known_scam ch1 ctx a st Ha Hk).
  rewrite (analyzeToken_known_scam ch2 ctx a st Ha Hk).
  reflexivity.
Qed.

(** On the scam list, the score returned and stored is 0 for every
    address, chain and storage. *)
Lemma known_scam_score (ch : Chain) (ctx : Ctx) (a : address) (st : State) :
  a <> zero_address ->
  mapping_get false (knownScams st) a = true ->
  exists flags st',
    analyzeToken ch ctx a st = Ok (flags, st') /\
    isHoneypot flags = true /\
    riskScore flags = 0 /\
    getScamAnalysis a st' = flags.
Proof.
  intros Ha Hk. eexists _, _. split.
  - apply analyzeToken_known_scam; assumption.
  - repeat split. apply getScamAnalysis_stored.
Qed.

(** C1 (defect of the code). [token_A] is on the scam list of the
    detector; [analyzeToken] returns, and stores under [token_A], flags
    with [isHoneypot] set and the five capability flags clear, but with
    [riskScore = 0] where the specification has 100: the branch assigns
    100 to the local variable and never copies it into the flags. *)
Theorem C1_known_scam_score_is_not_100 :
  let st := detector_with_scam in
  let r := analyzeToken detector_chain (from_stranger detector_address 1700000005)
                        token_A st in
  mapping_get false (knownScams st) token_A = true /\
  returned r = Some (mkScamFlags false false false false false true 0) /\
  getScamAnalysis token_A (storage_after st r) =
    mkScamFlags false false false false false true 0 /\
  riskScore (getScamAnalysis token_A (storage_after st r)) <> 100.
Proof.
  cbv zeta.
  assert (Hk : mapping_get false (knownScams detector_with_scam) token_A = true)
    by (vm_compute; reflexivity).
  assert (Ha : token_A <> zero_address) by (vm_compute; discriminate).
  rewrite (analyzeToken_known_scam detector_chain _ token_A _ Ha Hk).
  split; [exact Hk|]. split; [reflexivity|].
  cbn [storage_after]. rewrite getScamAnalysis_stored.
  split; [reflexivity|]. cbn. discriminate.
Qed.



(** An account without code on neither list: the transaction reverts in
    the [owner()] read, and the storage has no flags for it. *)
Example unlisted_account_without_code_reverts :
  let r := analyzeToken detector_chain (from_stranger detector_address 1700000005)
                        holder (deployed deployer) in
  extcodesize detector_chain holder = 0 /\
  r = Revert UncaughtCallFailure /\
  getScamAnalysis holder (storage_after (deployed deployer) r) = zero_flags.
Proof. vm_compute. repeat split. Qed.

(** The sum does pass 100 on the code: [token_B] at time 1700000005 has
    all five flags set and scores 125. *)
Example scam_score_reaches_125 :
  returned (analyzeToken detector_chain (from_stranger detector_address 1700000005)
                         token_B (deployed deployer))
  = Some (mkScamFlags true true true true true true 125).
Proof. vm_compute. reflexivity. Qed.

(** What the flags of the third branch are a function of: the address,
    the time of the block, the code size of the token, the answer of its
    [owner()] and the code size of that owner. *)
Lemma scored_flags_inputs (ch1 ch2 : Chain) (ctx1 ctx2 : Ctx) (a : address)
    (st1 st2 : State) :
  a <> zero_address ->
  mapping_get false (knownScams st1) a = false ->
  mapping_get false (trustedTokens st1) a = false ->
  mapping_get false (knownScams st2) a = false ->
  mapping_get false (trustedTokens st2) a = false ->
  block_timestamp ctx1 = block_timestamp ctx2 ->
  extcodesize ch1 a = extcodesize ch2 a ->
  call_owner ch1 a = call_owner ch2 a ->
  (forall o, call_owner ch1 a = Reply o -> extcodesize ch1 o = extcodesize ch2 o) ->
  returned (analyzeToken ch1 ctx1 a st1) = returned (analyzeToken ch2 ctx2 a st2).
Proof.
  intros Ha Hk1 Ht1 Hk2 Ht2 Htime Hcode Howner Hocode.
  assert (Hhm : checkForHiddenMint ch1 ctx1 a = checkForHiddenMint ch2 ctx2 a).
  { unfold checkForHiddenMint. rewrite Hcode, Htime. reflexivity. }
  assert (Hoi : checkOwnershipIssues ch1 a = checkOwnershipIssues ch2 a).
  { unfold checkOwnershipIssues, try_owner, try_call. rewrite <- Howner, <- Hcode.
    destruct (extcodesize ch1 a =? 0); [reflexivity|].
    destruct (call_owner ch1 a) as [o| |] eqn:Ho; try reflexivity.
    destruct (decode_address o) as [o'|] eqn:Hdec; [|reflexivity].
    assert (o' = o) as ->.
    { unfold decode_address in Hdec.
      destruct ((0 <=? o) && (o <? 2 ^ 160)); congruence. }
    cbn [try_catch]. rewrite (Hocode o eq_refl). reflexivity. }
  destruct (checkOwnershipIssues ch1 a) as [oi|e] eqn:Hoi1.
  - rewrite (analyzeToken_scored ch1 ctx1 a st1 oi Ha Hk1 Ht1 Hoi1).
    rewrite (analyzeToken_scored ch2 ctx2 a st2 oi Ha Hk2 Ht2 (eq_sym Hoi)).
    cbv zeta. cbn [returned]. rewrite Hhm. reflexivity.
  - rewrite (analyzeToken_uncaught ch1 ctx1 a st1 e Ha Hk1 Ht1 Hoi1).
    rewrite (analyzeToken_uncaught ch2 ctx2 a st2 e Ha Hk2 Ht2 (eq_sym Hoi)).
    reflexivity.
Qed.

(** C8 (defect of the code). The same token, on neither list, analysed
    twice against the same storage and the same chain, one second apart:
    the hidden-mint flag and the score differ, because
    [checkForHiddenMint] hashes [block.timestamp] with the address, where
    the three sibling checks hash the address alone. *)
Theorem C8_flags_change_with_block_timestamp :
  let st := deployed deployer in
  let run t :=
    returned (analyzeToken detector_chain (from_stranger detector_address t) token_A st) in
  mapping_get false (knownScams st) token_A = false /\
  mapping_get false (trustedTokens st) token_A = false /\
  run 1700000001 = Some (mkScamFlags true false false false false false 25) /\
  run 1700000002 = Some (mkScamFlags false false false false false false 0) /\
  run 1700000001 <> run 1700000002.
Proof.
  cbv zeta.
  assert (H1 : returned (analyzeToken detector_chain
                           (from_stranger detector_address 1700000001) token_A
                           (deployed deployer))
               = Some (mkScamFlags true false false false false false 25))
    by (vm_compute; reflexivity).
  assert (H2 : returned (analyzeToken detector_chain
                           (from_stranger detector_address 1700000002) token_A
                           (deployed deployer))
               = Some (mkScamFlags false false false false false false 0))
    by (vm_compute; reflexivity).
  split; [vm_compute; reflexivity|]. split; [vm_compute; reflexivity|].
  cbv beta. rewrite H1, H2. repeat split. discriminate.
Qed.

End ScamDetectorClaims.

(** ** AuditRegistry *)

Section AuditRegistryClaims.
Import AuditRegistry Examples.

(** The guard is always found open between two transactions. *)
Lemma registry_reachable_not_entered (st : State) :
  reachable st -> status st = NOT_ENTERED.
Proof.
  induction 1 as [d | ctx a st Hr IH | ctx a st Hr IH
                 | ctx t score scam honeypot ipfs st Hr IH
                 | ctx t txs holders liq locked st Hr IH].
  - reflexivity.
  - unfold addAuthorizedAuditor, onlyOwner.
    destruct (require _ _) as [[]|e]; cbn; exact IH.
  - unfold removeAuthorizedAuditor, onlyOwner.
    destruct (require _ _) as [[]|e]; cbn; exact IH.
  - unfold submitAuditResult, onlyAuthorizedAuditor, nonReentrant.
    destruct (require (is_authorized _ _) _) as [[]|e]; cbn; [|exact IH].
    destruct (require (negb _) _) as [[]|e]; cbn; [|exact IH].
    destruct (submitAuditResult_body _ _ _ _ _ _ _) as [[[] st']|e]; cbn;
      [reflexivity | exact IH].
  - unfold updateTokenMetrics, onlyAuthorizedAuditor.
    destruct (require _ _) as [[]|e]; cbn; exact IH.
Qed.

(** A caller that fails the gate of [onlyAuthorizedAuditor] is turned
    away before the guard and the body are looked at. *)
Lemma submitAuditResult_unauthorized (ctx : Ctx) (t : address) (score : Z)
    (scam honeypot : bool) (ipfs : string) (st : State) :
  is_authorized (msg_sender ctx) st = false ->
  submitAuditResult ctx t score scam honeypot ipfs st = Revert NotAuthorizedAuditor.
Proof.
  intros Hna. unfold submitAuditResult, onlyAuthorizedAuditor.
  rewrite Hna. reflexivity.
Qed.

(** Past the gate and the guard, the call is its body, with the guard
    reset at the end. *)
Lemma submitAuditResult_authorized (ctx : Ctx) (t : address) (score : Z)
    (scam honeypot : bool) (ipfs : string) (st : State) :
  is_authorized (msg_sender ctx) st = true ->
  status st = NOT_ENTERED ->
  submitAuditResult ctx t score scam honeypot ipfs st =
  ('(u, st') ← submitAuditResult_body ctx t score scam honeypot ipfs
                 (set_guard_status ENTERED st);
   Ok (u, set_guard_status NOT_ENTERED st')).
Proof.
  intros Ha Hs. unfold submitAuditResult, onlyAuthorizedAuditor, nonReentrant.
  rewrite Ha. cbn [require mbind result_bind guard_status State_ReentrancyGuard].
  rewrite Hs. reflexivity.
Qed.

(** Every call of [submitAuditResult] either reverts and leaves the
    storage as it was, or replaces the whole record of the token, counts
    one more audit for the caller, appends the event, and changes nothing
    else. *)
Lemma submitAuditResult_all_or_nothing (ctx : Ctx) (t : address) (score : Z)
    (scam honeypot : bool) (ipfs : string) (st : State) :
  status st = NOT_ENTERED ->
  let r := submitAuditResult ctx t score scam honeypot ipfs st in
  (exists e, r = Revert e /\ storage_after st r = st) \/
  (r = Ok (tt, after_submission ctx t score scam honeypot ipfs st)).
Proof.
  intros Hs r. subst r.
  destruct (is_authorized (msg_sender ctx) st) eqn:Ha.
  - rewrite (submitAuditResult_authorized _ _ _ _ _ _ _ Ha Hs).
    unfold submitAuditResult_body.
    destruct (negb (t =? zero_address)); cbn [require mbind result_bind];
      [|left; eexists; split; reflexivity].
    destruct (score <=? 100); cbn [require mbind result_bind];
      [|left; eexists; split; reflexivity].
    unfold checked_add.
    destruct (_ <=? uint256_max); cbn [mbind result_bind];
      [|left; eexists; split; reflexivity].
    right. reflexivity.
  - rewrite (submitAuditResult_unauthorized _ _ _ _ _ _ _ Ha).
    left. eexists; split; reflexivity.
Qed.

(** C7. A caller that is neither in [authorizedAuditors] nor the owner
    gets "Not authorized auditor", an authorization error, from
    [submitAuditResult], and the call leaves the storage as it found it:
    audit records, metrics, audit counters, the set of authorized auditors
    and the event log are all unchanged. *)
Theorem C7_unauthorized_submission_changes_nothing (ctx : Ctx) (t : address)
    (score : Z) (scam honeypot : bool) (ipfs : string) (st : State) :
  mapping_get false (authorizedAuditors st) (msg_sender ctx) = false ->
  msg_sender ctx <> owner st ->
  let r := submitAuditResult ctx t score scam honeypot ipfs st in
  r = Revert NotAuthorizedAuditor /\
  classify NotAuthorizedAuditor = AuthorizationError /\
  storage_after st r = st /\
  auditRecords (storage_after st r) = auditRecords st /\
  tokenMetrics (storage_after st r) = tokenMetrics st /\
  auditCount (storage_after st r) = auditCount st /\
  authorizedAuditors (storage_after st r) = authorizedAuditors st /\
  events (storage_after st r) = events st.
Proof.
  intros Hset Hown r.
  assert (Hna : is_authorized (msg_sender ctx) st = false).
  { unfold is_authorized. rewrite Hset. cbn [orb].
    apply Z.eqb_neq. exact Hown. }
  subst r. rewrite (submitAuditResult_unauthorized _ _ _ _ _ _ _ Hna).
  repeat split.
Qed.

Lemma C7_unauthorized_submission_changes_nothing_witness :
  let st := deployed deployer in
  let r := submitAuditResult (from_stranger registry_address now) token_A 40
                             false false "" st in
  r = Revert NotAuthorizedAuditor /\
  classify NotAuthorizedAuditor = AuthorizationError /\
  storage_after st r = st /\
  auditRecords (storage_after st r) = auditRecords st /\
  tokenMetrics (storage_after st r) = tokenMetrics st /\
  auditCount (storage_after st r) = auditCount st /\
  authorizedAuditors (storage_after st r) = authorizedAuditors st /\
  events (storage_after st r) = events st.
Proof.
  apply (C7_unauthorized_submission_changes_nothing
           (from_stranger registry_address now) token_A 40 false false ""
           (deployed deployer)).
  - vm_compute. reflexivity.
  - vm_compute. lia.
Defined.

(** An accepted submission, for contrast: the deployer submits a score of
    40 for [token_A]; the record is the new one, the token is audited, the
    deployer has one audit to their name. *)
Example accepted_submission :
  let st := deployed deployer in
  let ctx := from_deployer registry_address now in
  let r := submitAuditResult ctx token_A 40 false false "report" st in
  r = Ok (tt, after_submission ctx token_A 40 false false "report" st) /\
  getAuditRecord token_A (storage_after st r) =
    mkAuditRecord token_A 40 false false now deployer "report" /\
  isTokenAudited token_A (storage_after st r) = true /\
  getAuditorStats deployer (storage_after st r) = 1.
Proof. vm_compute. repeat split. Qed.

(** C2, as the code has it. A submission with a score above 100 always
    reverts and leaves the storage as it found it. The revert is a
    validation error ("Risk score must be <= 100", or "Invalid token
    address" for the zero address) when the caller is an authorized
    auditor or the owner, and the authorization error "Not authorized
    auditor" when the caller is neither: the gate of
    [onlyAuthorizedAuditor] runs before the body validates its input. *)
Theorem C2_score_above_100_rejected (ctx : Ctx) (t : address)
    (score : Z) (scam honeypot : bool) (ipfs : string) (st : State) :
  100 < score ->
  status st = NOT_ENTERED ->
  let r := submitAuditResult ctx t score scam honeypot ipfs st in
  r = Revert (if is_authorized (msg_sender ctx) st
              then if t =? zero_address then InvalidTokenAddress else RiskScoreTooHigh
              else NotAuthorizedAuditor) /\
  (exists e, r = Revert e /\
             classify e = if is_authorized (msg_sender ctx) st
                          then ValidationError else AuthorizationError) /\
  storage_after st r = st.
Proof.
  intros Hscore Hs r. subst r.
  destruct (is_authorized (msg_sender ctx) st) eqn:Ha.
  - rewrite (submitAuditResult_authorized _ _ _ _ _ _ _ Ha Hs).
    unfold submitAuditResult_body.
    destruct (t =? zero_address); cbn [negb require mbind result_bind].
    + split; [reflexivity|]. split; [eexists; split; reflexivity | reflexivity].
    + assert (Hle : (score <=? 100) = false) by (apply Z.leb_gt; exact Hscore).
      rewrite Hle. cbn [mbind result_bind].
      split; [reflexivity|]. split; [eexists; split; reflexivity | reflexivity].
  - rewrite (submitAuditResult_unauthorized _ _ _ _ _ _ _ Ha).
    split; [reflexivity|]. split; [eexists; split; reflexivity | reflexivity].
Qed.

Lemma C2_score_above_100_rejected_witness :
  let st := deployed deployer in
  let ctx := from_deployer registry_address now in
  let r := submitAuditResult ctx token_A 101 true true "" st in
  r = Revert (if is_authorized (msg_sender ctx) st
              then if token_A =? zero_address then InvalidTokenAddress
                   else RiskScoreTooHigh
              else NotAuthorizedAuditor) /\
  (exists e, r = Revert e /\
             classify e = if is_authorized (msg_sender ctx) st
                          then ValidationError else AuthorizationError) /\
  storage_after st r = st.
Proof.
  apply (C2_score_above_100_rejected (from_deployer registry_address now) token_A
           101 true true "" (deployed deployer)).
  - lia.
  - reflexivity.
Defined.

(** C2 as stated fails: a stranger, neither authorized nor the owner,
    submits a score of 101 to the freshly deployed registry and is refused
    with "Not authorized auditor", which is an authorization error and not
    a validation error. *)
Lemma C2_unauthorized_caller_gets_authorization_error :
  let r := submitAuditResult (from_stranger registry_address now) token_A 101
                             true true "" (deployed deployer) in
  is_authorized stranger (deployed deployer) = false /\
  r = Revert NotAuthorizedAuditor /\
  classify NotAuthorizedAuditor = AuthorizationError /\
  ~ (exists e, r = Revert e /\ classify e = ValidationError).
Proof.
  cbv zeta.
  assert (Hna : is_authorized (msg_sender (from_stranger registry_address now))
                              (deployed deployer) = false)
    by (vm_compute; reflexivity).
  rewrite (submitAuditResult_unauthorized _ _ _ _ _ _ _ Hna).
  split; [exact Hna|]. split; [reflexivity|]. split; [reflexivity|].
  intros [e [He Hc]]. inversion He; subst e. discriminate Hc.
Qed.

End AuditRegistryClaims.

(** ** TokenAnalyzer *)

Section TokenAnalyzerClaims.
Import TokenAnalyzer Examples.

Lemma guard_round_trip (st : State) :
  status st = NOT_ENTERED ->
  set_guard_status NOT_ENTERED (set_guard_status ENTERED st) = st.
Proof. intros Hs. destruct st; cbn in *. subst. reflexivity. Qed.

(** A top-level call of [analyzeToken] passes the guard and is its body. *)
Lemma analyzeToken_top_level (ch : Chain) (ctx : Ctx) (a : address) (st : State) :
  status st = NOT_ENTERED ->
  analyzeToken ch ctx a st =
  ('(info, st') ← analyzeToken_body ch ctx a (set_guard_status ENTERED st);
   Ok (info, set_guard_status NOT_ENTERED st')).
Proof.
  intros Hs. unfold analyzeToken, nonReentrant.
  cbn [guard_status State_ReentrancyGuard]. rewrite Hs. reflexivity.
Qed.

(** A call of [analyzeToken] while the guard is set is refused. *)
Lemma analyzeToken_while_entered (ch : Chain) (ctx : Ctx) (a : address) (st : State) :
  status st = ENTERED ->
  analyzeToken ch ctx a st = Revert ReentrantCall.
Proof.
  intros Hs. unfold analyzeToken, nonReentrant.
  cbn [guard_status State_ReentrancyGuard]. rewrite Hs. reflexivity.
Qed.

Lemma analyzer_reachable_not_entered (st : State) :
  reachable st -> status st = NOT_ENTERED.
Proof.
  induction 1 as [d | ch ctx t st Hr IH | ch ctx ts st Hr IH | ctx t f st Hr IH].
  - reflexivity.
  - unfold analyzeToken, nonReentrant.
    destruct (require _ _) as [[]|e]; cbn; [|exact IH].
    destruct (analyzeToken_body _ _ _ _) as [[info st']|e]; cbn;
      [reflexivity | exact IH].
  - unfold batchAnalyze, nonReentrant.
    destruct (require _ _) as [[]|e]; cbn; [|exact IH].
    destruct (batchAnalyze_body _ _ _ _) as [[rs st']|e]; cbn;
      [reflexivity | exact IH].
  - unfold setSecurityFlags, onlyOwner.
    destruct (require _ _) as [[]|e]; cbn; exact IH.
Qed.

(** More than ten tokens: the length check refuses the batch. *)
Lemma batchAnalyze_too_many (ch : Chain) (ctx : Ctx) (tokens : list address) (st : State) :
  status st = NOT_ENTERED ->
  (10 < length tokens)%nat ->
  batchAnalyze ch ctx tokens st = Revert TooManyTokens.
Proof.
  intros Hs Hlen. unfold batchAnalyze, nonReentrant.
  cbn [guard_status State_ReentrancyGuard]. rewrite Hs.
  cbn [is_entered negb require mbind result_bind]. unfold batchAnalyze_body.
  assert (Hle : (Z.of_nat (length tokens) <=? 10) = false) by (apply Z.leb_gt; lia).
  rewrite Hle. reflexivity.
Qed.

Lemma batchAnalyze_nil (ch : Chain) (ctx : Ctx) (st : State) :
  status st = NOT_ENTERED ->
  batchAnalyze ch ctx [] st = Ok ([], st).
Proof.
  intros Hs. destruct st as [o g toks sec evs]. cbn in Hs. subst g.
  reflexivity.
Qed.

(** One to ten tokens: the first [this.analyzeToken] finds the guard set
    by [batchAnalyze] itself and reverts, and the batch with it. *)
Lemma batchAnalyze_nonempty_reverts (ch : Chain) (ctx : Ctx) (t : address)
    (ts : list address) (st : State) :
  status st = NOT_ENTERED ->
  (length (t :: ts) <= 10)%nat ->
  batchAnalyze ch ctx (t :: ts) st = Revert ReentrantCall.
Proof.
  intros Hs Hlen. unfold batchAnalyze, nonReentrant.
  cbn [guard_status State_ReentrancyGuard]. rewrite Hs.
  cbn [is_entered negb require mbind result_bind]. unfold batchAnalyze_body.
  assert (Hle : (Z.of_nat (length (t :: ts)) <=? 10) = true) by (apply Z.leb_le; lia).
  rewrite Hle. cbn [require mbind result_bind length batch_loop lookup list_lookup].
  unfold this_analyzeToken.
  rewrite analyzeToken_while_entered by reflexivity.
  reflexivity.
Qed.

(** *** The two string helpers against the renderings of the specification *)

Lemma Z_to_le_spec (n : nat) :
  forall v, Keccak.Z_to_le n v = map (fun k => (v / 256 ^ Z.of_nat k) mod 256) (seq 0 n).
Proof.
  induction n as [|n IH]; intros v; [reflexivity|].
  cbn [Keccak.Z_to_le seq map]. f_equal.
  - change (256 ^ Z.of_nat 0) with 1. rewrite Z.div_1_r. reflexivity.
  - rewrite IH, <- seq_shift, map_map. apply map_ext. intros k.
    rewrite Nat2Z.inj_succ, Z.pow_succ_r by lia.
    rewrite Z.div_div by lia. reflexivity.
Qed.

(** Byte [k + 12] of the [bytes32] is byte [k] of the address. *)
Lemma bytes32_at_address (a : Z) (k : nat) :
  (k < 20)%nat ->
  bytes32_at a (Z.of_nat k + 12) = (a / 256 ^ Z.of_nat (19 - k)) mod 256.
Proof.
  intros Hk. unfold bytes32_at.
  change 0xff with (Z.ones 8). rewrite Z.land_ones by lia.
  rewrite Z.shiftr_div_pow2 by lia.
  replace (8 * (31 - (Z.of_nat k + 12))) with (8 * Z.of_nat (19 - k)) by lia.
  rewrite Z.pow_mul_r by lia. reflexivity.
Qed.

Lemma rev_map_seq_20 {A : Type} (f : nat -> A) :
  rev (map f (seq 0 20)) = map (fun i => f (19 - i)%nat) (seq 0 20).
Proof. reflexivity. Qed.

Lemma encode_address_bytes (a : address) :
  encode_address a = map (fun i => bytes32_at a (Z.of_nat i + 12)) (seq 0 20).
Proof.
  unfold encode_address, Keccak.Z_to_be. rewrite Z_to_le_spec, rev_map_seq_20.
  apply map_ext_in. intros i Hi. apply in_seq in Hi.
  symmetry. apply bytes32_at_address. lia.
Qed.

Lemma bytes32_at_range (a k : Z) : 0 <= bytes32_at a k < 256.
Proof.
  unfold bytes32_at. change 0xff with (Z.ones 8). rewrite Z.land_ones by lia.
  apply Z.mod_pos_bound. lia.
Qed.

Lemma alphabet_at_hex_digit (n : Z) :
  0 <= n < 16 -> alphabet_at n = Rendering.hex_digit n.
Proof.
  intros Hn. rewrite <- (Z2Nat.id n) by lia.
  assert (Hk : (Z.to_nat n < 16)%nat) by lia.
  revert Hk. generalize (Z.to_nat n). intros k Hk.
  do 16 (destruct k as [|k]; [reflexivity|]). lia.
Qed.

(** The two characters the loops write for a byte are its rendering. *)
Lemma nibbles_hex_of_byte (b : Z) :
  0 <= b < 256 ->
  [alphabet_at (Z.shiftr b 4); alphabet_at (Z.land b 0x0f)] = Rendering.hex_of_byte b.
Proof.
  intros Hb. unfold Rendering.hex_of_byte.
  rewrite (Z.shiftr_div_pow2 b 4) by lia. change (2 ^ 4) with 16.
  change 0x0f with (Z.ones 4). rewrite Z.land_ones by lia. change (2 ^ 4) with 16.
  rewrite !alphabet_at_hex_digit; [reflexivity | |].
  - apply Z.mod_pos_bound. lia.
  - split; [apply Z.div_pos; lia | apply Z.div_lt_upper_bound; lia].
Qed.

(** The loop of [addressToString] fills the 42 characters in order. *)
Lemma addressToString_loop (hi lo : nat -> ascii) :
  fold_left (fun str i =>
               <[(3 + i * 2)%nat := lo i]> (<[(2 + i * 2)%nat := hi i]> str))
            (seq 0 20)
            (<[1%nat := "x"%char]> (<[0%nat := "0"%char]> (repeat zero 42)))
  = ("0" :: "x" :: flat_map (fun i => [hi i; lo i]) (seq 0 20))%char.
Proof. reflexivity. Qed.

Lemma addressToShortString_loop (hi lo : nat -> ascii) :
  fold_left (fun str i =>
               <[(i * 2 + 1)%nat := lo i]> (<[(i * 2)%nat := hi i]> str))
            (seq 0 3) (repeat zero 6)
  = flat_map (fun i => [hi i; lo i]) (seq 0 3).
Proof. reflexivity. Qed.

Lemma flat_map_map {A B C : Type} (f : A -> B) (g : B -> list C) (l : list A) :
  flat_map g (map f l) = flat_map (fun x => g (f x)) l.
Proof. induction l as [|x l IH]; [reflexivity|]. cbn. rewrite IH. reflexivity. Qed.

Lemma hex_of_address_bytes (a : address) (n : nat) :
  flat_map (fun i => [alphabet_at (Z.shiftr (bytes32_at a (Z.of_nat i + 12)) 4);
                      alphabet_at (Z.land (bytes32_at a (Z.of_nat i + 12)) 0x0f)])
           (seq 0 n)
  = Rendering.hex_of_bytes (map (fun i => bytes32_at a (Z.of_nat i + 12)) (seq 0 n)).
Proof.
  unfold Rendering.hex_of_bytes. rewrite flat_map_map.
  apply flat_map_ext. intros i. apply nibbles_hex_of_byte, bytes32_at_range.
Qed.

(** [addressToString] is the hex rendering of the address. *)
Lemma addressToString_hex_rendering (a : address) :
  addressToString a = Rendering.hex_rendering a.
Proof.
  unfold addressToString, Rendering.hex_rendering. cbv zeta. f_equal.
  rewrite (addressToString_loop
             (fun i => alphabet_at (Z.shiftr (bytes32_at a (Z.of_nat i + 12)) 4))
             (fun i => alphabet_at (Z.land (bytes32_at a (Z.of_nat i + 12)) 0x0f))).
  rewrite hex_of_address_bytes, encode_address_bytes. reflexivity.
Qed.

(** [addressToShortString] is the rendering of the first three bytes. *)
Lemma addressToShortString_first_three_bytes (a : address) :
  addressToShortString a = Rendering.first_three_bytes_hex a.
Proof.
  unfold addressToShortString, Rendering.first_three_bytes_hex. cbv zeta. f_equal.
  rewrite (addressToShortString_loop
             (fun i => alphabet_at (Z.shiftr (bytes32_at a (Z.of_nat i + 12)) 4))
             (fun i => alphabet_at (Z.land (bytes32_at a (Z.of_nat i + 12)) 0x0f))).
  rewrite hex_of_address_bytes, encode_address_bytes. reflexivity.
Qed.

Lemma length_string_of_list_ascii (l : list ascii) :
  String.length (string_of_list_ascii l) = length l.
Proof. induction l as [|c l IH]; [reflexivity|]. cbn. rewrite IH. reflexivity. Qed.

Lemma addressToShortString_length (a : address) :
  String.length (addressToShortString a) = 6%nat.
Proof.
  unfold addressToShortString. cbv zeta. rewrite length_string_of_list_ascii.
  rewrite (addressToShortString_loop
             (fun i => alphabet_at (Z.shiftr (bytes32_at a (Z.of_nat i + 12)) 4))
             (fun i => alphabet_at (Z.land (bytes32_at a (Z.of_nat i + 12)) 0x0f))).
  reflexivity.
Qed.

Lemma addressToString_length (a : address) :
  String.length (addressToString a) = 42%nat.
Proof.
  unfold addressToString. cbv zeta. rewrite length_string_of_list_ascii.
  rewrite (addressToString_loop
             (fun i => alphabet_at (Z.shiftr (bytes32_at a (Z.of_nat i + 12)) 4))
             (fun i => alphabet_at (Z.land (bytes32_at a (Z.of_nat i + 12)) 0x0f))).
  reflexivity.
Qed.

Lemma getTokenInfo_stored (a : address) (i : TokenInfo) (e : Event) (g : GuardStatus)
    (st : State) :
  getTokenInfo a (set_guard_status g (emit e (set_analyzedTokens a i st))) = i.
Proof.
  unfold getTokenInfo, mapping_get. cbn. rewrite lookup_insert_eq. reflexivity.
Qed.

(** A [try] on a contract that reverts runs its [catch] clause. *)
Lemma try_call_reverted {A B : Type} (codeSize : Z) (decode : A -> option B) :
  codeSize <> 0 -> try_call codeSize decode Reverted = Catches.
Proof.
  intros Hcode. unfold try_call. apply Z.eqb_neq in Hcode. rewrite Hcode.
  reflexivity.
Qed.

(** A [try] on an account without code fails in the caller, whatever the
    read. *)
Lemma try_call_no_code {A B : Type} (decode : A -> option B) (r : reply A) :
  try_call 0 decode r = Uncaught.
Proof. reflexivity. Qed.

(** The fallback record, where the code does produce it: for a contract
    (not the zero-address sentinel) that reverts on each of the five reads,
    [analyzeToken] returns, and stores under the address, the record whose
    name is the hex rendering of the address ("0x" and 40 digits), whose
    symbol is the first three bytes of the address as six hex digits, with
    18 decimals, a total supply of 10^24 (a million tokens of 18
    decimals), the fixed demo owner, and [exists] set. *)
Lemma reverting_contract_gets_fallback_record
    (ch : Chain) (ctx : Ctx) (a : address) (st : State) :
  a <> zero_address ->
  status st = NOT_ENTERED ->
  extcodesize ch a <> 0 ->
  call_name ch a = Reverted ->
  call_symbol ch a = Reverted ->
  call_decimals ch a = Reverted ->
  call_totalSupply ch a = Reverted ->
  call_owner ch a = Reverted ->
  exists info st',
    analyzeToken ch ctx a st = Ok (info, st') /\
    name info = Rendering.hex_rendering a /\
    String.length (name info) = 42%nat /\
    symbol info = Rendering.first_three_bytes_hex a /\
    String.length (symbol info) = 6%nat /\
    decimals info = 18 /\
    totalSupply info = 10 ^ 24 /\
    totalSupply info = 1000000 * 10 ^ 18 /\
    owner info = 0xf39Fd6e51aad88F6F4ce6aB8827279cffFb92266 /\
    exists_ info = true /\
    getTokenInfo a st' = info.
Proof.
  intros Ha Hs Hcode Hn Hsy Hd Ht Ho.
  rewrite (analyzeToken_top_level ch ctx a st Hs). unfold analyzeToken_body.
  rewrite (nonzero_guard a Ha), require_true.
  unfold try_name, try_symbol, try_decimals, try_totalSupply, try_owner.
  rewrite Hn, Hsy, Hd, Ht, Ho.
  rewrite !(try_call_reverted _ _ Hcode).
  cbn [mbind result_bind try_catch]. eexists _, _. split; [reflexivity|].
  cbn [name symbol decimals totalSupply owner exists_
       set_name set_symbol set_decimals set_totalSupply set_owner set_exists
       zero_info].
  split; [apply addressToString_hex_rendering|].
  split; [apply addressToString_length|].
  split; [apply addressToShortString_first_three_bytes|].
  split; [apply addressToShortString_length|].
  split; [reflexivity|]. split; [reflexivity|]. split; [reflexivity|].
  split; [reflexivity|]. split; [reflexivity|].
  apply getTokenInfo_stored.
Qed.

(** The first [try] of [analyzeToken] on an account without code fails in
    the caller: the call reverts before any fallback is written. *)
Lemma analyzeToken_no_code (ch : Chain) (ctx : Ctx) (a : address) (st : State) :
  a <> zero_address ->
  status st = NOT_ENTERED ->
  extcodesize ch a = 0 ->
  analyzeToken ch ctx a st = Revert UncaughtCallFailure.
Proof.
  intros Ha Hs Hcode.
  rewrite (analyzeToken_top_level ch ctx a st Hs). unfold analyzeToken_body.
  rewrite (nonzero_guard a Ha), require_true.
  unfold try_name. rewrite Hcode, try_call_no_code. reflexivity.
Qed.

(** C6 (defect of the code). [holder] is an account without code: each of
    the five reads of [analyzeToken] fails on it, and none returns. The
    specification has the fallback record returned and stored for such an
    address; the call reverts instead, returns no record and stores none,
    so that [getTokenInfo] still answers the zero record, [exists] clear.
    The five [catch] clauses that write the fallbacks see only a revert of
    the account called: on [token_A], a contract that reverts on each
    read, the same call returns the fallback record. *)
Theorem C6_account_without_code_gets_no_record :
  let ch := Scenarios.bare_chain in
  let ctx := from_stranger analyzer_address now in
  let st := deployed deployer in
  let r := analyzeToken ch ctx holder st in
  holder <> zero_address /\
  (try_name ch holder = Uncaught /\ try_symbol ch holder = Uncaught /\
   try_decimals ch holder = Uncaught /\ try_totalSupply ch holder = Uncaught /\
   try_owner ch holder = Uncaught) /\
  r = Revert UncaughtCallFailure /\
  returned r = None /\
  storage_after st r = st /\
  getTokenInfo holder (storage_after st r) = zero_info /\
  exists_ (getTokenInfo holder (storage_after st r)) = false /\
  returned (analyzeToken ch ctx token_A st)
  = Some (mkTokenInfo "0xdac17f958d2ee523a2206206994597c13d831ec7" "dac17f" 18
                      1000000000000000000000000
                      0xf39Fd6e51aad88F6F4ce6aB8827279cffFb92266 true).
Proof.
  cbv zeta.
  assert (Hr : analyzeToken Scenarios.bare_chain (from_stranger analyzer_address now)
                 holder (deployed deployer) = Revert UncaughtCallFailure).
  { apply analyzeToken_no_code; [vm_compute; discriminate | reflexivity | reflexivity]. }
  rewrite Hr. cbn [returned storage_after].
  split; [vm_compute; discriminate|].
  split; [repeat split|].
  split; [reflexivity|]. split; [reflexivity|]. split; [reflexivity|].
  split; [reflexivity|]. split; [reflexivity|].
  vm_compute. reflexivity.
Qed.

(** The record of [token_A], written out. *)
Example fallback_record_of_token_A :
  returned (analyzeToken silent_chain (from_stranger analyzer_address now) token_A
                         (deployed deployer))
  = Some (mkTokenInfo "0xdac17f958d2ee523a2206206994597c13d831ec7" "dac17f" 18
                      1000000000000000000000000
                      0xf39Fd6e51aad88F6F4ce6aB8827279cffFb92266 true).
Proof. vm_compute. reflexivity. Qed.

(** C5 (defect of the code). On the freshly deployed analyzer, a batch of
    one token and the batch of ten tokens both revert with
    "ReentrancyGuard: reentrant call", which is no validation error, and
    return no record: [batchAnalyze] holds the guard when it calls
    [this.analyzeToken], which is [nonReentrant] as well. The same token
    analysed on its own is accepted, and the batch of eleven is refused by
    the length check as the specification says. *)
Theorem C5_batch_within_limit_reverts :
  let ctx := from_stranger analyzer_address now in
  let st := deployed deployer in
  batchAnalyze silent_chain ctx [token_A] st = Revert ReentrantCall /\
  (length ten_tokens = 10%nat /\
   batchAnalyze silent_chain ctx ten_tokens st = Revert ReentrantCall) /\
  classify ReentrantCall <> ValidationError /\
  (exists info st', analyzeToken silent_chain ctx token_A st = Ok (info, st')) /\
  (length eleven_tokens = 11%nat /\
   batchAnalyze silent_chain ctx eleven_tokens st = Revert TooManyTokens).
Proof.
  cbv zeta. split.
  - apply batchAnalyze_nonempty_reverts; [reflexivity | cbn; lia].
  - split.
    + split; [reflexivity|].
      apply (batchAnalyze_nonempty_reverts silent_chain _ 1 (map Z.of_nat (seq 2 9)));
        [reflexivity | cbn; lia].
    + split; [discriminate|]. split.
      * rewrite analyzeToken_top_level by reflexivity.
        eexists _, _. vm_compute. reflexivity.
      * split; [reflexivity|].
        apply batchAnalyze_too_many; [reflexivity | cbn; lia].
Qed.

(** C9. Whatever flags are stored for a token, [calculateRiskScore]
    returns a score between 0 and 100: it is 20, 25, 15, 30 and 10 for
    owner-not-renounced, mint, pause, blacklist and no-burn, added up, and
    the five weights add up to exactly 100, which the flags
    (owner, mint, no burn, pause, blacklist, not renounced) reach. *)
Theorem C9_calculateRiskScore_at_most_100 :
  (forall (a : address) (st : State),
      exists s,
        calculateRiskScore a st = Ok s /\
        s = (let f := checkSecurityFlags a st in
             20 * Z.b2z (hasOwner f && negb (ownershipRenounced f))
             + 25 * Z.b2z (hasMintFunction f) + 15 * Z.b2z (hasPauseFunction f)
             + 30 * Z.b2z (hasBlacklistFunction f)
             + 10 * Z.b2z (negb (hasBurnFunction f))) /\
        0 <= s <= 100) /\
  (forall o m b p bl r : bool,
      exists s, score_of_flags (mkSecurityFlags o m b p bl r) = Ok s /\ 0 <= s <= 100) /\
  20 + 25 + 15 + 30 + 10 = 100 /\
  score_of_flags (mkSecurityFlags true true false true true false) = Ok 100.
Proof.
  assert (Hall : forall o m b p bl r : bool,
             exists s,
               score_of_flags (mkSecurityFlags o m b p bl r) = Ok s /\
               s = 20 * Z.b2z (o && negb r) + 25 * Z.b2z m + 15 * Z.b2z p
                   + 30 * Z.b2z bl + 10 * Z.b2z (negb b) /\
               0 <= s <= 100).
  { intros o m b p bl r.
    destruct o, m, b, p, bl, r; eexists; (split; [reflexivity|]);
      (split; [reflexivity | cbn; lia]). }
  split.
  - intros a st. unfold calculateRiskScore, checkSecurityFlags.
    destruct (mapping_get zero_security (securityAnalysis st) a) as [o m b p bl r].
    cbv zeta. cbn [hasOwner hasMintFunction hasBurnFunction hasPauseFunction
                   hasBlacklistFunction ownershipRenounced].
    apply Hall.
  - split.
    + intros o m b p bl r. destruct (Hall o m b p bl r) as [s [Hs [_ Hr]]].
      exists s. split; assumption.
    + split; reflexivity.
Qed.

(** C10. Both [analyzeToken] entry points, called with the zero-address
    sentinel, revert with "Invalid token address", a validation error, and
    leave the storage they found: nothing is stored, no event is logged.
    The analyzer is taken between two transactions, with its guard open,
    as every reachable storage has it. *)
Theorem C10_zero_address_rejected_by_both_analyzers
    (tch : Chain) (sch : ScamDetector.Chain) (ctx : Ctx)
    (tst : State) (sst : ScamDetector.State) :
  status tst = NOT_ENTERED ->
  let rt := analyzeToken tch ctx zero_address tst in
  let rs := ScamDetector.analyzeToken sch ctx zero_address sst in
  rt = Revert InvalidTokenAddress /\
  rs = Revert InvalidTokenAddress /\
  classify InvalidTokenAddress = ValidationError /\
  storage_after tst rt = tst /\
  storage_after sst rs = sst /\
  analyzedTokens (storage_after tst rt) = analyzedTokens tst /\
  events (storage_after tst rt) = events tst /\
  ScamDetector.scamAnalysis (storage_after sst rs) = ScamDetector.scamAnalysis sst /\
  ScamDetector.events (storage_after sst rs) = ScamDetector.events sst.
Proof.
  intros Hs rt rs.
  assert (Ht : rt = Revert InvalidTokenAddress).
  { subst rt. rewrite (analyzeToken_top_level tch ctx zero_address tst Hs).
    reflexivity. }
  assert (Hsd : rs = Revert InvalidTokenAddress) by reflexivity.
  rewrite Ht, Hsd. repeat split.
Qed.

Lemma C10_zero_address_rejected_by_both_analyzers_witness :
  let rt := analyzeToken silent_chain (from_stranger analyzer_address now)
                         zero_address (deployed deployer) in
  let rs := ScamDetector.analyzeToken detector_chain
              (from_stranger analyzer_address now) zero_address
              (ScamDetector.deployed deployer) in
  rt = Revert InvalidTokenAddress /\
  rs = Revert InvalidTokenAddress /\
  classify InvalidTokenAddress = ValidationError /\
  storage_after (deployed deployer) rt = deployed deployer /\
  storage_after (ScamDetector.deployed deployer) rs = ScamDetector.deployed deployer /\
  analyzedTokens (storage_after (deployed deployer) rt)
    = analyzedTokens (deployed deployer) /\
  events (storage_after (deployed deployer) rt) = events (deployed deployer) /\
  ScamDetector.scamAnalysis (storage_after (ScamDetector.deployed deployer) rs)
    = ScamDetector.scamAnalysis (ScamDetector.deployed deployer) /\
  ScamDetector.events (storage_after (ScamDetector.deployed deployer) rs)
    = ScamDetector.events (ScamDetector.deployed deployer).
Proof.
  apply (C10_zero_address_rejected_by_both_analyzers silent_chain detector_chain
           (from_stranger analyzer_address now) (deployed deployer)
           (ScamDetector.deployed deployer)).
  reflexivity.
Defined.

End TokenAnalyzerClaims.

(** ** The risk-level bucket *)

Section RiskLevelClaims.

Lemma riskLevel_same (s : Z) :
  AuditService.riskLevel s = EnhancedAuditService.riskLevel s.
Proof. reflexivity. Qed.

Lemma riskLevel_cases (s : Z) :
  (s < 25 /\ EnhancedAuditService.riskLevel s = LOW) \/
  (25 <= s < 50 /\ EnhancedAuditService.riskLevel s = MEDIUM) \/
  (50 <= s < 75 /\ EnhancedAuditService.riskLevel s = HIGH) \/
  (75 <= s /\ EnhancedAuditService.riskLevel s = CRITICAL).
Proof.
  unfold EnhancedAuditService.riskLevel.
  destruct (Z.ltb_spec s 25); [left; split; [lia | reflexivity]|].
  destruct (Z.ltb_spec s 50); [right; left; split; [lia | reflexivity]|].
  destruct (Z.ltb_spec s 75); [right; right; left; split; [lia | reflexivity]|].
  right; right; right. split; [lia | reflexivity].
Qed.

(** C4. For a score between 0 and 100, the bucket computed by both audit
    services is LOW exactly on [0, 25), MEDIUM exactly on [25, 50), HIGH
    exactly on [50, 75) and CRITICAL exactly on [75, 100]; the boundary
    scores 25, 50, 75 and 100 are MEDIUM, HIGH, CRITICAL and CRITICAL. *)
Theorem C4_risk_level_buckets (s : Z) :
  0 <= s <= 100 ->
  ((EnhancedAuditService.riskLevel s = LOW <-> 0 <= s < 25) /\
   (EnhancedAuditService.riskLevel s = MEDIUM <-> 25 <= s < 50) /\
   (EnhancedAuditService.riskLevel s = HIGH <-> 50 <= s < 75) /\
   (EnhancedAuditService.riskLevel s = CRITICAL <-> 75 <= s <= 100)) /\
  ((AuditService.riskLevel s = LOW <-> 0 <= s < 25) /\
   (AuditService.riskLevel s = MEDIUM <-> 25 <= s < 50) /\
   (AuditService.riskLevel s = HIGH <-> 50 <= s < 75) /\
   (AuditService.riskLevel s = CRITICAL <-> 75 <= s <= 100)) /\
  (EnhancedAuditService.riskLevel 0 = LOW /\
   EnhancedAuditService.riskLevel 24 = LOW /\
   EnhancedAuditService.riskLevel 25 = MEDIUM /\
   EnhancedAuditService.riskLevel 49 = MEDIUM /\
   EnhancedAuditService.riskLevel 50 = HIGH /\
   EnhancedAuditService.riskLevel 74 = HIGH /\
   EnhancedAuditService.riskLevel 75 = CRITICAL /\
   EnhancedAuditService.riskLevel 100 = CRITICAL).
Proof.
  intros Hs.
  assert (He : (EnhancedAuditService.riskLevel s = LOW <-> 0 <= s < 25) /\
               (EnhancedAuditService.riskLevel s = MEDIUM <-> 25 <= s < 50) /\
               (EnhancedAuditService.riskLevel s = HIGH <-> 50 <= s < 75) /\
               (EnhancedAuditService.riskLevel s = CRITICAL <-> 75 <= s <= 100)).
  { destruct (riskLevel_cases s) as [[Hr ->] | [[Hr ->] | [[Hr ->] | [Hr ->]]]];
      repeat split; intros; try discriminate; try reflexivity; lia. }
  split; [exact He|]. split.
  - rewrite riskLevel_same. exact He.
  - repeat split.
Qed.

Lemma C4_risk_level_buckets_witness :
  ((EnhancedAuditService.riskLevel 75 = LOW <-> 0 <= 75 < 25) /\
   (EnhancedAuditService.riskLevel 75 = MEDIUM <-> 25 <= 75 < 50) /\
   (EnhancedAuditService.riskLevel 75 = HIGH <-> 50 <= 75 < 75) /\
   (EnhancedAuditService.riskLevel 75 = CRITICAL <-> 75 <= 75 <= 100)) /\
  ((AuditService.riskLevel 75 = LOW <-> 0 <= 75 < 25) /\
   (AuditService.riskLevel 75 = MEDIUM <-> 25 <= 75 < 50) /\
   (AuditService.riskLevel 75 = HIGH <-> 50 <= 75 < 75) /\
   (AuditService.riskLevel 75 = CRITICAL <-> 75 <= 75 <= 100)) /\
  (EnhancedAuditService.riskLevel 0 = LOW /\
   EnhancedAuditService.riskLevel 24 = LOW /\
   EnhancedAuditService.riskLevel 25 = MEDIUM /\
   EnhancedAuditService.riskLevel 49 = MEDIUM /\
   EnhancedAuditService.riskLevel 50 = HIGH /\
   EnhancedAuditService.riskLevel 74 = HIGH /\
   EnhancedAuditService.riskLevel 75 = CRITICAL /\
   EnhancedAuditService.riskLevel 100 = CRITICAL).
Proof.
  apply (C4_risk_level_buckets 75). lia.
Defined.

End RiskLevelClaims.

(** * Further properties of the code *)

(** ** AuditRegistry: submissions, the audited flag, grants *)

Section AuditRegistryMore.
Import AuditRegistry Examples.

(** With everything in order the call is accepted and leaves
    [after_submission]. *)
Lemma submitAuditResult_accepted (ctx : Ctx) (t : address) (score : Z)
    (scam honeypot : bool) (ipfs : string) (st : State) :
  is_authorized (msg_sender ctx) st = true ->
  status st = NOT_ENTERED ->
  t <> zero_address ->
  score <= 100 ->
  getAuditorStats (msg_sender ctx) st < uint256_max ->
  submitAuditResult ctx t score scam honeypot ipfs st
  = Ok (tt, after_submission ctx t score scam honeypot ipfs st).
Proof.
  intros Ha Hs Ht Hscore Hcount.
  rewrite (submitAuditResult_authorized _ _ _ _ _ _ _ Ha Hs).
  unfold submitAuditResult_body.
  rewrite (nonzero_guard t Ht), require_true. cbn [mbind result_bind].
  assert (Hle : (score <=? 100) = true) by (apply Z.leb_le; exact Hscore).
  rewrite Hle, require_true. cbn [mbind result_bind].
  unfold checked_add.
  assert (Hc : (mapping_get 0
                  (auditCount
                     (set_auditRecords t
                        (mkAuditRecord t score scam honeypot (block_timestamp ctx)
                                       (msg_sender ctx) ipfs)
                        (set_guard_status ENTERED st))) (msg_sender ctx) + 1
                <=? uint256_max) = true).
  { apply Z.leb_le. unfold getAuditorStats in Hcount. cbn. lia. }
  rewrite Hc. reflexivity.
Qed.

Lemma getAuditRecord_after_same (ctx : Ctx) (t : address) (score : Z)
    (scam honeypot : bool) (ipfs : string) (st : State) :
  getAuditRecord t (after_submission ctx t score scam honeypot ipfs st)
  = mkAuditRecord t score scam honeypot (block_timestamp ctx) (msg_sender ctx) ipfs.
Proof.
  unfold getAuditRecord, after_submission, mapping_get. cbn [auditRecords].
  rewrite lookup_insert_eq. reflexivity.
Qed.

Lemma getAuditRecord_after_other (ctx : Ctx) (t t' : address) (score : Z)
    (scam honeypot : bool) (ipfs : string) (st : State) :
  t' <> t ->
  getAuditRecord t' (after_submission ctx t score scam honeypot ipfs st)
  = getAuditRecord t' st.
Proof.
  intros Hne. unfold getAuditRecord, after_submission, mapping_get.
  cbn [auditRecords]. rewrite lookup_insert_ne by congruence. reflexivity.
Qed.

(** An accepted submission replaces the whole record of its token with the
    submitted values, the time of the block and the sender, whatever was
    there before; it counts one more audit for the sender, logs the event,
    resets the guard, and touches no other record, no other counter, no
    metrics and no authorization. *)
Theorem accepted_submission_replaces_record (ctx : Ctx) (t : address) (score : Z)
    (scam honeypot : bool) (ipfs : string) (st : State) :
  is_authorized (msg_sender ctx) st = true ->
  status st = NOT_ENTERED ->
  t <> zero_address ->
  score <= 100 ->
  getAuditorStats (msg_sender ctx) st < uint256_max ->
  exists st',
    submitAuditResult ctx t score scam honeypot ipfs st = Ok (tt, st') /\
    getAuditRecord t st' =
      mkAuditRecord t score scam honeypot (block_timestamp ctx) (msg_sender ctx) ipfs /\
    (forall t', t' <> t -> getAuditRecord t' st' = getAuditRecord t' st) /\
    getAuditorStats (msg_sender ctx) st' = getAuditorStats (msg_sender ctx) st + 1 /\
    (forall a, a <> msg_sender ctx -> getAuditorStats a st' = getAuditorStats a st) /\
    events st' =
      events st ++ [AuditCompleted t (msg_sender ctx) score scam (block_timestamp ctx)] /\
    tokenMetrics st' = tokenMetrics st /\
    authorizedAuditors st' = authorizedAuditors st /\
    owner st' = owner st /\
    status st' = NOT_ENTERED.
Proof.
  intros Ha Hs Ht Hscore Hcount.
  exists (after_submission ctx t score scam honeypot ipfs st).
  split; [apply submitAuditResult_accepted; assumption|].
  split; [apply getAuditRecord_after_same|].
  split; [intros t' Hne; apply getAuditRecord_after_other; exact Hne|].
  split.
  { unfold getAuditorStats, after_submission, mapping_get. cbn [auditCount].
    rewrite lookup_insert_eq. reflexivity. }
  split.
  { intros a Hne. unfold getAuditorStats, after_submission, mapping_get.
    cbn [auditCount]. rewrite lookup_insert_ne by congruence. reflexivity. }
  repeat split.
Qed.

Lemma accepted_submission_replaces_record_witness :
  exists st',
    submitAuditResult (from_deployer registry_address now) token_A 40 false true
                      "report" (deployed deployer) = Ok (tt, st') /\
    getAuditRecord token_A st' =
      mkAuditRecord token_A 40 false true
        (block_timestamp (from_deployer registry_address now))
        (msg_sender (from_deployer registry_address now)) "report" /\
    (forall t', t' <> token_A ->
                getAuditRecord t' st' = getAuditRecord t' (deployed deployer)) /\
    getAuditorStats (msg_sender (from_deployer registry_address now)) st' =
      getAuditorStats (msg_sender (from_deployer registry_address now))
                      (deployed deployer) + 1 /\
    (forall a, a <> msg_sender (from_deployer registry_address now) ->
               getAuditorStats a st' = getAuditorStats a (deployed deployer)) /\
    events st' =
      events (deployed deployer)
      ++ [AuditCompleted token_A (msg_sender (from_deployer registry_address now)) 40
                         false (block_timestamp (from_deployer registry_address now))] /\
    tokenMetrics st' = tokenMetrics (deployed deployer) /\
    authorizedAuditors st' = authorizedAuditors (deployed deployer) /\
    owner st' = owner (deployed deployer) /\
    status st' = NOT_ENTERED.
Proof.
  apply (accepted_submission_replaces_record (from_deployer registry_address now)
           token_A 40 false true "report" (deployed deployer)).
  - vm_compute. reflexivity.
  - reflexivity.
  - vm_compute. lia.
  - lia.
  - vm_compute. reflexivity.
Defined.

(** After an accepted submission the token counts as audited exactly when
    the time of the block is positive: [isTokenAudited] reads the stored
    timestamp, so a record written at time 0 does not show as an audit. *)
Theorem audited_after_submission_iff_positive_time (ctx : Ctx) (t : address)
    (score : Z) (scam honeypot : bool) (ipfs : string) (st : State) :
  is_authorized (msg_sender ctx) st = true ->
  status st = NOT_ENTERED ->
  t <> zero_address ->
  score <= 100 ->
  getAuditorStats (msg_sender ctx) st < uint256_max ->
  isTokenAudited t
    (storage_after st (submitAuditResult ctx t score scam honeypot ipfs st))
  = (0 <? block_timestamp ctx).
Proof.
  intros Ha Hs Ht Hscore Hcount.
  rewrite (submitAuditResult_accepted _ _ _ _ _ _ _ Ha Hs Ht Hscore Hcount).
  cbn [storage_after]. unfold isTokenAudited.
  change (mapping_get zero_record
            (auditRecords (after_submission ctx t score scam honeypot ipfs st)) t)
    with (getAuditRecord t (after_submission ctx t score scam honeypot ipfs st)).
  rewrite getAuditRecord_after_same. reflexivity.
Qed.

Lemma audited_after_submission_iff_positive_time_witness :
  isTokenAudited token_A
    (storage_after (deployed deployer)
       (submitAuditResult (mkCtx deployer registry_address 0) token_A 40 false true
                          "report" (deployed deployer)))
  = (0 <? block_timestamp (mkCtx deployer registry_address 0)).
Proof.
  apply (audited_after_submission_iff_positive_time
           (mkCtx deployer registry_address 0) token_A 40 false true "report"
           (deployed deployer)).
  - vm_compute. reflexivity.
  - reflexivity.
  - vm_compute. lia.
  - lia.
  - vm_compute. reflexivity.
Defined.

Lemma isTokenAudited_after_other (ctx : Ctx) (t t' : address) (score : Z)
    (scam honeypot : bool) (ipfs : string) (st : State) :
  t' <> t ->
  isTokenAudited t' (after_submission ctx t score scam honeypot ipfs st)
  = isTokenAudited t' st.
Proof.
  intros Hne. unfold isTokenAudited.
  change (mapping_get zero_record
            (auditRecords (after_submission ctx t score scam honeypot ipfs st)) t')
    with (getAuditRecord t' (after_submission ctx t score scam honeypot ipfs st)).
  rewrite (getAuditRecord_after_other ctx t t' score scam honeypot ipfs st Hne).
  reflexivity.
Qed.

(** There is no way back from audited: while blocks carry a positive time,
    a token that counts as audited still does after any call of
    [submitAuditResult], for whatever token, by whatever caller, whether
    the call is accepted or reverts. *)
Theorem audited_stays_audited (ctx : Ctx) (t t' : address) (score : Z)
    (scam honeypot : bool) (ipfs : string) (st : State) :
  status st = NOT_ENTERED ->
  0 < block_timestamp ctx ->
  isTokenAudited t' st = true ->
  isTokenAudited t'
    (storage_after st (submitAuditResult ctx t score scam honeypot ipfs st)) = true.
Proof.
  intros Hs Htime Haud.
  destruct (submitAuditResult_all_or_nothing ctx t score scam honeypot ipfs st Hs)
    as [[e [He Hsame]] | Hok].
  - rewrite Hsame. exact Haud.
  - rewrite Hok. cbn [storage_after].
    destruct (Z.eq_dec t' t) as [-> | Hne].
    + unfold isTokenAudited.
      change (mapping_get zero_record
                (auditRecords (after_submission ctx t score scam honeypot ipfs st)) t)
        with (getAuditRecord t (after_submission ctx t score scam honeypot ipfs st)).
      rewrite getAuditRecord_after_same. cbn [auditTimestamp].
      apply Z.ltb_lt. exact Htime.
    + rewrite isTokenAudited_after_other by exact Hne. exact Haud.
Qed.

Lemma audited_stays_audited_witness :
  isTokenAudited token_A
    (storage_after
       (after_submission (from_deployer registry_address now) token_A 40 false true
                         "report" (deployed deployer))
       (submitAuditResult (from_deployer registry_address 1700000009) token_A 90 true
                          true "second report"
          (after_submission (from_deployer registry_address now) token_A 40 false true
                            "report" (deployed deployer)))) = true.
Proof.
  apply (audited_stays_audited (from_deployer registry_address 1700000009)
           token_A token_A 90 true true "second report"
           (after_submission (from_deployer registry_address now) token_A 40 false true
                             "report" (deployed deployer))).
  - reflexivity.
  - vm_compute. reflexivity.
  - vm_compute. reflexivity.
Defined.

(** The records of a reachable storage, all at once. *)
Lemma records_in_order_everywhere (st : State) :
  reachable st ->
  forall t, record_in_order t (getAuditRecord t st).
Proof.
  induction 1 as [d | ctx a st Hr IH | ctx a st Hr IH
                 | ctx t score scam honeypot ipfs st Hr IH
                 | ctx t txs holders liq locked st Hr IH]; intros k.
  - left. reflexivity.
  - unfold addAuthorizedAuditor, onlyOwner.
    destruct (require _ _) as [[]|e]; cbn [mbind result_bind storage_after]; apply IH.
  - unfold removeAuthorizedAuditor, onlyOwner.
    destruct (require _ _) as [[]|e]; cbn [mbind result_bind storage_after]; apply IH.
  - pose proof (registry_reachable_not_entered st Hr) as Hs.
    destruct (submitAuditResult_all_or_nothing ctx t score scam honeypot ipfs st Hs)
      as [[e [He Hsame]] | Hok].
    + rewrite Hsame. apply IH.
    + pose proof Hok as Hrun.
      destruct (is_authorized (msg_sender ctx) st) eqn:Ha;
        [|rewrite (submitAuditResult_unauthorized _ _ _ _ _ _ _ Ha) in Hrun;
          discriminate Hrun].
      rewrite (submitAuditResult_authorized _ _ _ _ _ _ _ Ha Hs) in Hrun.
      unfold submitAuditResult_body in Hrun.
      destruct (t =? zero_address) eqn:Hz;
        cbn [negb require mbind result_bind] in Hrun; [discriminate Hrun|].
      destruct (score <=? 100) eqn:Hle;
        cbn [require mbind result_bind] in Hrun; [|discriminate Hrun].
      rewrite Hok. cbn [storage_after].
      destruct (Z.eq_dec k t) as [-> | Hne].
      * rewrite getAuditRecord_after_same. right. cbn [tokenAddress riskScore].
        split; [reflexivity|]. split; [apply Z.eqb_neq; exact Hz|].
        apply Z.leb_le. exact Hle.
      * rewrite getAuditRecord_after_other by exact Hne. apply IH.
  - unfold updateTokenMetrics, onlyAuthorizedAuditor.
    destruct (require _ _) as [[]|e]; cbn [mbind result_bind storage_after]; apply IH.
Qed.

(** Every record the registry holds is in order: in every reachable
    storage, the record under a token is either the empty one or names that
    very token, which is not the zero address, with a score of at most
    100. *)
Theorem stored_records_in_order (st : State) (t : address) :
  reachable st ->
  record_in_order t (getAuditRecord t st).
Proof.
  intros Hreach.
  apply records_in_order_everywhere. exact Hreach.
Qed.

Lemma stored_records_in_order_witness :
  record_in_order token_A
    (getAuditRecord token_A
       (storage_after (deployed deployer)
          (submitAuditResult (from_deployer registry_address now) token_A 40 false
                             true "report" (deployed deployer)))).
Proof.
  apply (stored_records_in_order
           (storage_after (deployed deployer)
              (submitAuditResult (from_deployer registry_address now) token_A 40 false
                                 true "report" (deployed deployer)))
           token_A).
  apply reachable_submitAuditResult. apply reachable_deployed.
Defined.

Lemma audits_logged_app (a : address) (l1 l2 : list Event) :
  audits_logged a (l1 ++ l2) = audits_logged a l1 + audits_logged a l2.
Proof.
  unfold audits_logged. rewrite List.filter_app, length_app. lia.
Qed.

(** The counters of a reachable storage, all at once. *)
Lemma audit_counts_match_log_everywhere (st : State) :
  reachable st ->
  forall a, getAuditorStats a st = audits_logged a (events st).
Proof.
  induction 1 as [d | ctx b st Hr IH | ctx b st Hr IH
                 | ctx t score scam honeypot ipfs st Hr IH
                 | ctx t txs holders liq locked st Hr IH]; intros a.
  - reflexivity.
  - unfold addAuthorizedAuditor, onlyOwner.
    destruct (require _ _) as [[]|e]; cbn [mbind result_bind storage_after]; apply IH.
  - unfold removeAuthorizedAuditor, onlyOwner.
    destruct (require _ _) as [[]|e]; cbn [mbind result_bind storage_after]; apply IH.
  - pose proof (registry_reachable_not_entered st Hr) as Hs.
    destruct (submitAuditResult_all_or_nothing ctx t score scam honeypot ipfs st Hs)
      as [[e [He Hsame]] | Hok].
    + rewrite Hsame. apply IH.
    + rewrite Hok. cbn [storage_after]. unfold after_submission at 2.
      cbn [events]. rewrite audits_logged_app, <- IH.
      unfold getAuditorStats at 1, after_submission, mapping_get. cbn [auditCount].
      unfold audits_logged. cbn [List.filter completed_by].
      destruct (Z.eq_dec a (msg_sender ctx)) as [-> | Hne].
      * rewrite lookup_insert_eq, Z.eqb_refl. reflexivity.
      * rewrite lookup_insert_ne by congruence.
        assert (Hf : (msg_sender ctx =? a) = false) by (apply Z.eqb_neq; congruence).
        rewrite Hf. cbn. unfold getAuditorStats, mapping_get. lia.
  - unfold updateTokenMetrics, onlyAuthorizedAuditor.
    destruct (require _ _) as [[]|e]; cbn [mbind result_bind storage_after];
      [|apply IH].
    unfold getAuditorStats, emit, set_tokenMetrics. cbn [auditCount events].
    rewrite audits_logged_app.
    change (audits_logged a [TokenMetricsUpdated t txs holders liq]) with 0.
    rewrite Z.add_0_r. apply IH.
Qed.

(** The counter of an auditor is the number of audits the log shows for
    them: in every reachable storage, [getAuditorStats] of an account
    equals the number of [AuditCompleted] events that name it. *)
Theorem audit_count_matches_log (st : State) (a : address) :
  reachable st ->
  getAuditorStats a st = audits_logged a (events st).
Proof.
  intros Hreach.
  apply audit_counts_match_log_everywhere. exact Hreach.
Qed.

Lemma audit_count_matches_log_witness :
  getAuditorStats deployer
    (storage_after (deployed deployer)
       (submitAuditResult (from_deployer registry_address now) token_A 40 false true
                          "report" (deployed deployer)))
  = audits_logged deployer
      (events
         (storage_after (deployed deployer)
            (submitAuditResult (from_deployer registry_address now) token_A 40 false
                               true "report" (deployed deployer)))).
Proof.
  apply (audit_count_matches_log
           (storage_after (deployed deployer)
              (submitAuditResult (from_deployer registry_address now) token_A 40 false
                                 true "report" (deployed deployer)))
           deployer).
  apply reachable_submitAuditResult. apply reachable_deployed.
Defined.

Lemma owner_passes_onlyOwner (ctx : Ctx) (st : State) :
  msg_sender ctx = owner st ->
  require (msg_sender ctx =? contract_owner st) CallerIsNotTheOwner = Ok tt.
Proof. intros ->. cbn. rewrite Z.eqb_refl. reflexivity. Qed.

Lemma stranger_fails_onlyOwner (ctx : Ctx) (st : State) :
  msg_sender ctx <> owner st ->
  require (msg_sender ctx =? contract_owner st) CallerIsNotTheOwner
  = Revert CallerIsNotTheOwner.
Proof.
  intros Hne. cbn.
  assert (Hf : (msg_sender ctx =? owner st) = false) by (apply Z.eqb_neq; exact Hne).
  rewrite Hf. reflexivity.
Qed.

(** Granting is idempotent: the owner's grant makes the account an
    authorized auditor, leaves every other account as it was, and a second
    grant of the same account leaves the storage of the first. *)
Theorem grant_is_idempotent (ctx : Ctx) (a : address) (st : State) :
  msg_sender ctx = owner st ->
  exists st1,
    addAuthorizedAuditor ctx a st = Ok (tt, st1) /\
    is_authorized a st1 = true /\
    (forall b, b <> a -> is_authorized b st1 = is_authorized b st) /\
    addAuthorizedAuditor ctx a st1 = Ok (tt, st1).
Proof.
  intros Hown. exists (set_authorizedAuditors a true st).
  split.
  { unfold addAuthorizedAuditor, onlyOwner.
    rewrite (owner_passes_onlyOwner ctx st Hown). reflexivity. }
  split.
  { unfold is_authorized, set_authorizedAuditors, mapping_get.
    cbn [authorizedAuditors]. rewrite lookup_insert_eq. reflexivity. }
  split.
  { intros b Hne. unfold is_authorized, set_authorizedAuditors, mapping_get.
    cbn [authorizedAuditors owner]. rewrite lookup_insert_ne by congruence.
    reflexivity. }
  unfold addAuthorizedAuditor, onlyOwner.
  rewrite (owner_passes_onlyOwner ctx (set_authorizedAuditors a true st) Hown).
  cbn [mbind result_bind]. unfold set_authorizedAuditors.
  cbn [owner status auditRecords tokenMetrics authorizedAuditors auditCount events].
  rewrite insert_insert_eq. reflexivity.
Qed.

Lemma grant_is_idempotent_witness :
  exists st1,
    addAuthorizedAuditor (from_deployer registry_address now) stranger
                         (deployed deployer) = Ok (tt, st1) /\
    is_authorized stranger st1 = true /\
    (forall b, b <> stranger ->
               is_authorized b st1 = is_authorized b (deployed deployer)) /\
    addAuthorizedAuditor (from_deployer registry_address now) stranger st1
    = Ok (tt, st1).
Proof.
  apply (grant_is_idempotent (from_deployer registry_address now) stranger
           (deployed deployer)).
  reflexivity.
Defined.

(** A revocation by the owner takes effect at once: the revoked account, if
    it is not the owner, is refused by [submitAuditResult] and by
    [updateTokenMetrics] from then on; the owner revoking itself stays
    authorized; no other account changes. *)
Theorem revoke_takes_effect (ctx ctx' : Ctx) (a : address) (st : State) :
  msg_sender ctx = owner st ->
  msg_sender ctx' = a ->
  exists st1,
    removeAuthorizedAuditor ctx a st = Ok (tt, st1) /\
    is_authorized a st1 = (a =? owner st) /\
    (forall b, b <> a -> is_authorized b st1 = is_authorized b st) /\
    (forall t score scam honeypot ipfs,
        a <> owner st ->
        submitAuditResult ctx' t score scam honeypot ipfs st1
        = Revert NotAuthorizedAuditor) /\
    (forall t txs holders liq locked,
        a <> owner st ->
        updateTokenMetrics ctx' t txs holders liq locked st1
        = Revert NotAuthorizedAuditor).
Proof.
  intros Hown Hsender. exists (set_authorizedAuditors a false st).
  assert (Hauth : is_authorized a (set_authorizedAuditors a false st) = (a =? owner st)).
  { unfold is_authorized, set_authorizedAuditors, mapping_get.
    cbn [authorizedAuditors owner]. rewrite lookup_insert_eq. reflexivity. }
  split.
  { unfold removeAuthorizedAuditor, onlyOwner.
    rewrite (owner_passes_onlyOwner ctx st Hown). reflexivity. }
  split; [exact Hauth|]. split.
  { intros b Hne. unfold is_authorized, set_authorizedAuditors, mapping_get.
    cbn [authorizedAuditors owner]. rewrite lookup_insert_ne by congruence.
    reflexivity. }
  assert (Hno : a <> owner st ->
                is_authorized (msg_sender ctx') (set_authorizedAuditors a false st)
                = false).
  { intros Hne. rewrite Hsender, Hauth. apply Z.eqb_neq. exact Hne. }
  split.
  - intros t score scam honeypot ipfs Hne.
    apply submitAuditResult_unauthorized. apply Hno. exact Hne.
  - intros t txs holders liq locked Hne.
    unfold updateTokenMetrics, onlyAuthorizedAuditor.
    rewrite (Hno Hne). reflexivity.
Qed.

Lemma revoke_takes_effect_witness :
  exists st1,
    removeAuthorizedAuditor (from_deployer registry_address now) stranger
      (set_authorizedAuditors stranger true (deployed deployer)) = Ok (tt, st1) /\
    is_authorized stranger st1
    = (stranger =? owner (set_authorizedAuditors stranger true (deployed deployer))) /\
    (forall b, b <> stranger ->
               is_authorized b st1
               = is_authorized b (set_authorizedAuditors stranger true
                                    (deployed deployer))) /\
    (forall t score scam honeypot ipfs,
        stranger <> owner (set_authorizedAuditors stranger true (deployed deployer)) ->
        submitAuditResult (from_stranger registry_address now) t score scam honeypot
                          ipfs st1
        = Revert NotAuthorizedAuditor) /\
    (forall t txs holders liq locked,
        stranger <> owner (set_authorizedAuditors stranger true (deployed deployer)) ->
        updateTokenMetrics (from_stranger registry_address now) t txs holders liq
                           locked st1
        = Revert NotAuthorizedAuditor).
Proof.
  apply (revoke_takes_effect (from_deployer registry_address now)
           (from_stranger registry_address now) stranger
           (set_authorizedAuditors stranger true (deployed deployer))).
  - reflexivity.
  - reflexivity.
Defined.

(** Only the owner administers the auditors: a grant or a revocation by any
    other account, an authorized auditor included, reverts with "Ownable:
    caller is not the owner" and changes nothing. *)
Theorem auditors_cannot_grant_or_revoke (ctx : Ctx) (a : address) (st : State) :
  msg_sender ctx <> owner st ->
  addAuthorizedAuditor ctx a st = Revert CallerIsNotTheOwner /\
  removeAuthorizedAuditor ctx a st = Revert CallerIsNotTheOwner /\
  storage_after st (addAuthorizedAuditor ctx a st) = st /\
  storage_after st (removeAuthorizedAuditor ctx a st) = st.
Proof.
  intros Hne.
  assert (Ha : addAuthorizedAuditor ctx a st = Revert CallerIsNotTheOwner).
  { unfold addAuthorizedAuditor, onlyOwner.
    rewrite (stranger_fails_onlyOwner ctx st Hne). reflexivity. }
  assert (Hr : removeAuthorizedAuditor ctx a st = Revert CallerIsNotTheOwner).
  { unfold removeAuthorizedAuditor, onlyOwner.
    rewrite (stranger_fails_onlyOwner ctx st Hne). reflexivity. }
  rewrite Ha, Hr. repeat split.
Qed.

Lemma auditors_cannot_grant_or_revoke_witness :
  let st := set_authorizedAuditors stranger true (deployed deployer) in
  let ctx := from_stranger registry_address now in
  addAuthorizedAuditor ctx holder st = Revert CallerIsNotTheOwner /\
  removeAuthorizedAuditor ctx holder st = Revert CallerIsNotTheOwner /\
  storage_after st (addAuthorizedAuditor ctx holder st) = st /\
  storage_after st (removeAuthorizedAuditor ctx holder st) = st.
Proof.
  apply (auditors_cannot_grant_or_revoke (from_stranger registry_address now) holder
           (set_authorizedAuditors stranger true (deployed deployer))).
  vm_compute. lia.
Defined.

(** [updateTokenMetrics] asks for nothing but authorization: from an
    authorized caller it is accepted for every token, the zero address
    included, whatever the numbers and whatever the guard says; it replaces
    the metrics of that token by the snapshot stamped with the time of the
    block, and leaves the other metrics, every audit record (so also
    [isTokenAudited]) and every counter alone. *)
Theorem updateTokenMetrics_overwrites (ctx : Ctx) (t : address)
    (txs holders liq : Z) (locked : bool) (st : State) :
  is_authorized (msg_sender ctx) st = true ->
  exists st',
    updateTokenMetrics ctx t txs holders liq locked st = Ok (tt, st') /\
    getTokenMetrics t st' = mkTokenMetrics txs holders liq locked (block_timestamp ctx) /\
    (forall t', t' <> t -> getTokenMetrics t' st' = getTokenMetrics t' st) /\
    auditRecords st' = auditRecords st /\
    (forall t', isTokenAudited t' st' = isTokenAudited t' st) /\
    auditCount st' = auditCount st /\
    events st' = events st ++ [TokenMetricsUpdated t txs holders liq].
Proof.
  intros Ha.
  exists (emit (TokenMetricsUpdated t txs holders liq)
            (set_tokenMetrics t (mkTokenMetrics txs holders liq locked
                                   (block_timestamp ctx)) st)).
  split.
  { unfold updateTokenMetrics, onlyAuthorizedAuditor. rewrite Ha. reflexivity. }
  split.
  { unfold getTokenMetrics, emit, set_tokenMetrics, mapping_get. cbn [tokenMetrics].
    rewrite lookup_insert_eq. reflexivity. }
  split.
  { intros t' Hne. unfold getTokenMetrics, emit, set_tokenMetrics, mapping_get.
    cbn [tokenMetrics]. rewrite lookup_insert_ne by congruence. reflexivity. }
  repeat split.
Qed.

Lemma updateTokenMetrics_overwrites_witness :
  exists st',
    updateTokenMetrics (from_deployer registry_address now) zero_address 12 7 900 true
                       (deployed deployer) = Ok (tt, st') /\
    getTokenMetrics zero_address st'
    = mkTokenMetrics 12 7 900 true
        (block_timestamp (from_deployer registry_address now)) /\
    (forall t', t' <> zero_address ->
                getTokenMetrics t' st' = getTokenMetrics t' (deployed deployer)) /\
    auditRecords st' = auditRecords (deployed deployer) /\
    (forall t', isTokenAudited t' st' = isTokenAudited t' (deployed deployer)) /\
    auditCount st' = auditCount (deployed deployer) /\
    events st' = events (deployed deployer)
                 ++ [TokenMetricsUpdated zero_address 12 7 900].
Proof.
  apply (updateTokenMetrics_overwrites (from_deployer registry_address now)
           zero_address 12 7 900 true (deployed deployer)).
  vm_compute. reflexivity.
Defined.

End AuditRegistryMore.

(** ** ScamDetector: the three branches, the lists, the stored flags *)

Section ScamDetectorMore.
Import ScamDetector Examples.

Lemma getScamAnalysis_other (a b : address) (f : ScamFlags) (st : State) :
  b <> a -> getScamAnalysis b (set_scamAnalysis a f st) = getScamAnalysis b st.
Proof.
  intros Hne. unfold getScamAnalysis, set_scamAnalysis, mapping_get.
  cbn [scamAnalysis]. rewrite lookup_insert_ne by congruence. reflexivity.
Qed.

Lemma analyzeToken_zero (ch : Chain) (ctx : Ctx) (st : State) :
  analyzeToken ch ctx zero_address st = Revert InvalidTokenAddress.
Proof. reflexivity. Qed.

(** The blacklist check implies the high-tax check: one asks whether the
    hash of the address is a multiple of 10, the other whether it is a
    multiple of 5. *)
Lemma checkForBlacklist_implies_checkForHighTax (a : address) :
  checkForBlacklist a = true -> checkForHighTax a = true.
Proof.
  unfold checkForBlacklist, checkForHighTax. cbv zeta.
  generalize (keccak256_uint (encode_address a)). intros h Hbl.
  apply Z.eqb_eq in Hbl. apply Z.eqb_eq.
  pose proof (Z.div_mod h 10 ltac:(lia)) as H10.
  rewrite Hbl, Z.add_0_r in H10.
  rewrite H10. replace (10 * (h / 10)) with ((2 * (h / 10)) * 5) by lia.
  apply Z.mod_mul. lia.
Qed.

(** The flags of the third branch, as [analyzeToken_scored] gives them. *)
Lemma scored_flags_in_order (hm oi : bool) (a : address) :
  let bl := checkForBlacklist a in
  let ht := checkForHighTax a in
  let ld := checkForLiquidityDrain a in
  let score :=
    25 * Z.b2z hm + 30 * Z.b2z bl + 20 * Z.b2z ht + 35 * Z.b2z ld + 15 * Z.b2z oi in
  flags_in_order (mkScamFlags hm bl ht ld oi (70 <=? score) score).
Proof.
  cbv zeta. pose proof (checkForBlacklist_implies_checkForHighTax a) as Himp.
  revert Himp.
  generalize (checkForBlacklist a) (checkForHighTax a) (checkForLiquidityDrain a).
  intros bl ht ld Himp. unfold flags_in_order.
  cbn [riskScore hasBlacklist hasHighTax isHoneypot].
  split; [|split].
  - destruct hm, bl, ht, ld, oi; cbn; lia.
  - exact Himp.
  - intros H. apply Z.leb_le. exact H.
Qed.

(** The three branches of [analyzeToken] put together: what a call that
    returns has done, and the one way a call on a token address reverts. *)
Lemma analyzeToken_on_token_address (ch : Chain) (ctx : Ctx) (a : address)
    (st : State) :
  a <> zero_address ->
  match analyzeToken ch ctx a st with
  | Ok (flags, st') =>
      flags_in_order flags /\
      events st' =
        (if isHoneypot flags
         then events st
              ++ [ScamDetected a
                    (if mapping_get false (knownScams st) a
                     then "Known scam token" else "High risk score detected")
                    (block_timestamp ctx)]
         else events st) /\
      getScamAnalysis a st' = flags /\
      (forall b, b <> a -> getScamAnalysis b st' = getScamAnalysis b st) /\
      knownScams st' = knownScams st /\
      trustedTokens st' = trustedTokens st /\
      owner st' = owner st
  | Revert e =>
      e = UncaughtCallFailure /\
      mapping_get false (knownScams st) a = false /\
      mapping_get false (trustedTokens st) a = false /\
      uncaught (try_owner ch a) = true
  end.
Proof.
  intros Ha.
  destruct (mapping_get false (knownScams st) a) eqn:Hk.
  - rewrite (analyzeToken_known_scam ch ctx a st Ha Hk).
    split; [unfold flags_in_order; cbn; repeat split; try lia; discriminate|].
    split; [reflexivity|]. split; [apply getScamAnalysis_stored|].
    split; [intros b Hne; rewrite getScamAnalysis_other by exact Hne; reflexivity|].
    repeat split.
  - destruct (mapping_get false (trustedTokens st) a) eqn:Ht.
    + rewrite (analyzeToken_trusted ch ctx a st Ha Hk Ht).
      split; [unfold flags_in_order; cbn; repeat split; try lia; discriminate|].
      split; [reflexivity|]. split; [apply getScamAnalysis_stored|].
      split; [intros b Hne; apply getScamAnalysis_other; exact Hne|].
      repeat split.
    + destruct (checkOwnershipIssues ch a) as [oi|e] eqn:Hoi.
      * pose proof (analyzeToken_scored ch ctx a st oi Ha Hk Ht Hoi) as Hrun.
        cbv zeta in Hrun. rewrite Hrun.
        split; [apply scored_flags_in_order|].
        cbn [isHoneypot].
        destruct (70 <=? _).
        { split; [reflexivity|]. split.
          { rewrite getScamAnalysis_emit. apply getScamAnalysis_stored. }
          split.
          { intros b Hne. rewrite getScamAnalysis_emit.
            apply getScamAnalysis_other. exact Hne. }
          repeat split. }
        { split; [reflexivity|]. split; [apply getScamAnalysis_stored|].
          split; [intros b Hne; apply getScamAnalysis_other; exact Hne|].
          repeat split. }
      * rewrite (analyzeToken_uncaught ch ctx a st e Ha Hk Ht Hoi).
        destruct (checkOwnershipIssues_revert ch a e Hoi) as [-> Hun].
        repeat split. exact Hun.
Qed.




(** On both lists at once, the scam list wins: the known-scam check comes
    first, so the token is returned as a honeypot and logged as a known
    scam, and the flags returned are those of a token that is not trusted
    at all. *)
Theorem scam_list_wins_over_trusted_list (ch : Chain) (ctx : Ctx) (a : address)
    (st : State) :
  a <> zero_address ->
  mapping_get false (knownScams st) a = true ->
  mapping_get false (trustedTokens st) a = true ->
  exists flags st',
    analyzeToken ch ctx a st = Ok (flags, st') /\
    isHoneypot flags = true /\
    events st' =
      events st ++ [ScamDetected a "Known scam token" (block_timestamp ctx)] /\
    returned (analyzeToken ch ctx a (set_trustedTokens a false st)) = Some flags.
Proof.
  intros Ha Hk Ht. eexists _, _.
  split; [apply analyzeToken_known_scam; assumption|].
  split; [reflexivity|]. split; [reflexivity|].
  rewrite (analyzeToken_known_scam ch ctx a (set_trustedTokens a false st) Ha Hk).
  cbn [returned]. reflexivity.
Qed.

Lemma scam_list_wins_over_trusted_list_witness :
  exists flags st',
    analyzeToken detector_chain (from_stranger detector_address now) token_A
                 (set_trustedTokens token_A true detector_with_scam)
    = Ok (flags, st') /\
    isHoneypot flags = true /\
    events st' =
      events (set_trustedTokens token_A true detector_with_scam)
      ++ [ScamDetected token_A "Known scam token"
            (block_timestamp (from_stranger detector_address now))] /\
    returned (analyzeToken detector_chain (from_stranger detector_address now) token_A
                (set_trustedTokens token_A false
                   (set_trustedTokens token_A true detector_with_scam)))
    = Some flags.
Proof.
  apply (scam_list_wins_over_trusted_list detector_chain
           (from_stranger detector_address now) token_A
           (set_trustedTokens token_A true detector_with_scam)).
  - vm_compute. lia.
  - vm_compute. reflexivity.
  - vm_compute. reflexivity.
Defined.

(** A token is never flagged for a blacklist alone: whenever the flags
    [analyzeToken] returns have the blacklist flag, they have the high-tax
    flag too, so their score is at least 50. *)
Theorem blacklist_flag_comes_with_high_tax (ch : Chain) (ctx : Ctx) (a : address)
    (st : State) (flags : ScamFlags) :
  returned (analyzeToken ch ctx a st) = Some flags ->
  hasBlacklist flags = true ->
  hasHighTax flags = true /\ 50 <= riskScore flags.
Proof.
  intros Hrun Hbl.
  destruct (Z.eq_dec a zero_address) as [-> | Ha];
    [rewrite analyzeToken_zero in Hrun; discriminate Hrun|].
  destruct (mapping_get false (knownScams st) a) eqn:Hk.
  { rewrite (analyzeToken_known_scam ch ctx a st Ha Hk) in Hrun.
    cbn [returned] in Hrun. injection Hrun as Hf. subst flags. discriminate Hbl. }
  destruct (mapping_get false (trustedTokens st) a) eqn:Ht.
  { rewrite (analyzeToken_trusted ch ctx a st Ha Hk Ht) in Hrun.
    cbn [returned] in Hrun. injection Hrun as Hf. subst flags. discriminate Hbl. }
  destruct (checkOwnershipIssues ch a) as [oi|e] eqn:Hoi;
    [|rewrite (analyzeToken_uncaught ch ctx a st e Ha Hk Ht Hoi) in Hrun;
      discriminate Hrun].
  rewrite (analyzeToken_scored ch ctx a st oi Ha Hk Ht Hoi) in Hrun.
  cbv zeta in Hrun. cbn [returned] in Hrun.
  pose proof (checkForBlacklist_implies_checkForHighTax a) as Himp.
  revert Himp Hrun.
  generalize (checkForHiddenMint ch ctx a) (checkForBlacklist a) (checkForHighTax a)
             (checkForLiquidityDrain a).
  intros hm bl ht ld Himp Hrun.
  injection Hrun as Hf. subst flags.
  cbn [hasBlacklist] in Hbl. cbn [hasHighTax riskScore].
  rewrite (Himp Hbl), Hbl. split; [reflexivity|].
  destruct hm, ld, oi; cbn; lia.
Qed.

Lemma blacklist_flag_comes_with_high_tax_witness :
  hasHighTax (mkScamFlags true true true true true true 125) = true /\
  50 <= riskScore (mkScamFlags true true true true true true 125).
Proof.
  apply (blacklist_flag_comes_with_high_tax detector_chain
           (from_stranger detector_address 1700000005) token_B (deployed deployer)
           (mkScamFlags true true true true true true 125)).
  - vm_compute. reflexivity.
  - reflexivity.
Defined.

(** What [analyzeToken] returns depends on the storage only through the
    membership of the token in the two lists. *)
Lemma analyzeToken_returned_ext (ch : Chain) (ctx : Ctx) (a : address)
    (st1 st2 : State) :
  mapping_get false (knownScams st1) a = mapping_get false (knownScams st2) a ->
  mapping_get false (trustedTokens st1) a = mapping_get false (trustedTokens st2) a ->
  returned (analyzeToken ch ctx a st1) = returned (analyzeToken ch ctx a st2).
Proof.
  intros Hk Ht.
  destruct (Z.eq_dec a zero_address) as [-> | Ha]; [reflexivity|].
  destruct (mapping_get false (knownScams st2) a) eqn:Hk2.
  { rewrite (analyzeToken_known_scam ch ctx a st1 Ha Hk).
    rewrite (analyzeToken_known_scam ch ctx a st2 Ha Hk2).
    cbn [returned]. reflexivity. }
  destruct (mapping_get false (trustedTokens st2) a) eqn:Ht2.
  { rewrite (analyzeToken_trusted ch ctx a st1 Ha Hk Ht).
    rewrite (analyzeToken_trusted ch ctx a st2 Ha Hk2 Ht2).
    cbn [returned]. reflexivity. }
  destruct (checkOwnershipIssues ch a) as [oi|e] eqn:Hoi.
  - rewrite (analyzeToken_scored ch ctx a st1 oi Ha Hk Ht Hoi).
    rewrite (analyzeToken_scored ch ctx a st2 oi Ha Hk2 Ht2 Hoi).
    cbv zeta. cbn [returned]. reflexivity.
  - rewrite (analyzeToken_uncaught ch ctx a st1 e Ha Hk Ht Hoi).
    rewrite (analyzeToken_uncaught ch ctx a st2 e Ha Hk2 Ht2 Hoi).
    reflexivity.
Qed.



(** [analyzeToken] leaves the two lists alone, on every input. *)
Lemma analyzeToken_keeps_lists (ch : Chain) (ctx : Ctx) (t : address) (st : State) :
  knownScams (storage_after st (analyzeToken ch ctx t st)) = knownScams st /\
  trustedTokens (storage_after st (analyzeToken ch ctx t st)) = trustedTokens st.
Proof.
  destruct (Z.eq_dec t zero_address) as [-> | Ht]; [split; reflexivity|].
  pose proof (analyzeToken_on_token_address ch ctx t st Ht) as H.
  destruct (analyzeToken ch ctx t st) as [[flags st']|e]; cbn [storage_after].
  - destruct H as [_ [_ [_ [_ [Hk [Htr _]]]]]]. split; assumption.
  - split; reflexivity.
Qed.

(** Trust is for ever: the contract has no operation that takes a token off
    the trusted list, so a trusted token is still trusted after any call of
    any of the four functions that write, by anyone; and as long as it is
    not on the scam list, its analysis returns the all-clear flags with a
    score of 0 and logs nothing. *)
Theorem trusted_is_for_ever (a : address) (st : State) :
  mapping_get false (trustedTokens st) a = true ->
  (forall ch ctx t,
      mapping_get false
        (trustedTokens (storage_after st (analyzeToken ch ctx t st))) a = true) /\
  (forall ctx t,
      mapping_get false
        (trustedTokens (storage_after st (addKnownScam ctx t st))) a = true) /\
  (forall ctx t,
      mapping_get false
        (trustedTokens (storage_after st (addTrustedToken ctx t st))) a = true) /\
  (forall ctx t,
      mapping_get false
        (trustedTokens (storage_after st (removeFromScamList ctx t st))) a = true) /\
  (forall ch ctx,
      a <> zero_address ->
      mapping_get false (knownScams st) a = false ->
      analyzeToken ch ctx a st = Ok (zero_flags, set_scamAnalysis a zero_flags st)).
Proof.
  intros Ht. split; [|split; [|split; [|split]]].
  - intros ch ctx t.
    destruct (analyzeToken_keeps_lists ch ctx t st) as [_ Hsame].
    rewrite Hsame. exact Ht.
  - intros ctx t. unfold addKnownScam, onlyOwner.
    destruct (require _ _) as [[]|e]; cbn [mbind result_bind storage_after]; exact Ht.
  - intros ctx t. unfold addTrustedToken, onlyOwner.
    destruct (require _ _) as [[]|e]; cbn [mbind result_bind storage_after];
      [|exact Ht].
    unfold emit, set_trustedTokens, mapping_get. cbn [trustedTokens].
    destruct (Z.eq_dec t a) as [-> | Hne].
    + rewrite lookup_insert_eq. reflexivity.
    + rewrite lookup_insert_ne by exact Hne. exact Ht.
  - intros ctx t. unfold removeFromScamList, onlyOwner.
    destruct (require _ _) as [[]|e]; cbn [mbind result_bind storage_after]; exact Ht.
  - intros ch ctx Ha Hk. apply analyzeToken_trusted; assumption.
Qed.

Lemma trusted_is_for_ever_witness :
  let st := set_trustedTokens token_A true (deployed deployer) in
  (forall ch ctx t,
      mapping_get false
        (trustedTokens (storage_after st (analyzeToken ch ctx t st))) token_A = true) /\
  (forall ctx t,
      mapping_get false
        (trustedTokens (storage_after st (addKnownScam ctx t st))) token_A = true) /\
  (forall ctx t,
      mapping_get false
        (trustedTokens (storage_after st (addTrustedToken ctx t st))) token_A = true) /\
  (forall ctx t,
      mapping_get false
        (trustedTokens (storage_after st (removeFromScamList ctx t st))) token_A
      = true) /\
  (forall ch ctx,
      token_A <> zero_address ->
      mapping_get false (knownScams st) token_A = false ->
      analyzeToken ch ctx token_A st
      = Ok (zero_flags, set_scamAnalysis token_A zero_flags st)).
Proof.
  apply (trusted_is_for_ever token_A
           (set_trustedTokens token_A true (deployed deployer))).
  vm_compute. reflexivity.
Defined.

(** The stored flags of a reachable storage, all at once. *)
Lemma flags_in_order_everywhere (st : State) :
  reachable st ->
  forall a, flags_in_order (getScamAnalysis a st).
Proof.
  induction 1 as [d | ch ctx t st Hr IH | ctx t st Hr IH | ctx t st Hr IH
                 | ctx t st Hr IH]; intros a.
  - unfold getScamAnalysis, mapping_get, deployed. cbn [scamAnalysis].
    rewrite lookup_empty. unfold flags_in_order. cbn.
    split; [lia|]. split; [discriminate | intros H; lia].
  - destruct (Z.eq_dec t zero_address) as [-> | Ht]; [apply IH|].
    pose proof (analyzeToken_on_token_address ch ctx t st Ht) as H.
    destruct (analyzeToken ch ctx t st) as [[flags st']|e]; cbn [storage_after];
      [|apply IH].
    destruct H as [Hord [_ [Hsame [Hother _]]]].
    destruct (Z.eq_dec a t) as [-> | Hne].
    + rewrite Hsame. exact Hord.
    + rewrite (Hother a Hne). apply IH.
  - unfold addKnownScam, onlyOwner.
    destruct (require _ _) as [[]|e]; cbn [mbind result_bind storage_after]; apply IH.
  - unfold addTrustedToken, onlyOwner.
    destruct (require _ _) as [[]|e]; cbn [mbind result_bind storage_after]; apply IH.
  - unfold removeFromScamList, onlyOwner.
    destruct (require _ _) as [[]|e]; cbn [mbind result_bind storage_after]; apply IH.
Qed.

(** Every analysis the detector holds is in order: in every reachable
    storage, the flags stored under any address have a score between 0 and
    125, have the high-tax flag wherever they have the blacklist flag, and
    have [isHoneypot] set whenever the score is 70 or more. *)
Theorem stored_flags_in_order (st : State) (a : address) :
  reachable st ->
  flags_in_order (getScamAnalysis a st).
Proof.
  intros Hreach.
  apply flags_in_order_everywhere. exact Hreach.
Qed.

Lemma stored_flags_in_order_witness :
  flags_in_order
    (getScamAnalysis token_B
       (storage_after (deployed deployer)
          (analyzeToken detector_chain (from_stranger detector_address 1700000005)
                        token_B (deployed deployer)))).
Proof.
  apply (stored_flags_in_order
           (storage_after (deployed deployer)
              (analyzeToken detector_chain (from_stranger detector_address 1700000005)
                            token_B (deployed deployer)))
           token_B).
  apply reachable_analyzeToken. apply reachable_deployed.
Defined.

Lemma detector_owner_passes (ctx : Ctx) (st : State) :
  msg_sender ctx = owner st ->
  require (msg_sender ctx =? contract_owner st) CallerIsNotTheOwner = Ok tt.
Proof. intros ->. cbn. rewrite Z.eqb_refl. reflexivity. Qed.

(** Listing a token as a scam and taking it off again. After the owner's
    [addKnownScam] every analysis of the token returns a honeypot; after
    the owner's [removeFromScamList] every analysis of every token returns
    what it returned before the listing. *)
Theorem scam_listing_round_trip (ctx1 ctx2 : Ctx) (a : address) (st : State) :
  msg_sender ctx1 = owner st ->
  msg_sender ctx2 = owner st ->
  a <> zero_address ->
  mapping_get false (knownScams st) a = false ->
  exists st1 st2,
    addKnownScam ctx1 a st = Ok (tt, st1) /\
    (forall ch ctx,
        exists flags st', analyzeToken ch ctx a st1 = Ok (flags, st') /\
                          isHoneypot flags = true) /\
    removeFromScamList ctx2 a st1 = Ok (tt, st2) /\
    (forall ch ctx b,
        returned (analyzeToken ch ctx b st2) = returned (analyzeToken ch ctx b st)).
Proof.
  intros Hown1 Hown2 Ha Hk.
  exists (emit (ScamDetected a "Added to scam list" (block_timestamp ctx1))
            (set_knownScams a true st)).
  exists (set_knownScams a false
            (emit (ScamDetected a "Added to scam list" (block_timestamp ctx1))
               (set_knownScams a true st))).
  split.
  { unfold addKnownScam, onlyOwner. rewrite (detector_owner_passes ctx1 st Hown1).
    reflexivity. }
  split.
  { intros ch ctx. eexists _, _. split.
    - apply analyzeToken_known_scam; [exact Ha|].
      unfold emit, set_knownScams, mapping_get. cbn [knownScams].
      rewrite lookup_insert_eq. reflexivity.
    - reflexivity. }
  split.
  { assert (Hown2' : msg_sender ctx2
                     = owner (emit (ScamDetected a "Added to scam list"
                                      (block_timestamp ctx1))
                                (set_knownScams a true st))) by exact Hown2.
    unfold removeFromScamList, onlyOwner.
    rewrite (detector_owner_passes ctx2 _ Hown2'). reflexivity. }
  intros ch ctx b. apply analyzeToken_returned_ext.
  - unfold emit, set_knownScams, mapping_get. cbn [knownScams].
    destruct (Z.eq_dec b a) as [-> | Hne].
    + rewrite lookup_insert_eq. cbn [default]. symmetry. exact Hk.
    + rewrite !lookup_insert_ne by congruence. reflexivity.
  - reflexivity.
Qed.

Lemma scam_listing_round_trip_witness :
  exists st1 st2,
    addKnownScam (from_deployer detector_address now) token_A (deployed deployer)
    = Ok (tt, st1) /\
    (forall ch ctx,
        exists flags st', analyzeToken ch ctx token_A st1 = Ok (flags, st') /\
                          isHoneypot flags = true) /\
    removeFromScamList (from_deployer detector_address 1700000009) token_A st1
    = Ok (tt, st2) /\
    (forall ch ctx b,
        returned (analyzeToken ch ctx b st2)
        = returned (analyzeToken ch ctx b (deployed deployer))).
Proof.
  apply (scam_listing_round_trip (from_deployer detector_address now)
           (from_deployer detector_address 1700000009) token_A (deployed deployer)).
  - reflexivity.
  - reflexivity.
  - vm_compute. lia.
  - vm_compute. reflexivity.
Defined.

(** The lists are the owner's: called by any other account, each of the
    three list operations reverts with "Ownable: caller is not the owner"
    and leaves lists, stored analyses and log as they were. *)
Theorem lists_are_owner_only (ctx : Ctx) (t : address) (st : State) :
  msg_sender ctx <> owner st ->
  addKnownScam ctx t st = Revert CallerIsNotTheOwner /\
  addTrustedToken ctx t st = Revert CallerIsNotTheOwner /\
  removeFromScamList ctx t st = Revert CallerIsNotTheOwner /\
  storage_after st (addKnownScam ctx t st) = st /\
  storage_after st (addTrustedToken ctx t st) = st /\
  storage_after st (removeFromScamList ctx t st) = st.
Proof.
  intros Hne.
  assert (Hreq : require (msg_sender ctx =? contract_owner st) CallerIsNotTheOwner
                 = Revert CallerIsNotTheOwner).
  { cbn. assert (Hf : (msg_sender ctx =? owner st) = false)
      by (apply Z.eqb_neq; exact Hne).
    rewrite Hf. reflexivity. }
  assert (H1 : addKnownScam ctx t st = Revert CallerIsNotTheOwner)
    by (unfold addKnownScam, onlyOwner; rewrite Hreq; reflexivity).
  assert (H2 : addTrustedToken ctx t st = Revert CallerIsNotTheOwner)
    by (unfold addTrustedToken, onlyOwner; rewrite Hreq; reflexivity).
  assert (H3 : removeFromScamList ctx t st = Revert CallerIsNotTheOwner)
    by (unfold removeFromScamList, onlyOwner; rewrite Hreq; reflexivity).
  rewrite H1, H2, H3. repeat split.
Qed.

Lemma lists_are_owner_only_witness :
  let ctx := from_stranger detector_address now in
  let st := deployed deployer in
  addKnownScam ctx token_A st = Revert CallerIsNotTheOwner /\
  addTrustedToken ctx token_A st = Revert CallerIsNotTheOwner /\
  removeFromScamList ctx token_A st = Revert CallerIsNotTheOwner /\
  storage_after st (addKnownScam ctx token_A st) = st /\
  storage_after st (addTrustedToken ctx token_A st) = st /\
  storage_after st (removeFromScamList ctx token_A st) = st.
Proof.
  apply (lists_are_owner_only (from_stranger detector_address now) token_A
           (deployed deployer)).
  vm_compute. lia.
Defined.

End ScamDetectorMore.

(** ** TokenAnalyzer: reads and fallbacks, the security flags, the names *)

Section TokenAnalyzerMore.
Import TokenAnalyzer Examples.

Lemma getTokenInfo_other (a b : address) (i : TokenInfo) (e : Event) (g : GuardStatus)
    (st : State) :
  b <> a ->
  getTokenInfo b (set_guard_status g (emit e (set_analyzedTokens a i st)))
  = getTokenInfo b st.
Proof.
  intros Hne. unfold getTokenInfo, mapping_get. cbn.
  rewrite lookup_insert_ne by congruence. reflexivity.
Qed.

(** The record [analyzeToken] builds and what it leaves alone, and when
    it builds none. *)
Lemma analyzeToken_record_and_frame (ch : Chain) (ctx : Ctx) (a : address)
    (st : State) :
  a <> zero_address ->
  status st = NOT_ENTERED ->
  if reads_uncaught ch a
  then analyzeToken ch ctx a st = Revert UncaughtCallFailure
  else
    exists info st',
      analyzeToken ch ctx a st = Ok (info, st') /\
      name info = read_or (addressToString a) (try_name ch a) /\
      symbol info = read_or (addressToShortString a) (try_symbol ch a) /\
      decimals info = read_or 18 (try_decimals ch a) /\
      totalSupply info = read_or (10 ^ 24) (try_totalSupply ch a) /\
      owner info = read_or 0xf39Fd6e51aad88F6F4ce6aB8827279cffFb92266 (try_owner ch a) /\
      exists_ info = true /\
      getTokenInfo a st' = info /\
      (forall b, b <> a -> getTokenInfo b st' = getTokenInfo b st) /\
      securityAnalysis st' = securityAnalysis st /\
      events st' =
        events st ++ [TokenAnalyzed a (msg_sender ctx) (block_timestamp ctx)] /\
      status st' = NOT_ENTERED.
Proof.
  intros Ha Hs.
  rewrite (analyzeToken_top_level ch ctx a st Hs).
  unfold analyzeToken_body, reads_uncaught.
  rewrite (nonzero_guard a Ha), require_true.
  destruct (try_name ch a) as [n| |], (try_symbol ch a) as [sy| |],
    (try_decimals ch a) as [d| |], (try_totalSupply ch a) as [ts| |],
    (try_owner ch a) as [o| |];
    cbn [uncaught orb mbind result_bind try_catch read_or];
    first
      [ reflexivity
      | eexists _, _; split; [reflexivity|];
        cbn [name symbol decimals totalSupply owner exists_
             set_name set_symbol set_decimals set_totalSupply set_owner set_exists
             zero_info];
        (repeat (split; [reflexivity|]));
        (split; [apply getTokenInfo_stored|]);
        (split; [intros b Hne; rewrite getTokenInfo_other by exact Hne; reflexivity|]);
        repeat split ].
Qed.




(** [decimals()] answering the word 300: the call reverts, and no record is
    stored. *)
Example decimals_300_reverts :
  let r := analyzeToken Scenarios.wide_decimals_chain
             (from_stranger analyzer_address now) token_A (deployed deployer) in
  r = Revert UncaughtCallFailure /\
  getTokenInfo token_A (storage_after (deployed deployer) r) = zero_info.
Proof. vm_compute. split; reflexivity. Qed.

(** The record of [token_A] when only its name and decimals can be read. *)
Example half_read_record_of_token_A :
  returned (analyzeToken Scenarios.half_silent_chain
              (from_stranger analyzer_address now) token_A (deployed deployer))
  = Some (mkTokenInfo "Tether USD" "dac17f" 6 1000000000000000000000000
                      0xf39Fd6e51aad88F6F4ce6aB8827279cffFb92266 true).
Proof. vm_compute. reflexivity. Qed.

(** Setting the security flags and reading them back. The owner's
    [setSecurityFlags] makes [checkSecurityFlags] return exactly the six
    flags given and [calculateRiskScore] their weighted sum; flags and
    scores of other tokens, and the analysed records, stay as they were.
    From any other caller it reverts and changes nothing. *)
Theorem setSecurityFlags_round_trip (ctx : Ctx) (t : address)
    (o m b p bl r : bool) (st : State) :
  let call := setSecurityFlags ctx t o m b p bl r st in
  if msg_sender ctx =? contract_owner_ st
  then exists st',
      call = Ok (tt, st') /\
      checkSecurityFlags t st' = mkSecurityFlags o m b p bl r /\
      calculateRiskScore t st'
      = Ok (20 * Z.b2z (o && negb r) + 25 * Z.b2z m + 15 * Z.b2z p
            + 30 * Z.b2z bl + 10 * Z.b2z (negb b)) /\
      (forall t', t' <> t ->
                  checkSecurityFlags t' st' = checkSecurityFlags t' st /\
                  calculateRiskScore t' st' = calculateRiskScore t' st) /\
      analyzedTokens st' = analyzedTokens st /\
      events st' = events st
  else call = Revert CallerIsNotTheOwner /\ storage_after st call = st.
Proof.
  cbv zeta. unfold setSecurityFlags, onlyOwner.
  cbn [contract_owner State_Ownable].
  destruct (msg_sender ctx =? contract_owner_ st); cbn [require mbind result_bind].
  - eexists. split; [reflexivity|].
    assert (Hget : checkSecurityFlags t
                     (set_securityAnalysis t (mkSecurityFlags o m b p bl r) st)
                   = mkSecurityFlags o m b p bl r).
    { unfold checkSecurityFlags, set_securityAnalysis, mapping_get.
      cbn [securityAnalysis]. rewrite lookup_insert_eq. reflexivity. }
    split; [exact Hget|]. split.
    { unfold calculateRiskScore. cbv zeta.
      unfold checkSecurityFlags in Hget. rewrite Hget.
      destruct o, m, b, p, bl, r; reflexivity. }
    split.
    { intros t' Hne.
      assert (Hsame : mapping_get zero_security
                        (securityAnalysis
                           (set_securityAnalysis t (mkSecurityFlags o m b p bl r) st))
                        t'
                      = mapping_get zero_security (securityAnalysis st) t').
      { unfold set_securityAnalysis, mapping_get. cbn [securityAnalysis].
        rewrite lookup_insert_ne by congruence. reflexivity. }
      unfold checkSecurityFlags, calculateRiskScore. cbv zeta.
      rewrite Hsame. split; reflexivity. }
    split; reflexivity.
  - split; reflexivity.
Qed.

(** A token nobody has set flags for is not scored 0 but 10: the unset
    flags read as all false, and a missing burn function counts for 10. *)
Theorem unset_token_scores_10 (t : address) (st : State) :
  securityAnalysis st !! t = None ->
  calculateRiskScore t st = Ok 10.
Proof.
  intros Hnone. unfold calculateRiskScore, mapping_get. rewrite Hnone. reflexivity.
Qed.

Lemma unset_token_scores_10_witness :
  calculateRiskScore token_A (deployed deployer) = Ok 10.
Proof.
  apply (unset_token_scores_10 token_A (deployed deployer)). reflexivity.
Defined.

(** A batch leaves the storage as it found it, whatever the list. *)
Lemma batchAnalyze_changes_nothing (ch : Chain) (ctx : Ctx) (tokens : list address)
    (st : State) :
  status st = NOT_ENTERED ->
  storage_after st (batchAnalyze ch ctx tokens st) = st.
Proof.
  intros Hs. destruct tokens as [|t ts].
  - rewrite (batchAnalyze_nil ch ctx st Hs). reflexivity.
  - destruct (le_lt_dec (length (t :: ts)) 10) as [Hle | Hgt].
    + rewrite (batchAnalyze_nonempty_reverts ch ctx t ts st Hs Hle). reflexivity.
    + rewrite (batchAnalyze_too_many ch ctx (t :: ts) st Hs Hgt). reflexivity.
Qed.

(** The length check of [batchAnalyze]: a list of more than ten addresses
    is refused with "Too many tokens to analyze at once", a validation
    error, before any token is looked at and with nothing changed, whatever
    the addresses are and whatever their reads would answer. *)
Theorem batch_longer_than_ten_is_refused (ch : Chain) (ctx : Ctx)
    (tokens : list address) (st : State) :
  status st = NOT_ENTERED ->
  (10 < length tokens)%nat ->
  batchAnalyze ch ctx tokens st = Revert TooManyTokens /\
  classify TooManyTokens = ValidationError /\
  storage_after st (batchAnalyze ch ctx tokens st) = st.
Proof.
  intros Hs Hlen. rewrite (batchAnalyze_too_many ch ctx tokens st Hs Hlen).
  repeat split.
Qed.

Lemma batch_longer_than_ten_is_refused_witness :
  batchAnalyze Scenarios.half_silent_chain (from_stranger analyzer_address now)
               (zero_address :: ten_tokens) (deployed deployer)
  = Revert TooManyTokens /\
  classify TooManyTokens = ValidationError /\
  storage_after (deployed deployer)
    (batchAnalyze Scenarios.half_silent_chain (from_stranger analyzer_address now)
                  (zero_address :: ten_tokens) (deployed deployer))
  = deployed deployer.
Proof.
  apply (batch_longer_than_ten_is_refused Scenarios.half_silent_chain
           (from_stranger analyzer_address now) (zero_address :: ten_tokens)
           (deployed deployer)).
  - reflexivity.
  - vm_compute. lia.
Defined.

(** [exists] tells the analysed tokens from the others: in every reachable
    storage the record under an address is either the empty record, with
    [exists] clear, or a record with [exists] set; and the zero address
    never has a record. *)
Theorem exists_marks_analysed_tokens (st : State) :
  reachable st ->
  (forall a, getTokenInfo a st = zero_info \/ exists_ (getTokenInfo a st) = true) /\
  getTokenInfo zero_address st = zero_info.
Proof.
  induction 1 as [d | ch ctx t st Hr [IH IH0] | ch ctx ts st Hr IH | ctx t f st Hr IH].
  - split; [intros a; left|]; reflexivity.
  - pose proof (analyzer_reachable_not_entered st Hr) as Hs.
    destruct (Z.eq_dec t zero_address) as [-> | Ht].
    { rewrite (analyzeToken_top_level ch ctx zero_address st Hs).
      cbn [storage_after]. split; assumption. }
    pose proof (analyzeToken_record_and_frame ch ctx t st Ht Hs) as Hcall.
    destruct (reads_uncaught ch t).
    { rewrite Hcall. cbn [storage_after]. split; assumption. }
    destruct Hcall as [info [st' [Hrun [_ [_ [_ [_ [_ [Hex [Hsame [Hother _]]]]]]]]]]].
    rewrite Hrun. cbn [storage_after]. split.
    + intros a. destruct (Z.eq_dec a t) as [-> | Hne].
      * right. rewrite Hsame. exact Hex.
      * rewrite (Hother a Hne). apply IH.
    + rewrite (Hother zero_address) by congruence. exact IH0.
  - rewrite (batchAnalyze_changes_nothing ch ctx ts st
               (analyzer_reachable_not_entered st Hr)).
    exact IH.
  - unfold setSecurityFlags, onlyOwner.
    destruct (require _ _) as [[]|e]; cbn [mbind result_bind storage_after]; exact IH.
Qed.

Lemma exists_marks_analysed_tokens_witness :
  let st :=
    storage_after (deployed deployer)
      (analyzeToken Scenarios.half_silent_chain (from_stranger analyzer_address now)
                    token_A (deployed deployer)) in
  (forall a, getTokenInfo a st = zero_info \/ exists_ (getTokenInfo a st) = true) /\
  getTokenInfo zero_address st = zero_info.
Proof.
  apply (exists_marks_analysed_tokens
           (storage_after (deployed deployer)
              (analyzeToken Scenarios.half_silent_chain
                 (from_stranger analyzer_address now) token_A (deployed deployer)))).
  apply reachable_analyzeToken. apply reachable_deployed.
Defined.

(** *** Names and symbols *)

Lemma le_to_Z_to_le (n : nat) :
  forall v, Keccak.le_to_Z (Keccak.Z_to_le n v) = v mod 256 ^ Z.of_nat n.
Proof.
  induction n as [|n IH]; intros v.
  - cbn. rewrite Z.mod_1_r. reflexivity.
  - cbn [Keccak.Z_to_le Keccak.le_to_Z]. rewrite IH.
    rewrite Nat2Z.inj_succ, Z.pow_succ_r by lia.
    rewrite Z.rem_mul_r by lia. reflexivity.
Qed.

(** The 20 bytes of an address determine it. *)
Lemma encode_address_inj (a b : address) :
  0 <= a < 2 ^ 160 -> 0 <= b < 2 ^ 160 ->
  encode_address a = encode_address b -> a = b.
Proof.
  intros Ha Hb Heq. unfold encode_address, Keccak.Z_to_be in Heq.
  apply (f_equal (@rev Z)) in Heq. rewrite !rev_involutive in Heq.
  apply (f_equal Keccak.le_to_Z) in Heq. rewrite !le_to_Z_to_le in Heq.
  change (256 ^ Z.of_nat 20) with (2 ^ 160) in Heq.
  rewrite !Z.mod_small in Heq by assumption. exact Heq.
Qed.

Lemma hex_digit_inj (n m : Z) :
  0 <= n < 16 -> 0 <= m < 16 ->
  Rendering.hex_digit n = Rendering.hex_digit m -> n = m.
Proof.
  intros Hn Hm. rewrite <- (Z2Nat.id n), <- (Z2Nat.id m) by lia.
  assert (Hkn : (Z.to_nat n < 16)%nat) by lia.
  assert (Hkm : (Z.to_nat m < 16)%nat) by lia.
  revert Hkn Hkm. generalize (Z.to_nat n) (Z.to_nat m). intros kn km Hkn Hkm.
  do 16 (destruct kn as [|kn]; [
    do 16 (destruct km as [|km]; [first [reflexivity | discriminate]|]); lia |]).
  lia.
Qed.

Lemma hex_of_byte_inj (x y : Z) :
  0 <= x < 256 -> 0 <= y < 256 ->
  Rendering.hex_of_byte x = Rendering.hex_of_byte y -> x = y.
Proof.
  intros Hx Hy Heq. unfold Rendering.hex_of_byte in Heq.
  injection Heq as Hhi Hlo.
  apply hex_digit_inj in Hhi;
    [| Z.div_mod_to_equations; lia | Z.div_mod_to_equations; lia].
  apply hex_digit_inj in Hlo;
    [| Z.div_mod_to_equations; lia | Z.div_mod_to_equations; lia].
  Z.div_mod_to_equations. lia.
Qed.

Lemma hex_of_bytes_inj (l1 : list Z) :
  forall l2,
    List.Forall (fun b => 0 <= b < 256) l1 ->
    List.Forall (fun b => 0 <= b < 256) l2 ->
    Rendering.hex_of_bytes l1 = Rendering.hex_of_bytes l2 -> l1 = l2.
Proof.
  induction l1 as [|x l1 IH]; intros [|y l2] H1 H2 Heq.
  - reflexivity.
  - discriminate Heq.
  - discriminate Heq.
  - inversion H1 as [|? ? Hx H1']; subst. inversion H2 as [|? ? Hy H2']; subst.
    unfold Rendering.hex_of_bytes in Heq. cbn [flat_map] in Heq.
    unfold Rendering.hex_of_byte at 1 3 in Heq. cbn [app] in Heq.
    injection Heq as Hhi Hlo Hrest.
    assert (Hxy : x = y).
    { apply hex_of_byte_inj; [exact Hx | exact Hy |].
      unfold Rendering.hex_of_byte. rewrite Hhi, Hlo. reflexivity. }
    subst y. f_equal. apply IH; assumption.
Qed.

Lemma encode_address_in_range (a : address) :
  List.Forall (fun b => 0 <= b < 256) (encode_address a).
Proof.
  rewrite encode_address_bytes. apply List.Forall_forall. intros b Hin.
  apply in_map_iff in Hin. destruct Hin as [i [<- _]]. apply bytes32_at_range.
Qed.

(** Distinct addresses get distinct fallback names: on 160-bit addresses
    [addressToString] is one to one. *)
Theorem addressToString_is_injective (a b : address) :
  0 <= a < 2 ^ 160 ->
  0 <= b < 2 ^ 160 ->
  addressToString a = addressToString b ->
  a = b.
Proof.
  intros Ha Hb Heq. rewrite !addressToString_hex_rendering in Heq.
  unfold Rendering.hex_rendering in Heq.
  apply (f_equal list_ascii_of_string) in Heq.
  rewrite !list_ascii_of_string_of_list_ascii in Heq.
  assert (Hhex : Rendering.hex_of_bytes (encode_address a)
                 = Rendering.hex_of_bytes (encode_address b)).
  { revert Heq.
    generalize (Rendering.hex_of_bytes (encode_address a))
               (Rendering.hex_of_bytes (encode_address b)).
    intros la lb Heq. injection Heq as Hl. exact Hl. }
  apply encode_address_inj; [exact Ha | exact Hb |].
  apply hex_of_bytes_inj; [apply encode_address_in_range
                          | apply encode_address_in_range | exact Hhex].
Qed.

Lemma addressToString_is_injective_witness : token_A = token_A.
Proof.
  apply (addressToString_is_injective token_A token_A).
  - vm_compute. split; [discriminate | reflexivity].
  - vm_compute. split; [discriminate | reflexivity].
  - reflexivity.
Defined.

Lemma substring_of_rendering (hi lo : nat -> ascii) :
  let name :=
    string_of_list_ascii
      ("0" :: "x" :: flat_map (fun i => [hi i; lo i]) (seq 0 20))%char in
  let symbol := string_of_list_ascii (flat_map (fun i => [hi i; lo i]) (seq 0 3)) in
  String.substring 2 6 name = symbol /\
  String.substring 0 6 name = String.append "0x" (String.substring 0 4 symbol).
Proof. split; reflexivity. Qed.

(** The fallback symbol is cut out of the fallback name: it is the six
    characters that follow "0x". The first six characters of the name,
    which is what the TypeScript services take as the symbol of an address
    string ([contractAddress.substring(0, 6)]), are something else: "0x"
    and only the first four characters of the contract's symbol. *)
Theorem fallback_symbol_is_cut_from_name (a : address) :
  String.substring 2 6 (addressToString a) = addressToShortString a /\
  String.substring 0 6 (addressToString a)
  = String.append "0x" (String.substring 0 4 (addressToShortString a)).
Proof.
  unfold addressToString, addressToShortString. cbv zeta.
  rewrite (addressToString_loop
             (fun i => alphabet_at (Z.shiftr (bytes32_at a (Z.of_nat i + 12)) 4))
             (fun i => alphabet_at (Z.land (bytes32_at a (Z.of_nat i + 12)) 0x0f))).
  rewrite (addressToShortString_loop
             (fun i => alphabet_at (Z.shiftr (bytes32_at a (Z.of_nat i + 12)) 4))
             (fun i => alphabet_at (Z.land (bytes32_at a (Z.of_nat i + 12)) 0x0f))).
  apply (substring_of_rendering
           (fun i => alphabet_at (Z.shiftr (bytes32_at a (Z.of_nat i + 12)) 4))
           (fun i => alphabet_at (Z.land (bytes32_at a (Z.of_nat i + 12)) 0x0f))).
Qed.

End TokenAnalyzerMore.

(** ** The security stage of the pipeline *)

Section SecurityStageMore.
Import SecurityAnalysis.

(** Whatever the on-chain data and whatever the four draws, a result of
    risk level CRITICAL has its honeypot status set: the level starts at a
    score of 75 and the status is set from a score above 70. So every
    audit that step 7 writes back as a scam is also reported as a
    honeypot. *)
Theorem critical_results_are_honeypots (scamAnalysis : option ScamData) (d : Draws) :
  let r := performSecurityAnalysis scamAnalysis d in
  (riskLevel r = CRITICAL <-> 75 <= riskScore r) /\
  (is_critical (riskLevel r) = true -> honeypotStatus r = true) /\
  (let '(_, isScam, _) := writeBack r in isScam = true -> honeypotStatus r = true).
Proof.
  cbv zeta.
  assert (Hlevel : forall s, EnhancedAuditService.riskLevel s = CRITICAL <-> 75 <= s).
  { intros s. destruct (riskLevel_cases s) as [[Hr ->] | [[Hr ->] | [[Hr ->] | [Hr ->]]]];
      split; intros; try discriminate; try reflexivity; lia. }
  assert (Hcrit : forall s b,
             is_critical (EnhancedAuditService.riskLevel s) = true ->
             b || (70 <? s) = true).
  { intros s b Hc.
    assert (H75 : 75 <= s).
    { apply Hlevel. destruct (EnhancedAuditService.riskLevel s);
        first [reflexivity | discriminate Hc]. }
    assert (H70 : (70 <? s) = true) by (apply Z.ltb_lt; lia).
    rewrite H70. apply orb_true_r. }
  destruct scamAnalysis as [s|]; cbn [performSecurityAnalysis riskLevel riskScore
                                       honeypotStatus writeBack];
    (split; [apply Hlevel|]); (split; apply Hcrit).
Qed.

(** A token the chain flags as a honeypot is never reported as sellable:
    whatever the draws, [canSell] is false and the honeypot status is set,
    and step 7 writes it back with [isHoneypot] set. *)
Theorem on_chain_honeypot_is_never_sellable (s : ScamData) (d : Draws) :
  isHoneypot s = true ->
  let r := performSecurityAnalysis (Some s) d in
  canSell r = false /\
  honeypotStatus r = true /\
  writeBack r = (riskScore r, is_critical (riskLevel r), true).
Proof.
  intros Hh. cbv zeta. unfold writeBack.
  cbn [performSecurityAnalysis canSell honeypotStatus riskScore riskLevel].
  rewrite Hh. repeat split.
Qed.

Lemma on_chain_honeypot_is_never_sellable_witness :
  let s := mkScamData false false false false false true (Some 0) in
  let d := mkDraws 12 2 true true in
  let r := performSecurityAnalysis (Some s) d in
  canSell r = false /\
  honeypotStatus r = true /\
  writeBack r = (riskScore r, is_critical (riskLevel r), true).
Proof.
  apply (on_chain_honeypot_is_never_sellable
           (mkScamData false false false false false true (Some 0))
           (mkDraws 12 2 true true)).
  reflexivity.
Defined.

Lemma length_push_if (c : bool) (i : SecurityIssue) (l : list SecurityIssue) :
  length (push_if c i l) = (length l + Nat.b2n c)%nat.
Proof. destruct c; cbn; [rewrite length_app; reflexivity | lia]. Qed.

(** With on-chain data, there is one issue per flag that is set, in the
    order hidden mint, blacklist, high tax, liquidity drain, ownership; the
    list is empty exactly when no flag is set; and score, level and issues
    do not depend on the draws. *)
Theorem one_issue_per_flag (s : ScamData) (d d' : Draws) :
  let r := performSecurityAnalysis (Some s) d in
  length (issues r) =
    (Nat.b2n (hasHiddenMint s) + Nat.b2n (hasBlacklist s) + Nat.b2n (hasHighTax s)
     + Nat.b2n (hasLiquidityDrain s) + Nat.b2n (hasOwnershipIssues s))%nat /\
  map title (issues r) =
    (if hasHiddenMint s then ["Hidden Mint Function"] else [])
    ++ (if hasBlacklist s then ["Blacklist Function"] else [])
    ++ (if hasHighTax s then ["High Tax Functions"] else [])
    ++ (if hasLiquidityDrain s then ["Liquidity Drain Risk"] else [])
    ++ (if hasOwnershipIssues s then ["Ownership Issues"] else []) /\
  (issues r = [] <->
   hasHiddenMint s = false /\ hasBlacklist s = false /\ hasHighTax s = false /\
   hasLiquidityDrain s = false /\ hasOwnershipIssues s = false) /\
  issues (performSecurityAnalysis (Some s) d') = issues r /\
  riskScore (performSecurityAnalysis (Some s) d') = riskScore r /\
  riskLevel (performSecurityAnalysis (Some s) d') = riskLevel r /\
  honeypotStatus (performSecurityAnalysis (Some s) d') = honeypotStatus r.
Proof.
  cbv zeta. cbn [performSecurityAnalysis issues riskScore riskLevel honeypotStatus].
  split.
  { rewrite !length_push_if. cbn [length]. lia. }
  split.
  { destruct (hasHiddenMint s), (hasBlacklist s), (hasHighTax s),
      (hasLiquidityDrain s), (hasOwnershipIssues s); reflexivity. }
  split.
  { destruct (hasHiddenMint s), (hasBlacklist s), (hasHighTax s),
      (hasLiquidityDrain s), (hasOwnershipIssues s); cbn;
      split; intros H; first [discriminate H | reflexivity
                             | (repeat split; reflexivity)
                             | (destruct H as [H1 [H2 [H3 [H4 H5]]]];
                                first [discriminate H1 | discriminate H2
                                      | discriminate H3 | discriminate H4
                                      | discriminate H5])]. }
  repeat split.
Qed.

(** Without on-chain data, and with draws in the range [Math.floor]
    gives them, the score is between 0 and 99, there are one to three
    issues, a prefix of the fixed list that starts with the high-tax
    warning, and the honeypot status is set exactly above a score of 70. *)
Theorem fallback_analysis_ranges (d : Draws) :
  0 <= score_draw d < 100 ->
  0 <= issues_draw d < 3 ->
  let r := performSecurityAnalysis None d in
  0 <= riskScore r <= 99 /\
  (1 <= length (issues r) <= 3)%nat /\
  issues r = firstn (length (issues r)) possibleIssues /\
  (exists rest,
      issues r = mkIssue warning "High Tax Functions"
                   "Contract contains functions that can set high buy/sell taxes"
                   medium :: rest) /\
  (honeypotStatus r = true <-> 70 < riskScore r) /\
  canSell r = sell_draw d /\
  canBuy r = buy_draw d.
Proof.
  intros Hs Hi. cbv zeta.
  cbn [performSecurityAnalysis riskScore issues honeypotStatus canSell canBuy
       orb negb andb].
  split; [lia|].
  assert (Hk : issues_draw d = 0 \/ issues_draw d = 1 \/ issues_draw d = 2) by lia.
  destruct Hk as [-> | [-> | ->]];
    [ change (Z.to_nat (0 + 1)) with 1%nat
    | change (Z.to_nat (1 + 1)) with 2%nat
    | change (Z.to_nat (2 + 1)) with 3%nat ];
    unfold possibleIssues; cbn [firstn length];
    (split; [lia|]); (split; [reflexivity|]); (split; [eexists; reflexivity|]);
    (split; [apply Z.ltb_lt|]); split; reflexivity.
Qed.

Lemma fallback_analysis_ranges_witness :
  let r := performSecurityAnalysis None (mkDraws 71 1 true false) in
  0 <= riskScore r <= 99 /\
  (1 <= length (issues r) <= 3)%nat /\
  issues r = firstn (length (issues r)) possibleIssues /\
  (exists rest,
      issues r = mkIssue warning "High Tax Functions"
                   "Contract contains functions that can set high buy/sell taxes"
                   medium :: rest) /\
  (honeypotStatus r = true <-> 70 < riskScore r) /\
  canSell r = sell_draw (mkDraws 71 1 true false) /\
  canBuy r = buy_draw (mkDraws 71 1 true false).
Proof.
  apply (fallback_analysis_ranges (mkDraws 71 1 true false)).
  - cbn. lia.
  - cbn. lia.
Defined.

End SecurityStageMore.

(** ** From the contracts to the security stage *)

Section OnChainToSecurityStage.
Import SecurityAnalysis BlockchainService Examples.

(** The honeypot verdict of the pipeline is the detector's. For every
    token and every reachable storage of the detector, the security stage
    run on what [analyzeTokenOnChain] reads reports the stored score, a
    number between 0 and 125, and a honeypot status equal to the stored
    [isHoneypot]: its own test, a score above 70, never adds a token the
    detector has not flagged. *)
Theorem pipeline_honeypot_is_the_detectors (a : address)
    (analyzer : TokenAnalyzer.State) (detector : ScamDetector.State)
    (registry : AuditRegistry.State) (d : Draws) :
  ScamDetector.reachable detector ->
  let data := analyzeTokenOnChain a analyzer detector registry in
  let r := performSecurityAnalysis (Some (scamData_of (scamAnalysis data))) d in
  riskScore r = ScamDetector.riskScore (ScamDetector.getScamAnalysis a detector) /\
  0 <= riskScore r <= 125 /\
  honeypotStatus r = ScamDetector.isHoneypot (ScamDetector.getScamAnalysis a detector) /\
  canSell r =
    negb (ScamDetector.isHoneypot (ScamDetector.getScamAnalysis a detector))
    && sell_draw d.
Proof.
  intros Hreach. cbv zeta.
  pose proof (flags_in_order_everywhere detector Hreach a) as [Hrange [_ Hhp]].
  unfold analyzeTokenOnChain. cbv zeta. cbn [scamAnalysis].
  generalize dependent (ScamDetector.getScamAnalysis a detector).
  intros f Hrange Hhp. unfold scamData_of.
  cbn [performSecurityAnalysis riskScore honeypotStatus canSell riskScore_parsed
       isHoneypot default].
  split; [reflexivity|]. split; [exact Hrange|]. split; [|reflexivity].
  destruct (ScamDetector.isHoneypot f) eqn:Hf; [reflexivity|].
  cbn [orb]. apply Z.ltb_ge.
  destruct (Z_le_gt_dec (ScamDetector.riskScore f) 70) as [Hle | Hgt]; [exact Hle|].
  assert (Htrue : false = true) by (apply Hhp; lia).
  discriminate Htrue.
Qed.

Lemma pipeline_honeypot_is_the_detectors_witness :
  let detector :=
    storage_after (ScamDetector.deployed deployer)
      (ScamDetector.analyzeToken detector_chain
         (from_stranger detector_address 1700000005) token_B
         (ScamDetector.deployed deployer)) in
  let data :=
    analyzeTokenOnChain token_B (TokenAnalyzer.deployed deployer) detector
                        (AuditRegistry.deployed deployer) in
  let r :=
    performSecurityAnalysis (Some (scamData_of (scamAnalysis data)))
                            (mkDraws 3 0 true true) in
  riskScore r = ScamDetector.riskScore (ScamDetector.getScamAnalysis token_B detector) /\
  0 <= riskScore r <= 125 /\
  honeypotStatus r
  = ScamDetector.isHoneypot (ScamDetector.getScamAnalysis token_B detector) /\
  canSell r =
    negb (ScamDetector.isHoneypot (ScamDetector.getScamAnalysis token_B detector))
    && sell_draw (mkDraws 3 0 true true).
Proof.
  apply (pipeline_honeypot_is_the_detectors token_B (TokenAnalyzer.deployed deployer)
           (storage_after (ScamDetector.deployed deployer)
              (ScamDetector.analyzeToken detector_chain
                 (from_stranger detector_address 1700000005) token_B
                 (ScamDetector.deployed deployer)))
           (AuditRegistry.deployed deployer) (mkDraws 3 0 true true)).
  apply ScamDetector.reachable_analyzeToken. apply ScamDetector.reachable_deployed.
Defined.

(** The on-chain stage only reads. For a token that no one has had the
    contracts analyse or audit, [analyzeTokenOnChain] returns the empty
    record with [exists] clear, the all-clear flags and no audit record,
    and the security stage makes of it a score of 0, level LOW, no issue
    and no honeypot, whatever the token is. *)
Theorem unanalysed_token_reads_as_low_risk (a : address)
    (analyzer : TokenAnalyzer.State) (detector : ScamDetector.State)
    (registry : AuditRegistry.State) (d : Draws) :
  TokenAnalyzer.analyzedTokens analyzer !! a = None ->
  ScamDetector.scamAnalysis detector !! a = None ->
  AuditRegistry.auditRecords registry !! a = None ->
  let data := analyzeTokenOnChain a analyzer detector registry in
  let r := performSecurityAnalysis (Some (scamData_of (scamAnalysis data))) d in
  tokenInfo data = TokenAnalyzer.zero_info /\
  TokenAnalyzer.exists_ (tokenInfo data) = false /\
  isAudited data = false /\
  auditRecord data = None /\
  riskScore r = 0 /\
  riskLevel r = LOW /\
  issues r = [] /\
  honeypotStatus r = false /\
  canSell r = sell_draw d.
Proof.
  intros Hinfo Hscam Haudit. cbv zeta. unfold analyzeTokenOnChain. cbv zeta.
  unfold TokenAnalyzer.getTokenInfo, ScamDetector.getScamAnalysis,
    AuditRegistry.isTokenAudited, AuditRegistry.getAuditRecord, mapping_get.
  rewrite Hinfo, Hscam, Haudit. cbn. repeat split.
Qed.

Lemma unanalysed_token_reads_as_low_risk_witness :
  let data :=
    analyzeTokenOnChain token_B (TokenAnalyzer.deployed deployer)
                        (ScamDetector.deployed deployer)
                        (AuditRegistry.deployed deployer) in
  let r :=
    performSecurityAnalysis (Some (scamData_of (scamAnalysis data)))
                            (mkDraws 3 0 true true) in
  tokenInfo data = TokenAnalyzer.zero_info /\
  TokenAnalyzer.exists_ (tokenInfo data) = false /\
  isAudited data = false /\
  auditRecord data = None /\
  riskScore r = 0 /\
  riskLevel r = LOW /\
  issues r = [] /\
  honeypotStatus r = false /\
  canSell r = sell_draw (mkDraws 3 0 true true).
Proof.
  apply (unanalysed_token_reads_as_low_risk token_B (TokenAnalyzer.deployed deployer)
           (ScamDetector.deployed deployer) (AuditRegistry.deployed deployer)
           (mkDraws 3 0 true true)).
  - reflexivity.
  - reflexivity.
  - reflexivity.
Defined.

End OnChainToSecurityStage.

(** ** The social sentiment score and its flags *)

Section SentimentMore.
Import SocialSentimentService.

(** The overall score stays between -100 and 100 and the label follows it:
    positive exactly above 25, negative exactly below -25. Without Twitter
    data the result is neutral with score 0 whatever the other metrics
    say; with it, the metrics can only raise the Twitter score, by at most
    20, before the clamp. *)
Theorem overall_sentiment_is_clamped_and_labelled
    (twitterData : option TwitterData) (socialMetrics : option SocialMetrics) :
  let r := calculateOverallSentiment twitterData socialMetrics in
  -100 <= score r <= 100 /\
  (overall r = positive <-> 25 < score r) /\
  (overall r = negative <-> score r < -25) /\
  match twitterData with
  | None => r = mkOverall neutral 0
  | Some tw =>
      Z.max (-100) (Z.min 100 (twitter_score tw)) <= score r
      <= Z.max (-100) (Z.min 100 (twitter_score tw + 20))
  end.
Proof.
  cbv zeta. destruct twitterData as [tw|].
  - unfold calculateOverallSentiment. cbv zeta.
    set (raw := match socialMetrics with
                | Some m => _
                | None => twitter_score tw
                end).
    assert (Hraw : twitter_score tw <= raw <= twitter_score tw + 20).
    { subst raw. destruct socialMetrics as [m|]; [|lia].
      destruct (500 <? twitterMentions m), (50 <? redditPosts m),
        (5000 <? telegramMembers m); lia. }
    clearbody raw. cbn [score overall].
    split; [lia|].
    destruct (Z.ltb_spec 25 (Z.max (-100) (Z.min 100 raw))) as [Hp | Hp].
    + split; [split; [intros _; exact Hp | reflexivity]|].
      split; [split; [discriminate | lia]|]. lia.
    + destruct (Z.ltb_spec (Z.max (-100) (Z.min 100 raw)) (-25)) as [Hn | Hn].
      * split; [split; [discriminate | lia]|].
        split; [split; [intros _; exact Hn | reflexivity]|]. lia.
      * split; [split; [discriminate | lia]|].
        split; [split; [discriminate | lia]|]. lia.
  - cbn. split; [lia|]. split; [split; [discriminate | lia]|].
    split; [split; [discriminate | lia]|]. reflexivity.
Qed.

(** The risk flags never contradict each other: the hype flag comes with
    neither the low-presence flag nor the negative-sentiment flag, so
    there are at most three flags; without social metrics the only
    possible flag is the negative-sentiment one. *)
Theorem risk_flags_are_consistent (sentiment : OverallSentiment)
    (socialMetrics : option SocialMetrics) :
  let flags := identifyRiskFlags sentiment socialMetrics in
  (In "Potential artificial hype detected" flags ->
   ~ In "Very low social media presence" flags /\
   ~ In "Highly negative social sentiment" flags) /\
  (length flags <= 3)%nat /\
  (socialMetrics = None ->
   flags = if score sentiment <? -50 then ["Highly negative social sentiment"] else []).
Proof.
  cbv zeta. unfold identifyRiskFlags. cbv zeta.
  destruct socialMetrics as [m|].
  - destruct (Z.ltb_spec (score sentiment) (-50)) as [Hneg | Hneg];
      destruct (Z.ltb_spec (twitterMentions m) 10) as [Hlow | Hlow];
      destruct (Z.ltb_spec (telegramMembers m) 100) as [Hsmall | Hsmall];
      destruct (Z.ltb_spec 1000 (twitterMentions m)) as [Hmany | Hmany];
      destruct (Z.ltb_spec 80 (score sentiment)) as [Hhigh | Hhigh];
      try lia; cbn;
      (split; [|split; [lia | discriminate]]);
      intros Hin; split; intros Hin';
      repeat (destruct Hin as [Hin | Hin]; [discriminate Hin|]);
      try contradiction;
      repeat (destruct Hin' as [Hin' | Hin']; [discriminate Hin'|]);
      contradiction.
  - destruct (score sentiment <? -50); cbn;
      (split; [|split; [lia | reflexivity]]);
      intros Hin; repeat (destruct Hin as [Hin | Hin]; [discriminate Hin|]);
      contradiction.
Qed.

Lemma positive_label_above_25 (twitterData : option TwitterData)
    (socialMetrics : option SocialMetrics) :
  overall (calculateOverallSentiment twitterData socialMetrics) = positive <->
  25 < score (calculateOverallSentiment twitterData socialMetrics).
Proof.
  destruct twitterData as [tw|]; [|cbn; split; [discriminate | lia]].
  unfold calculateOverallSentiment. cbv zeta. cbn [overall score].
  match goal with |- context [25 <? ?x] => generalize x end. intros x.
  destruct (Z.ltb_spec 25 x) as [Hp | Hp]; [split; [intros _; exact Hp | reflexivity]|].
  destruct (x <? -25); split; first [discriminate | lia].
Qed.

(** A token can only trend with a positive overall sentiment: whenever
    [trendingStatus] holds of the sentiment computed from the same
    sources, that sentiment is labelled positive, and no risk flag about
    negative sentiment or low presence is raised. *)
Theorem trending_means_positive (twitterData : option TwitterData)
    (socialMetrics : option SocialMetrics) :
  let sentiment := calculateOverallSentiment twitterData socialMetrics in
  trendingStatus sentiment socialMetrics = true ->
  overall sentiment = positive /\
  ~ In "Highly negative social sentiment" (identifyRiskFlags sentiment socialMetrics) /\
  ~ In "Very low social media presence" (identifyRiskFlags sentiment socialMetrics).
Proof.
  cbv zeta. intros Htrend.
  pose proof (positive_label_above_25 twitterData socialMetrics) as Hpos.
  unfold trendingStatus in Htrend. apply andb_true_iff in Htrend.
  destruct Htrend as [Hscore Hm]. apply Z.ltb_lt in Hscore.
  split; [apply Hpos; lia|]. clear Hpos. revert Hscore.
  generalize (calculateOverallSentiment twitterData socialMetrics).
  intros s Hscore.
  destruct socialMetrics as [m|]; [|discriminate Hm]. apply Z.ltb_lt in Hm.
  unfold identifyRiskFlags. cbv zeta.
  assert (H1 : (score s <? -50) = false) by (apply Z.ltb_ge; lia).
  assert (H2 : (twitterMentions m <? 10) = false) by (apply Z.ltb_ge; lia).
  rewrite H1, H2.
  destruct (telegramMembers m <? 100), ((1000 <? twitterMentions m) && (80 <? score s));
    cbn; split; intros Hin;
    repeat (destruct Hin as [Hin | Hin]; [discriminate Hin|]); contradiction.
Qed.

Lemma trending_means_positive_witness :
  let tw := Some (mkTwitterData positive 60 40) in
  let m := Some (mkSocialMetrics 700 60 800 300) in
  overall (calculateOverallSentiment tw m) = positive /\
  ~ In "Highly negative social sentiment"
       (identifyRiskFlags (calculateOverallSentiment tw m) m) /\
  ~ In "Very low social media presence"
       (identifyRiskFlags (calculateOverallSentiment tw m) m).
Proof.
  apply (trending_means_positive (Some (mkTwitterData positive 60 40))
           (Some (mkSocialMetrics 700 60 800 300))).
  reflexivity.
Defined.

End SentimentMore.
